(** * basicpng: a shallow embedding of [basicpng.py] and its properties

    The Python module decodes a subset of PNG: it reads the chunk container,
    keeps IHDR / PLTE / IDAT / IEND, inflates the image data, reverses the
    per-row filters and serves RGBA tuples through [get].

    Conventions of the embedding
    - Python [int] is [Z]; a [bytes] / [bytearray] value is a [list Z] whose
      elements are in [0, 255].
    - Python [float] appears in three places of the source ([len(data) / 2],
      [w * c * d / 8 + 1], [(a + b) / 2]) and in the normalizer.  It is
      embedded as an exact rational ([Q]): every float the decoder can form
      in the first three places is a small dyadic rational, which binary64
      represents exactly.
    - A raised exception is the [Raise] case of [result]; the object under
      construction is lost with it, as it is for the caller of
      [PngDecode(fname)]. *)

From Stdlib Require Import ZArith List Lia Bool String Ascii QArith Qround.
Import ListNotations.
Open Scope Z_scope.

(** ** Exceptions and the error monad *)

Inductive exn : Type :=
| TypeError
| IndexError
| KeyError
| ValueError
| ZeroDivisionError
| UnicodeDecodeError
| ZlibError
| EndReading                  (* class EndReading(Exception) *)
| NotPng                      (* "... corrupt or not a png?" *)
| UnsupportedCompression      (* "Only DEFLATE compression (method 0) is supported!" *)
| UnsupportedFilterMethod     (* "Only filter method 0 is supported!" *)
| UnsupportedInterlace        (* "Only interlace method 0 (no interlace) is supported! ..." *)
| NonStandardFilter (t : Z)   (* "Non standard filter type ..." *)
| MissingPalette.             (* "... uses indexed color, but there is not PLTE chunk ..." *)

Inductive result (A : Type) : Type :=
| Ok (a : A)
| Raise (e : exn).
Arguments Ok {A} a.
Arguments Raise {A} e.

Definition bind {A B : Type} (m : result A) (k : A -> result B) : result B :=
  match m with
  | Ok a => k a
  | Raise e => Raise e
  end.

Notation "x <- m ;; k" := (bind m (fun x => k))
  (at level 61, m at next level, right associativity).
Notation "' p <- m ;; k" := (bind m (fun x => match x with p => k end))
  (at level 61, p pattern, m at next level, right associativity).

(** ** Python values used by the source *)

(** A number is an [int] or a [float]. *)
Inductive pynum : Type :=
| PyInt (z : Z)
| PyFloat (q : Q).

(** [a / b] on two ints is true division and always yields a float. *)
Definition py_truediv (a b : Z) : result pynum :=
  if b =? 0 then Raise ZeroDivisionError
  else Ok (PyFloat (Qdiv (inject_Z a) (inject_Z b))).

(** [x + n] with [n] an int literal. *)
Definition py_add_int (x : pynum) (n : Z) : pynum :=
  match x with
  | PyInt z => PyInt (z + n)
  | PyFloat q => PyFloat (Qplus q (inject_Z n))
  end.

(** [int(x)] truncates toward zero. *)
Definition py_int (x : pynum) : Z :=
  match x with
  | PyInt z => z
  | PyFloat q => Z.quot (Qnum q) (Zpos (Qden q))
  end.

(** [math.floor(x)]. *)
Definition py_floor (x : pynum) : Z :=
  match x with
  | PyInt z => z
  | PyFloat q => Qfloor q
  end.

(** [round(x)] of Python 3: to the nearest integer, ties to the even one. *)
Definition py_round (x : pynum) : Z :=
  match x with
  | PyInt z => z
  | PyFloat q =>
      let f := Qfloor q in
      let twice_frac := Qminus (Qmult (inject_Z 2) q) (inject_Z (2 * f)) in
      match Qcompare twice_frac (inject_Z 1) with
      | Lt => f
      | Gt => f + 1
      | Eq => if Z.even f then f else f + 1
      end
  end.

(** [range(0, stop)]: only an int is accepted as a bound. *)
Definition py_range (stop : pynum) : result (list Z) :=
  match stop with
  | PyInt z => Ok (map Z.of_nat (seq 0 (Z.to_nat z)))
  | PyFloat _ => Raise TypeError
  end.

(** A value passed where the callee tests truthiness: a bool or an int. *)
Inductive pyval : Type :=
| VBool (b : bool)
| VInt (z : Z).

Definition truthy (v : pyval) : bool :=
  match v with
  | VBool b => b
  | VInt z => negb (z =? 0)
  end.

Definition as_int (v : pyval) : Z :=
  match v with
  | VBool b => if b then 1 else 0
  | VInt z => z
  end.

(** ** Sequences: [len], indexing, slicing, item assignment *)

Definition len {A : Type} (l : list A) : Z := Z.of_nat (List.length l).

(** [l[i]]: a negative index counts from the end; out of range raises. *)
Definition py_index {A : Type} (l : list A) (i : Z) : result A :=
  let j := if i <? 0 then i + len l else i in
  if j <? 0 then Raise IndexError
  else match nth_error l (Z.to_nat j) with
       | Some a => Ok a
       | None => Raise IndexError
       end.

(** Normalisation of a slice bound. *)
Definition py_bound (n i : Z) : Z :=
  if i <? 0 then Z.max 0 (i + n) else Z.min i n.

(** [l[a:b]]; never raises. *)
Definition py_slice {A : Type} (l : list A) (a b : Z) : list A :=
  let a' := py_bound (len l) a in
  let b' := py_bound (len l) b in
  firstn (Z.to_nat (b' - a')) (skipn (Z.to_nat a') l).

(** [l[a:]]. *)
Definition py_slice_from {A : Type} (l : list A) (a : Z) : list A :=
  skipn (Z.to_nat (py_bound (len l) a)) l.

Fixpoint set_nth {A : Type} (l : list A) (n : nat) (v : A) : list A :=
  match l, n with
  | [], _ => []
  | _ :: t, O => v :: t
  | x :: t, S n' => x :: set_nth t n' v
  end.

(** [l[i] = v]. *)
Definition py_setitem {A : Type} (l : list A) (i : Z) (v : A) : result (list A) :=
  let j := if i <? 0 then i + len l else i in
  if (j <? 0) || (len l <=? j) then Raise IndexError
  else Ok (set_nth l (Z.to_nat j) v).

(** [for i in range(start, start + n): s = body(i, s)], stopping at the first
    exception. *)
Fixpoint for_range {S : Type} (n : nat) (i : Z) (body : Z -> S -> result S) (s : S)
  : result S :=
  match n with
  | O => Ok s
  | Datatypes.S n' => s' <- body i s ;; for_range n' (i + 1) body s'
  end.

(** [for x in xs: s = body(x, s)]. *)
Fixpoint for_each {A S : Type} (xs : list A) (body : A -> S -> result S) (s : S)
  : result S :=
  match xs with
  | [] => Ok s
  | x :: xs' => s' <- body x s ;; for_each xs' body s'
  end.

(** ** Module-level functions *)

(** [PaethPredictor(a, b, c)], on unbounded integers. *)
Definition PaethPredictor (a b c : Z) : Z :=
  let p := a + b - c in
  let pa := Z.abs (p - a) in
  let pb := Z.abs (p - b) in
  let pc := Z.abs (p - c) in
  if (pa <=? pb) && (pa <=? pc) then a
  else if pb <=? pc then b
  else c.

(** [Clamp(x)]. *)
Definition Clamp (x : pynum) : Z :=
  let x := py_round x in
  if (x >=? 0) && (x <=? 255) then x
  else if x <? 0 then 0
  else 255.

(** [GetNormalizer(bits_per_channel, is_indexed)] returns a lambda.  The
    scaling lambda computes [x / float((1 << bits) - 1) * 255.0]; the float
    arithmetic is idealised to exact rationals here. *)
Definition GetNormalizer (bits_per_channel is_indexed : pyval) : Z -> result Z :=
  if truthy is_indexed then
    fun x => Ok x
  else
    fun x =>
      let bits := as_int bits_per_channel in
      if bits <? 0 then Raise ValueError
      else
        let d := Z.shiftl 1 bits - 1 in
        if d =? 0 then Raise ZeroDivisionError
        else Ok (Clamp (PyFloat (Qmult (Qdiv (inject_Z x) (inject_Z d)) (inject_Z 255)))).

(** One iteration of the 16-bit loop of [ExplodeBytes]. *)
Definition explode16_body (data : list Z) (i : Z) (rval : list Z) : result (list Z) :=
  b2 <- py_index data (2 * i + 1) ;;
  b1 <- (if b2 <? 128 then py_index data (2 * i + 0)
         else (hi <- py_index data (2 * i + 0) ;; Ok (Clamp (PyInt (hi + 1))))) ;;
  Ok (rval ++ [b1]).

(** The groups that one packed byte [bb] contributes, most significant
    first, as [(mask, shift)] pairs: [(bb & mask) >> shift]. *)
Definition groups4 : list (Z * Z) := [(240, 4); (15, 0)].
Definition groups2 : list (Z * Z) := [(192, 6); (48, 4); (12, 2); (3, 0)].
Definition groups1 : list (Z * Z) :=
  [(128, 7); (64, 6); (32, 5); (16, 4); (8, 3); (4, 2); (2, 1); (1, 0)].

(** [rval.append(normalizer((bb & mask) >> shift))] for each group of [bb]. *)
Definition explode_byte (normalizer : Z -> result Z) (groups : list (Z * Z))
  (bb : Z) (rval : list Z) : result (list Z) :=
  for_each groups
    (fun g rval => v <- normalizer (Z.shiftr (Z.land bb (fst g)) (snd g)) ;;
                   Ok (rval ++ [v]))
    rval.

(** [ExplodeBytes(data, bits_per_channel, is_indexed)].

    The three sub-byte branches call [GetNormalizer(is_indexed, n)]: the flag
    lands in [bits_per_channel] and the depth in [is_indexed], exactly as the
    source writes the call.  The 16-bit branch iterates over
    [range(0, len(data) / 2)], whose bound is a float. *)
Definition ExplodeBytes (data : list Z) (bits_per_channel : Z) (is_indexed : bool)
  : result (list Z) :=
  if bits_per_channel =? 8 then Ok data
  else
    let rval : list Z := [] in
    if bits_per_channel =? 16 then
      stop <- py_truediv (len data) 2 ;;
      idx <- py_range stop ;;
      for_each idx (explode16_body data) rval
    else if bits_per_channel =? 4 then
      let normalizer := GetNormalizer (VBool is_indexed) (VInt 4) in
      for_each data (explode_byte normalizer groups4) rval
    else if bits_per_channel =? 2 then
      let normalizer := GetNormalizer (VBool is_indexed) (VInt 2) in
      for_each data (explode_byte normalizer groups2) rval
    else if bits_per_channel =? 1 then
      let normalizer := GetNormalizer (VBool is_indexed) (VInt 1) in
      for_each data (explode_byte normalizer groups1) rval
    else Ok rval.

(** ** The decoder object *)

(** The attributes of a [PngDecode] instance.  [filter] and [interlace] are
    created by [IHDR] only, so they are optional here. *)
Record PngDecode : Type := mkPngDecode {
  w : Z;
  h : Z;
  color_type : Z;
  num_channels : Z;
  bit_depth : Z;
  compression : Z;
  rgba : list Z;
  idat_data : list Z;
  palette : option (list (list Z));
  filter : option Z;
  interlace : option Z
}.

Definition set_rgba (self : PngDecode) (v : list Z) : PngDecode :=
  mkPngDecode (w self) (h self) (color_type self) (num_channels self) (bit_depth self)
    (compression self) v (idat_data self) (palette self) (filter self) (interlace self).

Definition set_idat_data (self : PngDecode) (v : list Z) : PngDecode :=
  mkPngDecode (w self) (h self) (color_type self) (num_channels self) (bit_depth self)
    (compression self) (rgba self) v (palette self) (filter self) (interlace self).

Definition set_palette (self : PngDecode) (v : option (list (list Z))) : PngDecode :=
  mkPngDecode (w self) (h self) (color_type self) (num_channels self) (bit_depth self)
    (compression self) (rgba self) (idat_data self) v (filter self) (interlace self).

(** The assignments at the top of [__init__]. *)
Definition fresh_decoder : PngDecode :=
  mkPngDecode 0 0 0 0 0 0 [] [] None None None.

(** [int.from_bytes(bs, "big")]. *)
Definition from_bytes_big (bs : list Z) : Z :=
  fold_left (fun acc b => acc * 256 + b) bs 0.

(** The [CHANNELS] dict of [IHDR]; a missing key raises [KeyError]. *)
Definition CHANNELS : list (Z * Z) := [(0, 1); (2, 3); (3, 1); (4, 2); (6, 4)].

Definition dict_get (d : list (Z * Z)) (k : Z) : result Z :=
  match find (fun kv => fst kv =? k) d with
  | Some kv => Ok (snd kv)
  | None => Raise KeyError
  end.

(** [PngDecode.IHDR]. *)
Definition IHDR (self : PngDecode) (bchd : list Z) : result PngDecode :=
  let w' := from_bytes_big (py_slice bchd 0 4) in
  let h' := from_bytes_big (py_slice bchd 4 8) in
  bit_depth' <- py_index bchd 8 ;;
  color_type' <- py_index bchd 9 ;;
  compression' <- py_index bchd 10 ;;
  filter' <- py_index bchd 11 ;;
  interlace' <- py_index bchd 12 ;;
  num_channels' <- dict_get CHANNELS color_type' ;;
  if negb (compression' =? 0) then Raise UnsupportedCompression
  else if negb (filter' =? 0) then Raise UnsupportedFilterMethod
  else if negb (interlace' =? 0) then Raise UnsupportedInterlace
  else Ok (mkPngDecode w' h' color_type' num_channels' bit_depth' compression'
             (rgba self) (idat_data self) (palette self) (Some filter') (Some interlace')).

(** [PngDecode.IDAT]. *)
Definition IDAT (self : PngDecode) (bchd : list Z) : result PngDecode :=
  Ok (set_idat_data self (idat_data self ++ bchd)).

(** The body of the loop of [PLTE]:
    [self.palette.append([bchd[3*i+0], bchd[3*i+1], bchd[3*i+2]])]. *)
Definition PLTE_body (bchd : list Z) (i : Z) (pal : list (list Z))
  : result (list (list Z)) :=
  r <- py_index bchd (3 * i + 0) ;;
  g <- py_index bchd (3 * i + 1) ;;
  b <- py_index bchd (3 * i + 2) ;;
  Ok (pal ++ [[r; g; b]]).

(** [PngDecode.PLTE]; [sz = len(bchd) // 3]. *)
Definition PLTE (self : PngDecode) (bchd : list Z) : result PngDecode :=
  let sz := len bchd / 3 in
  if (sz =? 0) || (sz >? 255) then Ok self
  else
    entries <- for_range (Z.to_nat sz) 0 (PLTE_body bchd) [] ;;
    Ok (set_palette self (Some entries)).

(** [PngDecode.IEND]. *)
Definition IEND (self : PngDecode) (bchd : list Z) : result PngDecode :=
  Raise EndReading.

(** ** Scanline reconstruction *)

Definition zeros8 : list Z := [0; 0; 0; 0; 0; 0; 0; 0].

(** The row length computed by [decompress]:
    [www = int((self.w * num_channels * bit_depth / 8) + 1)]. *)
Definition row_stride (self : PngDecode) : result Z :=
  q <- py_truediv (w self * num_channels self * bit_depth self) 8 ;;
  Ok (py_int (py_add_int q 1)).

(** [brow = ddat[j * www:(j+1) * www]]. *)
Definition scanline (ddat : list Z) (www j : Z) : list Z :=
  py_slice ddat (j * www) ((j + 1) * www).

(** Loop bodies of the four filtering branches; the loop state is
    [(buffer, self.rgba)], or [self.rgba] alone for Up. *)
Definition sub_body (bpp : Z) (i : Z) (st : list Z * list Z)
  : result (list Z * list Z) :=
  let '(buffer, out) := st in
  x <- py_index buffer (i + 8) ;;
  l <- py_index buffer (i + 8 - bpp) ;;
  let decoded := (x + l) mod 256 in
  buffer' <- py_setitem buffer (i + 8) decoded ;;
  Ok (buffer', out ++ [decoded]).

Definition up_body (buffer prior : list Z) (i : Z) (out : list Z) : result (list Z) :=
  x <- py_index buffer i ;;
  u <- py_index prior i ;;
  let decoded := (x + u) mod 256 in
  Ok (out ++ [decoded]).

Definition average_body (bpp : Z) (prior : list Z) (i : Z) (st : list Z * list Z)
  : result (list Z * list Z) :=
  let '(buffer, out) := st in
  x <- py_index buffer (i + 8) ;;
  l <- py_index buffer (i + 8 - bpp) ;;
  u <- py_index prior (i + 8) ;;
  half <- py_truediv (l + u) 2 ;;
  let decoded := (x + py_floor half) mod 256 in
  buffer' <- py_setitem buffer (i + 8) decoded ;;
  Ok (buffer', out ++ [decoded]).

Definition paeth_body (bpp : Z) (prior : list Z) (i : Z) (st : list Z * list Z)
  : result (list Z * list Z) :=
  let '(buffer, out) := st in
  x <- py_index buffer (i + 8) ;;
  l <- py_index buffer (i + 8 - bpp) ;;
  u <- py_index prior (i + 8) ;;
  ul <- py_index prior (i + 8 - bpp) ;;
  let decoded := (x + PaethPredictor l u ul) mod 256 in
  buffer' <- py_setitem buffer (i + 8) decoded ;;
  Ok (buffer', out ++ [decoded]).

(** The body of [for j in range(0, self.h)] in [decompress], given the row
    [brow].  In the Up branch, [bytes([0] * len(brow)-1)] subtracts an int
    from a list, which is a [TypeError]. *)
Definition defilter_row (self : PngDecode) (brow : list Z) : result PngDecode :=
  let bit_depth := bit_depth self in
  let is_indexed := color_type self =? 3 in
  let n := Z.to_nat (len brow - 1) in
  filter_subtype <- py_index brow 0 ;;
  if filter_subtype =? 0 then
    exploded <- ExplodeBytes (py_slice_from brow 1) bit_depth is_indexed ;;
    Ok (set_rgba self (rgba self ++ exploded))
  else if filter_subtype =? 1 then
    let bpp := num_channels self in
    exploded <- ExplodeBytes (py_slice_from brow 1) bit_depth is_indexed ;;
    let buffer := zeros8 ++ exploded in
    st <- for_range n 0 (sub_body bpp) (buffer, rgba self) ;;
    Ok (set_rgba self (snd st))
  else if filter_subtype =? 2 then
    let prior := py_slice_from (rgba self) (- (w self * num_channels self)) in
    buffer <- ExplodeBytes (py_slice_from brow 1) bit_depth is_indexed ;;
    prior <- (if len prior =? 0 then Raise TypeError else Ok prior) ;;
    out <- for_range n 0 (up_body buffer prior) (rgba self) ;;
    Ok (set_rgba self out)
  else if filter_subtype =? 3 then
    let bpp := num_channels self in
    let prior := zeros8 ++ py_slice_from (rgba self) (- (w self * num_channels self)) in
    let prior := if len prior =? 0
                 then repeat 0 (Z.to_nat (8 + len brow - 1)) else prior in
    exploded <- ExplodeBytes (py_slice_from brow 1) bit_depth is_indexed ;;
    let buffer := zeros8 ++ exploded in
    st <- for_range n 0 (average_body bpp prior) (buffer, rgba self) ;;
    Ok (set_rgba self (snd st))
  else if filter_subtype =? 4 then
    let bpp := num_channels self in
    let prior := zeros8 ++ py_slice_from (rgba self) (- (w self * num_channels self)) in
    let prior := if len prior =? 0
                 then repeat 0 (Z.to_nat (8 + len brow - 1)) else prior in
    exploded <- ExplodeBytes (py_slice_from brow 1) bit_depth is_indexed ;;
    let buffer := zeros8 ++ exploded in
    st <- for_range n 0 (paeth_body bpp prior) (buffer, rgba self) ;;
    Ok (set_rgba self (snd st))
  else Raise (NonStandardFilter filter_subtype).

(** The part of [decompress] after the inflate call, on the inflated
    bytes [ddat]. *)
Definition reconstruct (self : PngDecode) (ddat : list Z) : result PngDecode :=
  www <- row_stride self ;;
  for_range (Z.to_nat (h self)) 0
    (fun j self => defilter_row self (scanline ddat www j))
    self.

(** ** Pixel access *)

(** The local variable [pixel] of [get] is either a value of its own (the
    slice of [self.rgba], or the rebuilt [bytearray]) or the very list object
    stored at [self.palette[i]]. *)
Inductive pixel_ref : Type :=
| Fresh (l : list Z)
| Entry (i : Z).

Definition deref (self : PngDecode) (p : pixel_ref) : result (list Z) :=
  match p with
  | Fresh l => Ok l
  | Entry i =>
      match palette self with
      | None => Raise TypeError
      | Some pal => py_index pal i
      end
  end.

(** [pixel.append(v)]: on an alias it writes through to the palette. *)
Definition append (self : PngDecode) (p : pixel_ref) (v : Z)
  : result (pixel_ref * PngDecode) :=
  match p with
  | Fresh l => Ok (Fresh (l ++ [v]), self)
  | Entry i =>
      match palette self with
      | None => Raise TypeError
      | Some pal =>
          e <- py_index pal i ;;
          pal' <- py_setitem pal i (e ++ [v]) ;;
          Ok (Entry i, set_palette self (Some pal'))
      end
  end.

(** [pixel[0]] where [pixel] may be an alias. *)
Definition pixel_at (self : PngDecode) (p : pixel_ref) (k : Z) : result Z :=
  l <- deref self p ;; py_index l k.

(** [PngDecode.get(x, y)]: the tuple returned and the object afterwards. *)
Definition get (self : PngDecode) (x y : Z) : result ((Z * Z * Z * Z) * PngDecode) :=
  let ww := num_channels self in
  let www := w self * ww in
  let start := y * www + x * ww in
  let pixel := Fresh (py_slice (rgba self) start (start + num_channels self)) in
  pixel <- (if color_type self =? 3 then
              idx <- pixel_at self pixel 0 ;;
              _ <- deref self (Entry idx) ;;
              Ok (Entry idx)
            else Ok pixel) ;;
  l <- deref self pixel ;;
  ps <- (if len l =? 1 then
           p0 <- pixel_at self pixel 0 ;;
           ps1 <- append self pixel p0 ;;
           p0 <- pixel_at (snd ps1) (fst ps1) 0 ;;
           ps2 <- append (snd ps1) (fst ps1) p0 ;;
           append (snd ps2) (fst ps2) 255
         else if len l =? 2 then
           p0 <- pixel_at self pixel 0 ;;
           p1 <- pixel_at self pixel 1 ;;
           Ok (Fresh [p0; p0; p0; p1], self)
         else if len l =? 3 then
           append self pixel 255
         else Ok (pixel, self)) ;;
  let '(pixel, self) := ps in
  r <- pixel_at self pixel 0 ;;
  g <- pixel_at self pixel 1 ;;
  b <- pixel_at self pixel 2 ;;
  a <- pixel_at self pixel 3 ;;
  Ok ((r, g, b, a), self).

(** ** Chunk types as text *)

Definition is_ascii (bs : list Z) : bool :=
  forallb (fun b => (0 <=? b) && (b <? 128)) bs.

(** [str.upper] on one ASCII character code. *)
Definition upper_code (c : Z) : Z :=
  if (97 <=? c) && (c <=? 122) then c - 32 else c.

Fixpoint string_of_codes (cs : list Z) : string :=
  match cs with
  | [] => EmptyString
  | c :: cs' => String (ascii_of_N (Z.to_N c)) (string_of_codes cs')
  end.

(** [dir(self)]: the instance attributes, the attributes of the class and
    those inherited from [object]. *)
Definition instance_attrs : list string :=
  ["w"; "h"; "color_type"; "num_channels"; "bit_depth"; "compression";
   "rgba"; "idat_data"; "palette"]%string.

Definition class_attrs : list string :=
  ["IHDR"; "IDAT"; "PLTE"; "decompress"; "IEND"; "parse"; "get";
   "__init__"; "__module__"; "__doc__"; "__dict__"; "__weakref__";
   "__class__"; "__delattr__"; "__dir__"; "__eq__"; "__format__"; "__ge__";
   "__getattribute__"; "__getstate__"; "__gt__"; "__hash__";
   "__init_subclass__"; "__le__"; "__lt__"; "__ne__"; "__new__";
   "__reduce__"; "__reduce_ex__"; "__repr__"; "__setattr__"; "__sizeof__";
   "__str__"; "__subclasshook__"]%string.

Definition dir (self : PngDecode) : list string :=
  instance_attrs
  ++ (match filter self with Some _ => ["filter"%string] | None => [] end)
  ++ (match interlace self with Some _ => ["interlace"%string] | None => [] end)
  ++ class_attrs.

Definition in_dir (name : string) (self : PngDecode) : bool :=
  existsb (String.eqb name) (dir self).

(** [getattr(self, name)(bchd)].  The last branch stands for the attributes
    that are not chunk handlers; [upper_in_dir] below shows that an
    upper-cased name never selects one of them. *)
Definition call_attr (name : string) (self : PngDecode) (bchd : list Z)
  : result PngDecode :=
  if String.eqb name "IHDR" then IHDR self bchd
  else if String.eqb name "IDAT" then IDAT self bchd
  else if String.eqb name "PLTE" then PLTE self bchd
  else if String.eqb name "IEND" then IEND self bchd
  else Raise TypeError.

(** [f.read(n)] on the rest of the file: the bytes read and what is left. *)
Definition read (n : Z) (f : list Z) : list Z * list Z :=
  (firstn (Z.to_nat n) f, skipn (Z.to_nat n) f).

Definition PNG_MAGIC : list Z := [137; 80; 78; 71; 13; 10; 26; 10].

Definition bytes_eqb (a b : list Z) : bool :=
  if list_eq_dec Z.eq_dec a b then true else false.

Section Decoder.

(** [zlib.decompressobj().decompress]: the inflate collaborator; [None]
    is a [zlib.error]. *)
Variable inflate : list Z -> option (list Z).

(** [bcht.decode('utf-8').upper()] for a chunk type holding a byte outside
    ASCII: the text it yields, or [None] for a [UnicodeDecodeError].  The
    Unicode tables are not part of the repository. *)
Variable decode_upper_non_ascii : list Z -> option string.

(** [bcht.decode('utf-8').upper()]. *)
Definition scht_upper (bcht : list Z) : result string :=
  if is_ascii bcht then Ok (string_of_codes (map upper_code bcht))
  else match decode_upper_non_ascii bcht with
       | Some s => Ok s
       | None => Raise UnicodeDecodeError
       end.

(** The last two lines of the loop body of [parse]:
    [if scht.upper() in dir(self): getattr(self, scht.upper())(bchd)]. *)
Definition dispatch (self : PngDecode) (name : string) (bchd : list Z)
  : result PngDecode :=
  if in_dir name self then call_attr name self bchd else Ok self.

(** One chunk record handled: type identifier [bcht], payload [bchd]. *)
Definition handle_chunk (self : PngDecode) (bcht bchd : list Z) : result PngDecode :=
  name <- scht_upper bcht ;;
  dispatch self name bchd.

(** [PngDecode.decompress]. *)
Definition decompress (self : PngDecode) : result PngDecode :=
  match inflate (idat_data self) with
  | None => Raise ZlibError
  | Some ddat => reconstruct self ddat
  end.

(** The [while True] loop of [parse].  [Ok self] is the object at the
    moment [EndReading] is raised; any other exception leaves the loop as
    [Raise].  Every iteration that goes on has consumed at least eight
    bytes of [f], so [fuel >= length f] is never used up
    ([chunk_loop_fuel]); on an empty file the loop ends at once, which is
    the [O] case. *)
Fixpoint chunk_loop (fuel : nat) (f : list Z) (self : PngDecode) : result PngDecode :=
  match fuel with
  | O => Ok self
  | S fuel' =>
      let '(blen, f) := read 4 f in
      if len blen <? 4 then Ok self
      else
        let dlen := from_bytes_big blen in
        let '(bcht, f) := read 4 f in
        match scht_upper bcht with
        | Raise e => Raise e
        | Ok name =>
            let '(bchd, f) := if dlen >? 0 then read dlen f else ([], f) in
            let '(bcrc, f) := read 4 f in
            match dispatch self name bchd with
            | Ok self' => chunk_loop fuel' f self'
            | Raise EndReading => Ok self
            | Raise e => Raise e
            end
        end
  end.

(** [PngDecode.parse], on the contents [f] of the file. *)
Definition parse (f : list Z) (self : PngDecode) : result PngDecode :=
  let '(hdr, f) := read 8 f in
  if negb (bytes_eqb hdr PNG_MAGIC) then Raise NotPng
  else
    self' <- chunk_loop (List.length f) f self ;;
    decompress self'.

(** [PngDecode.__init__], on the contents [f] of the file [fname]. *)
Definition PngDecode_init (f : list Z) : result PngDecode :=
  self <- parse f fresh_decoder ;;
  if (color_type self =? 3) && (match palette self with None => true | Some _ => false end)
  then Raise MissingPalette
  else Ok self.

End Decoder.

(** ** Specification-side definitions *)

(** *** Row layout *)

(** [ceil(a / b)] on integers. *)
Definition ceil_div (a b : Z) : Z := - ((- a) / b).

(** The number of sample bits of one row. *)
Definition row_bits (self : PngDecode) : Z :=
  w self * num_channels self * bit_depth self.

(** The row length as the specification has it: the tag byte and
    ceil(width * channels * bit_depth / 8) data bytes. *)
Definition stride_as_claimed (self : PngDecode) : Prop :=
  row_stride self = Ok (1 + ceil_div (row_bits self) 8).

(** *** The reconstruction table of the specification *)

(** [l[i]], read as 0 outside the row. *)
Definition at0 (l : list Z) (i : Z) : Z :=
  if i <? 0 then 0 else nth (Z.to_nat i) l 0.

(** What the table adds to [raw[i]], given the bytes [out] reconstructed so
    far in this row and the prior row. *)
Definition predictor (tag bpp : Z) (out prior : list Z) (i : Z) : Z :=
  if tag =? 1 then at0 out (i - bpp)
  else if tag =? 2 then at0 prior i
  else if tag =? 3 then (at0 out (i - bpp) + at0 prior i) / 2
  else if tag =? 4 then
    PaethPredictor (at0 out (i - bpp)) (at0 prior i) (at0 prior (i - bpp))
  else 0.

(** The row reconstructed left to right: [out] holds the bytes already done,
    [raw] the unpacked bytes still to do. *)
Fixpoint table_rows (tag bpp : Z) (prior raw out : list Z) : list Z :=
  match raw with
  | [] => out
  | x :: raw' =>
      table_rows tag bpp prior raw'
        (out ++ [(x + predictor tag bpp out prior (len out)) mod 256])
  end.

Definition table_row (tag bpp : Z) (prior raw : list Z) : list Z :=
  table_rows tag bpp prior raw [].

(** [self.rgba[-(self.w * self.num_channels):]]: what the code takes for the
    prior row. *)
Definition prior_row (self : PngDecode) : list Z :=
  py_slice_from (rgba self) (- (w self * num_channels self)).

(** *** Palette and pixels *)

(** Consecutive groups of three bytes; an incomplete last group is dropped. *)
Fixpoint triples (bs : list Z) : list (list Z) :=
  match bs with
  | r :: g :: b :: rest => [r; g; b] :: triples rest
  | _ => []
  end.

(** The palette rule as the specification has it: installed when the length
    is a positive multiple of 3 with at most 255 entries, ignored otherwise. *)
Definition PLTE_as_claimed (self : PngDecode) (bchd : list Z) : Prop :=
  let accepted := 0 < len bchd /\ len bchd mod 3 = 0 /\ len bchd / 3 <= 255 in
  (accepted -> exists entries, PLTE self bchd = Ok (set_palette self (Some entries))) /\
  (~ accepted -> PLTE self bchd = Ok self).

(** [start] in [get]: the offset of pixel (x, y) in the buffer. *)
Definition pixel_offset (self : PngDecode) (x y : Z) : Z :=
  y * (w self * num_channels self) + x * num_channels self.

(** *** Chunk types *)

(** A character code of a lowercase ASCII letter. *)
Definition is_lower (c : ascii) : bool :=
  let n := N_of_ascii c in ((97 <=? n) && (n <=? 122))%N.

Fixpoint has_lower (s : string) : bool :=
  match s with
  | EmptyString => false
  | String c s' => is_lower c || has_lower s'
  end.

(** The four chunk types, as the bytes of their names. *)
Definition T_IHDR : list Z := [73; 72; 68; 82].
Definition T_PLTE : list Z := [80; 76; 84; 69].
Definition T_IDAT : list Z := [73; 68; 65; 84].
Definition T_IEND : list Z := [73; 69; 78; 68].

Definition is_handled_type (bcht : list Z) : Prop :=
  bcht = T_IHDR \/ bcht = T_PLTE \/ bcht = T_IDAT \/ bcht = T_IEND.

(** A decoder for files whose chunk types are ASCII: the table for the other
    ones is never consulted. *)
Definition no_table : list Z -> option string := fun _ => None.

(** The dispatch rule as the specification has it: a handler runs exactly
    when the type identifier is literally one of the four names; any other
    identifier leaves the object untouched. *)
Definition dispatch_as_claimed (self : PngDecode) (bcht bchd : list Z) : Prop :=
  (bcht = T_IHDR -> handle_chunk no_table self bcht bchd = IHDR self bchd) /\
  (bcht = T_PLTE -> handle_chunk no_table self bcht bchd = PLTE self bchd) /\
  (bcht = T_IDAT -> handle_chunk no_table self bcht bchd = IDAT self bchd) /\
  (bcht = T_IEND -> handle_chunk no_table self bcht bchd = IEND self bchd) /\
  (~ is_handled_type bcht -> handle_chunk no_table self bcht bchd = Ok self).

(** *** Exceptions *)

(** [r] does not raise [e0]. *)
Definition never {A : Type} (e0 : exn) (r : result A) : Prop := r <> Raise e0.

(** *** Example files *)

(** A stand-in inflate for stored (uncompressed) image data. *)
Definition stored : list Z -> option (list Z) := fun d => Some d.

(** A big-endian length field and a whole chunk record, for examples. *)
Definition be32 (n : Z) : list Z :=
  [n / 16777216 mod 256; n / 65536 mod 256; n / 256 mod 256; n mod 256].

Definition chunk (bcht bchd : list Z) : list Z :=
  be32 (len bchd) ++ bcht ++ bchd ++ [0; 0; 0; 0].

(** A 1x1 indexed image, stored, with no PLTE chunk. *)
Definition indexed_without_palette : list Z :=
  PNG_MAGIC
  ++ chunk T_IHDR [0; 0; 0; 1; 0; 0; 0; 1; 8; 3; 0; 0; 0]
  ++ chunk T_IDAT [0; 7]
  ++ chunk T_IEND [].

(** A 1x1 indexed image with a one-entry palette. *)
Definition indexed_image : list Z :=
  PNG_MAGIC
  ++ chunk T_IHDR [0; 0; 0; 1; 0; 0; 0; 1; 8; 3; 0; 0; 0]
  ++ chunk T_PLTE [10; 20; 30]
  ++ chunk T_IDAT [0; 0]
  ++ chunk T_IEND [].

(** A 2x2 RGB image, 8 bits per sample, both rows unfiltered. *)
Definition rgb_image : list Z :=
  PNG_MAGIC
  ++ chunk T_IHDR [0; 0; 0; 2; 0; 0; 0; 2; 8; 2; 0; 0; 0]
  ++ chunk T_IDAT [0; 1; 2; 3; 4; 5; 6; 0; 7; 8; 9; 10; 11; 12]
  ++ chunk T_IEND [].

(** *** Unpacked samples *)

(** The samples one packed byte holds, most significant first. *)
Definition samples4 (b : Z) : list Z := [b / 16; b mod 16].
Definition samples2 (b : Z) : list Z := [b / 64; b / 16 mod 4; b / 4 mod 4; b mod 4].
Definition samples1 (b : Z) : list Z :=
  [b / 128; b / 64 mod 2; b / 32 mod 2; b / 16 mod 2;
   b / 8 mod 2; b / 4 mod 2; b / 2 mod 2; b mod 2].

Definition is_byte (x : Z) : Prop := 0 <= x < 256.

(** The bit operations of [ExplodeBytes] on one byte. *)
Definition masked (groups : list (Z * Z)) (b : Z) : list Z :=
  map (fun g => Z.shiftr (Z.land b (fst g)) (snd g)) groups.

Definition masked_ok (n : nat) : bool :=
  let b := Z.of_nat n in
  bytes_eqb (masked groups4 b) (samples4 b)
  && bytes_eqb (masked groups2 b) (samples2 b)
  && bytes_eqb (masked groups1 b) (samples1 b).

(** *** Header fields *)

(** The colour types [IHDR] knows. *)
Definition known_color_type (ct : Z) : Prop :=
  ct = 0 \/ ct = 2 \/ ct = 3 \/ ct = 4 \/ ct = 6.

(** Byte [i] of a header payload. *)
Definition field (bchd : list Z) (i : nat) : Z := nth i bchd 0.

(** *** Chunk records *)

(** A chunk record as [parse] reads it: big-endian length, type, payload
    and four checksum bytes. *)
Definition record (bcht bchd bcrc : list Z) : list Z :=
  be32 (len bchd) ++ bcht ++ bchd ++ bcrc.

(** What [parse] does after one chunk, given the loop [continue] on the
    rest of the file: go on with the new object, stop at [EndReading], or
    fail. *)
Definition after_chunk (self : PngDecode) (r : result PngDecode)
  (continue : PngDecode -> result PngDecode) : result PngDecode :=
  match r with
  | Ok self' => continue self'
  | Raise EndReading => Ok self
  | Raise e => Raise e
  end.

(** *** Exceptions a caller can see *)

(** Every exception [r] raises satisfies [P]. *)
Definition only {A : Type} (P : exn -> Prop) (r : result A) : Prop :=
  forall e, r = Raise e -> P e.

(** The exceptions that can come out of [PngDecode(fname)]. *)
Definition constructor_error (e : exn) : Prop :=
  e = NotPng \/ e = UnicodeDecodeError \/ e = IndexError \/ e = KeyError \/
  e = TypeError \/ e = UnsupportedCompression \/ e = UnsupportedFilterMethod \/
  e = UnsupportedInterlace \/ (exists t, e = NonStandardFilter t) \/
  e = ZlibError \/ e = MissingPalette.

(** *** Whole images and the forward filter *)

(** The inflated stream of an image given as rows [(tag, data)]. *)
Definition stream_of (rows : list (Z * list Z)) : list Z :=
  flat_map (fun r => fst r :: snd r) rows.

(** The table applied row after row, each reconstructed row being the prior
    row of the next. *)
Fixpoint table_image (bpp : Z) (prior : list Z) (rows : list (Z * list Z)) : list Z :=
  match rows with
  | [] => []
  | r :: rows' =>
      let out := table_row (fst r) bpp prior (snd r) in
      out ++ table_image bpp out rows'
  end.

(** The forward filter of PNG, the inverse of the table: each byte minus the
    prediction from the original bytes to its left and the prior row. *)
Fixpoint filter_rows (tag bpp : Z) (prior orig done : list Z) : list Z :=
  match orig with
  | [] => []
  | x :: orig' =>
      (x - predictor tag bpp done prior (len done)) mod 256
      :: filter_rows tag bpp prior orig' (done ++ [x])
  end.

Definition filter_row (tag bpp : Z) (prior orig : list Z) : list Z :=
  filter_rows tag bpp prior orig [].

(** A row of an 8-bit image of [k] bytes per row. *)
Definition row_ok (k : Z) (r : Z * list Z) : Prop :=
  0 <= fst r <= 4 /\ len (snd r) = k /\ Forall is_byte (snd r).

(** *** Pixels *)

(** Sample [i] of pixel (x, y) in the buffer. *)
Definition sample (self : PngDecode) (x y : Z) (i : Z) : Z :=
  nth (Z.to_nat (pixel_offset self x y + i)) (rgba self) 0.

(** The tuple a decoder that is not indexed gives for pixel (x, y). *)
Definition direct_pixel (self : PngDecode) (x y : Z) : Z * Z * Z * Z :=
  let s := sample self x y in
  if num_channels self =? 1 then (s 0, s 0, s 0, 255)
  else if num_channels self =? 2 then (s 0, s 0, s 0, s 1)
  else if num_channels self =? 3 then (s 0, s 1, s 2, 255)
  else (s 0, s 1, s 2, s 3).

(** *** What a constructed decoder satisfies *)

(** The header fields are those [__init__] sets, or those of an accepted
    IHDR. *)
Definition header_ok (self : PngDecode) : Prop :=
  (w self = 0 /\ h self = 0 /\ color_type self = 0 /\ num_channels self = 0 /\
   bit_depth self = 0 /\ compression self = 0 /\ filter self = None /\
   interlace self = None)
  \/
  (((color_type self = 0 /\ num_channels self = 1) \/
    (color_type self = 2 /\ num_channels self = 3) \/
    (color_type self = 3 /\ num_channels self = 1) \/
    (color_type self = 4 /\ num_channels self = 2) \/
    (color_type self = 6 /\ num_channels self = 4)) /\
   compression self = 0 /\ filter self = Some 0 /\ interlace self = Some 0).

(** An installed palette has 1 to 255 entries of three values each. *)
Definition palette_triples (self : PngDecode) : Prop :=
  match palette self with
  | None => True
  | Some pal => 1 <= len pal <= 255 /\ Forall (fun e => List.length e = 3%nat) pal
  end.

(** *** What [get] answers *)

(** A palette entry as [PLTE] made it, or after [get] appended its alpha. *)
Definition entry_ok (e : list Z) : Prop :=
  List.length e = 3%nat \/ (List.length e = 4%nat /\ nth 3 e 0 = 255).

Definition palette_ok (self : PngDecode) : Prop :=
  match palette self with
  | None => True
  | Some pal => Forall entry_ok pal
  end.

(** Two palettes with the same colours, entry by entry. *)
Definition same_colors (p q : list (list Z)) : Prop :=
  Forall2 (fun e e' => firstn 3 e = firstn 3 e') p q.

(** [s'] is [s] except for alpha bytes appended to palette entries. *)
Definition same_pixels (s s' : PngDecode) : Prop :=
  s' = set_palette s (palette s') /\
  match palette s, palette s' with
  | Some p, Some q => same_colors p q
  | None, None => True
  | _, _ => False
  end.

(** The tuple [get] returns, without the object. *)
Definition get_value (self : PngDecode) (x y : Z) : result (Z * Z * Z * Z) :=
  match get self x y with
  | Ok r => Ok (fst r)
  | Raise e => Raise e
  end.

(** The colour of a palette entry, as RGBA. *)
Definition entry_rgba (e : list Z) : Z * Z * Z * Z :=
  (nth 0 e 0, nth 1 e 0, nth 2 e 0, 255).

(** The position [l[i]] refers to. *)
Definition position {A : Type} (l : list A) (i : Z) : Z :=
  if i <? 0 then i + len l else i.

(** What an indexed decoder answers for the pixel whose slice is [px]. *)
Definition indexed_value (pal : option (list (list Z))) (px : list Z)
  : result (Z * Z * Z * Z) :=
  match px with
  | [] => Raise IndexError
  | idx :: _ =>
      match pal with
      | None => Raise TypeError
      | Some p =>
          match py_index p idx with
          | Ok e => Ok (entry_rgba e)
          | Raise e => Raise e
          end
      end
  end.

(** The step between neighbouring sample values after scaling to 0..255. *)
Definition scale_step (bits : Z) : Z := 255 / (2 ^ bits - 1).

(** *** Whole files *)

(** The payload of an IHDR chunk of an 8-bit image without interlacing. *)
Definition header8 (width height ct : Z) : list Z :=
  be32 width ++ be32 height ++ [8; ct; 0; 0; 0].

(** A file of three chunks, IHDR, IDAT and IEND, and whatever follows. *)
Definition png_file (width height ct : Z) (data junk : list Z) : list Z :=
  PNG_MAGIC ++ chunk T_IHDR (header8 width height ct)
            ++ chunk T_IDAT data ++ chunk T_IEND [] ++ junk.

(** The colour types that are not indexed, with their channel counts. *)
Definition direct_color (ct nc : Z) : Prop :=
  (ct = 0 /\ nc = 1) \/ (ct = 2 /\ nc = 3) \/ (ct = 4 /\ nc = 2) \/ (ct = 6 /\ nc = 4).

(** *** Rows that do not fill whole bytes *)

(** A 1x2 image of 1-bit grayscale samples, and its inflated stream in the
    layout of the specification: two rows, each a tag 0 and one packed
    byte. *)
Definition bilevel_1x2 : PngDecode :=
  mkPngDecode 1 2 0 1 1 0 [] [] None (Some 0) (Some 0).

Definition bilevel_1x2_stream : list Z := [0; 128; 0; 0].

(** *** Indexed streams without a palette *)

(** A 1x1 indexed image with no PLTE chunk and no image data. *)
Definition indexed_without_data : list Z :=
  PNG_MAGIC
  ++ chunk T_IHDR [0; 0; 0; 1; 0; 0; 0; 1; 8; 3; 0; 0; 0]
  ++ chunk T_IEND [].

(** The decoder as the chunks of file [f], read by the loop of [parse],
    leave it: what follows the eight signature bytes, handled record by
    record up to [EndReading]. *)
Definition after_chunks (table : list Z -> option string) (f : list Z)
  : result PngDecode :=
  chunk_loop table (List.length (skipn 8 f)) (skipn 8 f) fresh_decoder.

(** A stream with the signature whose chunks declare indexed colour and
    install no palette. *)
Definition indexed_no_palette (table : list Z -> option string) (f : list Z) : Prop :=
  firstn 8 f = PNG_MAGIC /\
  exists s, after_chunks table f = Ok s /\ color_type s = 3 /\ palette s = None.

(** The missing-palette error as the specification has it: raised for every
    such stream. *)
Definition missing_palette_as_claimed
  (inflate : list Z -> option (list Z)) (table : list Z -> option string)
  (f : list Z) : Prop :=
  indexed_no_palette table f -> PngDecode_init inflate table f = Raise MissingPalette.

(** ** Basic facts about the sequence operations *)

Lemma len_nonneg {A : Type} (l : list A) : 0 <= len l.
Proof. unfold len. lia. Qed.

Lemma len_app {A : Type} (l1 l2 : list A) : len (l1 ++ l2) = len l1 + len l2.
Proof. unfold len. rewrite length_app. lia. Qed.

Lemma len_cons {A : Type} (a : A) (l : list A) : len (a :: l) = 1 + len l.
Proof. unfold len. simpl List.length. lia. Qed.

Lemma py_index_nat {A : Type} (l : list A) (i : Z) (a : A) :
  0 <= i -> nth_error l (Z.to_nat i) = Some a -> py_index l i = Ok a.
Proof.
  intros Hi Hn. unfold py_index.
  destruct (i <? 0) eqn:E; [apply Z.ltb_lt in E; lia|].
  rewrite E, Hn. reflexivity.
Qed.

Lemma py_index_out {A : Type} (l : list A) (i : Z) :
  len l <= i -> py_index l i = Raise IndexError.
Proof.
  intros Hi. pose proof (len_nonneg l) as Hl. unfold py_index.
  destruct (i <? 0) eqn:E; [apply Z.ltb_lt in E; lia|]. rewrite E.
  destruct (nth_error l (Z.to_nat i)) eqn:N; [|reflexivity].
  assert (Hlt : (Z.to_nat i < List.length l)%nat)
    by (apply nth_error_Some; congruence).
  unfold len in Hi. lia.
Qed.

Lemma py_index_app_r {A : Type} (l1 l2 : list A) (i : Z) :
  0 <= i -> py_index (l1 ++ l2) (len l1 + i) = py_index l2 i.
Proof.
  intros Hi. pose proof (len_nonneg l1) as Hl. unfold py_index.
  destruct (len l1 + i <? 0) eqn:E; [apply Z.ltb_lt in E; lia|].
  destruct (i <? 0) eqn:E2; [apply Z.ltb_lt in E2; lia|].
  rewrite E, E2. rewrite nth_error_app2 by (unfold len; lia).
  replace (Z.to_nat (len l1 + i) - List.length l1)%nat with (Z.to_nat i)
    by (unfold len; lia).
  reflexivity.
Qed.

Lemma py_index_error {A : Type} (l : list A) (i : Z) (e : exn) :
  py_index l i = Raise e -> e = IndexError.
Proof.
  unfold py_index. destruct (_ <? 0); [congruence|].
  destruct (nth_error _ _); congruence.
Qed.

(** ** Paeth predictor *)

(** C2. [PaethPredictor a b c] works on p = a + b - c in unbounded integers
    and returns a when |p-a| is at most both other distances, otherwise b when
    |p-b| <= |p-c|, otherwise c; PaethPredictor(10,10,10) = 10 and
    PaethPredictor(0,0,10) = 0. *)
Theorem PaethPredictor_spec (a b c : Z) :
  let p := a + b - c in
  let pa := Z.abs (p - a) in
  let pb := Z.abs (p - b) in
  let pc := Z.abs (p - c) in
  (pa <= pb /\ pa <= pc -> PaethPredictor a b c = a) /\
  (~ (pa <= pb /\ pa <= pc) -> pb <= pc -> PaethPredictor a b c = b) /\
  (~ (pa <= pb /\ pa <= pc) -> ~ pb <= pc -> PaethPredictor a b c = c) /\
  PaethPredictor 10 10 10 = 10 /\
  PaethPredictor 0 0 10 = 0.
Proof.
  cbv zeta. unfold PaethPredictor.
  destruct (Z.leb_spec (Z.abs (a + b - c - a)) (Z.abs (a + b - c - b)));
    destruct (Z.leb_spec (Z.abs (a + b - c - a)) (Z.abs (a + b - c - c)));
    destruct (Z.leb_spec (Z.abs (a + b - c - b)) (Z.abs (a + b - c - c)));
    simpl; repeat split; intros; try reflexivity; lia.
Qed.

(** The predictor always returns one of its three arguments. *)
Lemma PaethPredictor_selects (a b c : Z) :
  PaethPredictor a b c = a \/ PaethPredictor a b c = b \/ PaethPredictor a b c = c.
Proof.
  unfold PaethPredictor.
  destruct (_ && _); [auto|]. destruct (_ <=? _); auto.
Qed.

(** ** Bit unpacker *)

(** C5. At bit depth 16 the unpacker never reaches its rounding loop: the
    loop bound [len(data) / 2] is a float and [range] rejects it, so every
    input, of even length or not, ends in a [TypeError]; the pair
    (0x12, 0x80), for which 0x13 is expected, is one of them. *)
Theorem ExplodeBytes_16_raises (data : list Z) (is_indexed : bool) :
  ExplodeBytes data 16 is_indexed = Raise TypeError /\
  ExplodeBytes [18; 128] 16 false = Raise TypeError.
Proof. split; reflexivity. Qed.

(** With the arguments in the order in which [ExplodeBytes] passes them, the
    normalizer is the identity whatever the indexed flag is. *)
Lemma GetNormalizer_swapped (is_indexed : bool) (n x : Z) :
  n <> 0 -> GetNormalizer (VBool is_indexed) (VInt n) x = Ok x.
Proof.
  intros Hn. unfold GetNormalizer, truthy.
  destruct (n =? 0) eqn:E; [apply Z.eqb_eq in E; contradiction|]. reflexivity.
Qed.

(** Called as its signature says, the normalizer does scale to 0..255. *)
Lemma GetNormalizer_scales :
  GetNormalizer (VInt 1) (VBool false) 1 = Ok 255 /\
  GetNormalizer (VInt 2) (VBool false) 3 = Ok 255 /\
  GetNormalizer (VInt 4) (VBool false) 15 = Ok 255 /\
  GetNormalizer (VInt 4) (VBool false) 0 = Ok 0.
Proof. repeat split; reflexivity. Qed.

(** [ExplodeBytes] never looks at the indexed flag: the only use of it is
    the argument that [GetNormalizer] ignores. *)
Lemma ExplodeBytes_flag_ignored (data : list Z) (bits : Z) (is_indexed : bool) :
  ExplodeBytes data bits is_indexed = ExplodeBytes data bits true.
Proof. reflexivity. Qed.

(** C4. For a non-indexed image the sub-byte samples are not rescaled: the
    all-ones byte unpacks to the sample values 1, 3 and 15 at depths 1, 2
    and 4, where 255 is expected.  A non-indexed row is unpacked exactly as
    an indexed one. *)
Theorem ExplodeBytes_sub_byte_not_scaled :
  ExplodeBytes [255] 1 false = Ok [1; 1; 1; 1; 1; 1; 1; 1] /\
  ExplodeBytes [255] 2 false = Ok [3; 3; 3; 3] /\
  ExplodeBytes [255] 4 false = Ok [15; 15] /\
  (forall data bits, ExplodeBytes data bits false = ExplodeBytes data bits true).
Proof.
  split; [reflexivity|]. split; [reflexivity|]. split; [reflexivity|].
  intros data bits. apply ExplodeBytes_flag_ignored.
Qed.

(** ** Scanline reconstruction: the first row *)

Lemma py_index_head {A : Type} (t : A) (l : list A) : py_index (t :: l) 0 = Ok t.
Proof. reflexivity. Qed.

Lemma py_slice_from_tail {A : Type} (t : A) (l : list A) : py_slice_from (t :: l) 1 = l.
Proof.
  unfold py_slice_from, py_bound. rewrite len_cons. pose proof (len_nonneg l).
  simpl (1 <? 0). cbv iota. rewrite Z.min_l by lia. reflexivity.
Qed.

Lemma py_slice_from_nil {A : Type} (a : Z) : py_slice_from (@nil A) a = [].
Proof. unfold py_slice_from. apply skipn_nil. Qed.

Lemma row_count {A : Type} (t : A) (l : list A) :
  Z.to_nat (len (t :: l) - 1) = List.length l.
Proof. rewrite len_cons. unfold len. lia. Qed.

Lemma ExplodeBytes_8 (data : list Z) (is_indexed : bool) :
  ExplodeBytes data 8 is_indexed = Ok data.
Proof. reflexivity. Qed.

Lemma for_range_S {S : Type} (n : nat) (i : Z) (body : Z -> S -> result S) (s : S) :
  for_range (Datatypes.S n) i body s = (s' <- body i s ;; for_range n (i + 1) body s').
Proof. reflexivity. Qed.

(** A step that reads the prior row beyond its end fails. *)
Lemma average_body_short (bpp : Z) (prior : list Z) (i : Z) (st : list Z * list Z) :
  len prior <= i + 8 -> average_body bpp prior i st = Raise IndexError.
Proof.
  intros H. unfold average_body. destruct st as [buffer out].
  destruct (py_index buffer (i + 8)) eqn:E1;
    [|apply py_index_error in E1; subst; reflexivity].
  destruct (py_index buffer (i + 8 - bpp)) eqn:E2;
    [|apply py_index_error in E2; subst; reflexivity].
  rewrite (py_index_out prior (i + 8)) by assumption. reflexivity.
Qed.

Lemma paeth_body_short (bpp : Z) (prior : list Z) (i : Z) (st : list Z * list Z) :
  len prior <= i + 8 -> paeth_body bpp prior i st = Raise IndexError.
Proof.
  intros H. unfold paeth_body. destruct st as [buffer out].
  destruct (py_index buffer (i + 8)) eqn:E1;
    [|apply py_index_error in E1; subst; reflexivity].
  destruct (py_index buffer (i + 8 - bpp)) eqn:E2;
    [|apply py_index_error in E2; subst; reflexivity].
  rewrite (py_index_out prior (i + 8)) by assumption. reflexivity.
Qed.

(** C3. On row 0 nothing has been reconstructed yet, so the slice taken for
    the prior row is empty.  The zero row that should replace it is never
    built: for Up the replacement expression is a [TypeError], and for
    Average and Paeth the emptiness test comes after eight zeros have been
    put in front, so it never fires and the first read of the prior row is
    out of range.  An 8-bit row 0 with at least one data byte therefore fails
    under tags 2, 3 and 4, where the raw bytes are expected for Up. *)
Theorem row0_prior_filters_raise (self : PngDecode) (x : Z) (data : list Z) :
  rgba self = [] ->
  bit_depth self = 8 ->
  defilter_row self (2 :: x :: data) = Raise TypeError /\
  defilter_row self (3 :: x :: data) = Raise IndexError /\
  defilter_row self (4 :: x :: data) = Raise IndexError.
Proof.
  intros Hr Hd. unfold defilter_row.
  rewrite !py_index_head, !py_slice_from_tail, !row_count, Hr, Hd, !ExplodeBytes_8,
    !py_slice_from_nil.
  change (List.length (x :: data)) with (S (List.length data)).
  cbn [bind Z.eqb Pos.eqb].
  repeat split.
  - rewrite for_range_S, average_body_short by (vm_compute; discriminate). reflexivity.
  - rewrite for_range_S, paeth_body_short by (vm_compute; discriminate). reflexivity.
Qed.

Lemma row0_prior_filters_raise_witness :
  rgba (mkPngDecode 1 1 0 1 8 0 [] [] None (Some 0) (Some 0)) = [] /\
  defilter_row (mkPngDecode 1 1 0 1 8 0 [] [] None (Some 0) (Some 0)) [2; 5]
    = Raise TypeError.
Proof.
  split; [reflexivity|].
  apply (row0_prior_filters_raise (mkPngDecode 1 1 0 1 8 0 [] [] None (Some 0) (Some 0)) 5 []);
    reflexivity.
Defined.

(** ** Row layout *)

Lemma row_stride_floor (self : PngDecode) :
  0 <= row_bits self -> row_stride self = Ok (1 + row_bits self / 8).
Proof.
  intros H. unfold row_stride. fold (row_bits self).
  unfold py_truediv. simpl (8 =? 0). cbn [bind]. f_equal.
  unfold py_add_int, py_int, Qdiv, Qmult, Qplus, Qinv, inject_Z. cbn [Qnum Qden].
  change (Z.pos (1 * 8 * 1)) with 8. change (Z.pos (1 * 8)) with 8.
  rewrite Z.quot_div_nonneg by lia.
  replace (row_bits self * 1 * 1 + 1 * 8) with (row_bits self + 1 * 8) by lia.
  rewrite Z.div_add by lia. lia.
Qed.

Lemma ceil_div_8 (a : Z) :
  (a mod 8 = 0 -> ceil_div a 8 = a / 8) /\
  (a mod 8 <> 0 -> ceil_div a 8 = a / 8 + 1).
Proof.
  unfold ceil_div. split; intros H.
  - rewrite Z.div_opp_l_z by lia. lia.
  - rewrite Z.div_opp_l_nz by lia. lia.
Qed.

(** The stride agrees with the ceiling exactly on whole-byte rows. *)
Lemma row_stride_ceil_iff (self : PngDecode) :
  0 <= row_bits self ->
  (stride_as_claimed self <-> row_bits self mod 8 = 0).
Proof.
  intros H. unfold stride_as_claimed. rewrite row_stride_floor by assumption.
  destruct (ceil_div_8 (row_bits self)) as [Hz Hnz].
  destruct (Z.eq_dec (row_bits self mod 8) 0) as [E|E].
  - rewrite (Hz E). tauto.
  - rewrite (Hnz E). split; [intros Heq;
      assert (1 + row_bits self / 8 = 1 + (row_bits self / 8 + 1)) by congruence; lia
    | contradiction].
Qed.

Lemma scanline_full (ddat : list Z) (www j : Z) :
  0 <= j -> 0 <= www -> (j + 1) * www <= len ddat ->
  scanline ddat www j = firstn (Z.to_nat www) (skipn (Z.to_nat (j * www)) ddat) /\
  len (scanline ddat www j) = www.
Proof.
  intros Hj Hw Hlen. unfold scanline, py_slice, py_bound.
  assert (0 <= j * www) by nia.
  assert (j * www <= (j + 1) * www) by nia.
  destruct (j * www <? 0) eqn:E1; [apply Z.ltb_lt in E1; lia|].
  destruct ((j + 1) * www <? 0) eqn:E2; [apply Z.ltb_lt in E2; lia|].
  rewrite !Z.min_l by lia.
  replace ((j + 1) * www - j * www) with www by lia.
  split; [reflexivity|].
  unfold len in *. rewrite length_firstn, length_skipn. lia.
Qed.

(** On rows that fill whole bytes the row length of [decompress] is the
    one of the specification, and when the inflated stream holds [height]
    rows, row [j] is one filter tag followed by
    ceil(width * channels * bit_depth / 8) data bytes, taken at offset
    [j] times the row length. *)
Lemma scanline_layout (self : PngDecode) (ddat : list Z) (j : Z) :
  0 <= row_bits self ->
  row_bits self mod 8 = 0 ->
  0 <= j < h self ->
  h self * (1 + ceil_div (row_bits self) 8) <= len ddat ->
  exists tag data,
    row_stride self = Ok (1 + ceil_div (row_bits self) 8) /\
    scanline ddat (1 + ceil_div (row_bits self) 8) j = tag :: data /\
    len data = ceil_div (row_bits self) 8 /\
    tag :: data = firstn (Z.to_nat (1 + ceil_div (row_bits self) 8))
                    (skipn (Z.to_nat (j * (1 + ceil_div (row_bits self) 8))) ddat).
Proof.
  intros Hb Hm Hj Hlen.
  destruct (ceil_div_8 (row_bits self)) as [Hz _]. specialize (Hz Hm).
  assert (Hk : 0 <= ceil_div (row_bits self) 8)
    by (rewrite Hz; apply Z.div_pos; lia).
  set (k := ceil_div (row_bits self) 8) in *.
  assert (Hrows : (j + 1) * (1 + k) <= h self * (1 + k))
    by (apply Z.mul_le_mono_nonneg_r; lia).
  destruct (scanline_full ddat (1 + k) j) as [Hs Hl]; [lia | lia | lia |].
  destruct (scanline ddat (1 + k) j) as [|tag data] eqn:E.
  - change (len (@nil Z)) with 0 in Hl. lia.
  - exists tag, data. repeat split.
    + rewrite row_stride_floor by assumption. subst k. rewrite Hz. reflexivity.
    + rewrite len_cons in Hl. lia.
    + exact Hs.
Qed.

(** For a 1-pixel row of 1-bit samples the row length is 1 (the tag
    alone), not 1 + ceil(1/8) = 2. *)
Lemma stride_counterexample :
  ~ stride_as_claimed (mkPngDecode 1 1 0 1 1 0 [] [] None (Some 0) (Some 0)).
Proof. unfold stride_as_claimed. vm_compute. discriminate. Qed.

Lemma scanline_short (ddat : list Z) (www j : Z) :
  0 <= www -> 0 <= j -> len (scanline ddat www j) <= www.
Proof.
  intros Hw Hj. unfold scanline, py_slice, py_bound.
  pose proof (len_nonneg ddat) as Hn.
  assert (0 <= j * www) by (apply Z.mul_nonneg_nonneg; lia).
  assert (Hm : (j + 1) * www = j * www + www) by lia.
  destruct (Z.ltb_spec (j * www) 0); [lia|].
  destruct (Z.ltb_spec ((j + 1) * www) 0); [lia|].
  unfold len at 1. rewrite length_firstn. lia.
Qed.

(** C6.  [decompress] takes the row length to be
    int(width * channels * bit_depth / 8 + 1), one plus the floor.  On a
    row that does not fill whole bytes this is ceil(bits / 8), one byte
    less than the tag and ceil(bits / 8) data bytes of the layout: the
    reconstruction reads every row at that shorter length, so each row it
    reads is shorter than a row of the stream.  On the 1x2 image of 1-bit
    samples whose stream holds the rows [0; 128] and [0; 0], the second row
    is taken to be the byte 128 and the reconstruction fails with the
    non-standard-filter error. *)
Theorem reconstruct_rows_short (self : PngDecode) (ddat : list Z) :
  0 <= row_bits self ->
  row_bits self mod 8 <> 0 ->
  row_stride self = Ok (ceil_div (row_bits self) 8) /\
  reconstruct self ddat
  = for_range (Z.to_nat (h self)) 0
      (fun j s => defilter_row s (scanline ddat (ceil_div (row_bits self) 8) j))
      self /\
  (forall j, 0 <= j ->
     len (scanline ddat (ceil_div (row_bits self) 8) j) < 1 + ceil_div (row_bits self) 8) /\
  ~ stride_as_claimed self /\
  scanline bilevel_1x2_stream (1 + ceil_div (row_bits bilevel_1x2) 8) 0 = [0; 128] /\
  scanline bilevel_1x2_stream (1 + ceil_div (row_bits bilevel_1x2) 8) 1 = [0; 0] /\
  reconstruct bilevel_1x2 bilevel_1x2_stream = Raise (NonStandardFilter 128).
Proof.
  intros Hb Hm.
  destruct (ceil_div_8 (row_bits self)) as [_ Hc]. specialize (Hc Hm).
  assert (Hq : 0 <= row_bits self / 8) by (apply Z.div_pos; lia).
  assert (Hs : row_stride self = Ok (ceil_div (row_bits self) 8)).
  { rewrite row_stride_floor by assumption. rewrite Hc. f_equal. lia. }
  split; [exact Hs|]. split; [|split; [|split; [|split; [|split]]]].
  - unfold reconstruct. rewrite Hs. reflexivity.
  - intros j Hj.
    pose proof (scanline_short ddat (ceil_div (row_bits self) 8) j) as L. lia.
  - intros Hcl. apply (row_stride_ceil_iff self Hb) in Hcl. contradiction.
  - reflexivity.
  - reflexivity.
  - reflexivity.
Qed.

Lemma reconstruct_rows_short_witness :
  row_stride bilevel_1x2 = Ok 1 /\
  reconstruct bilevel_1x2 bilevel_1x2_stream = Raise (NonStandardFilter 128).
Proof.
  destruct (reconstruct_rows_short bilevel_1x2 bilevel_1x2_stream)
    as (Hs & _ & _ & _ & _ & _ & Hr).
  - vm_compute. discriminate.
  - vm_compute. discriminate.
  - split; [exact Hs | exact Hr].
Defined.

(** ** Palette chunk *)

Lemma triples_length (l : list Z) : (3 * List.length (triples l) <= List.length l)%nat.
Proof.
  revert l. fix IH 1. intros [|r [|g [|b rest]]]; simpl; try lia.
  specialize (IH rest). lia.
Qed.

Lemma PLTE_loop (bchd : list Z) (n : nat) :
  forall (k : nat) (acc : list (list Z)),
    (3 * (k + n) <= List.length bchd)%nat ->
    for_range n (Z.of_nat k) (PLTE_body bchd) acc
    = Ok (acc ++ firstn n (triples (skipn (3 * k) bchd))).
Proof.
  induction n as [|n IH]; intros k acc Hlen.
  - simpl. rewrite app_nil_r. reflexivity.
  - rewrite for_range_S.
    assert (Hs : (3 <= List.length (skipn (3 * k) bchd))%nat)
      by (rewrite length_skipn; lia).
    destruct (skipn (3 * k) bchd) as [|r [|g [|b rest]]] eqn:E;
      try (simpl in Hs; lia).
    assert (Hn : forall d, (d < 3)%nat ->
                 nth_error bchd (3 * k + d) = nth_error (r :: g :: b :: rest) d)
      by (intros d _; rewrite <- E, nth_error_skipn; reflexivity).
    unfold PLTE_body at 1.
    rewrite (py_index_nat bchd (3 * Z.of_nat k + 0) r), 
            (py_index_nat bchd (3 * Z.of_nat k + 1) g),
            (py_index_nat bchd (3 * Z.of_nat k + 2) b); try lia.
    + cbn [bind].
      replace (Z.of_nat k + 1) with (Z.of_nat (S k)) by lia.
      rewrite IH by lia.
      replace (3 * S k)%nat with (3 + 3 * k)%nat by lia.
      rewrite <- skipn_skipn, E. simpl. rewrite <- app_assoc. reflexivity.
    + replace (Z.to_nat (3 * Z.of_nat k + 2)) with (3 * k + 2)%nat by lia.
      rewrite Hn by lia. reflexivity.
    + replace (Z.to_nat (3 * Z.of_nat k + 1)) with (3 * k + 1)%nat by lia.
      rewrite Hn by lia. reflexivity.
    + replace (Z.to_nat (3 * Z.of_nat k + 0)) with (3 * k + 0)%nat by lia.
      rewrite Hn by lia. reflexivity.
Qed.

(** C8 (as amended).  [PLTE] never raises.  It installs a palette exactly
    when floor(len / 3) is between 1 and 255: the entries are the consecutive
    complete groups of three bytes, and up to two trailing bytes are dropped.
    Otherwise the object is left as it was. *)
Theorem PLTE_spec (self : PngDecode) (bchd : list Z) :
  PLTE self bchd =
  Ok (if (1 <=? len bchd / 3) && (len bchd / 3 <=? 255)
      then set_palette self (Some (triples bchd))
      else self).
Proof.
  unfold PLTE. pose proof (len_nonneg bchd) as Hl.
  assert (H0 : 0 <= len bchd / 3) by (apply Z.div_pos; lia).
  destruct (len bchd / 3 =? 0) eqn:E0.
  - apply Z.eqb_eq in E0. rewrite E0. reflexivity.
  - apply Z.eqb_neq in E0.
    replace (1 <=? len bchd / 3) with true by (symmetry; apply Z.leb_le; lia).
    rewrite Z.gtb_ltb. cbn [orb andb].
    destruct (Z.ltb_spec 255 (len bchd / 3)) as [Hgt|Hle].
    + replace (len bchd / 3 <=? 255) with false by (symmetry; apply Z.leb_gt; lia).
      reflexivity.
    + replace (len bchd / 3 <=? 255) with true by (symmetry; apply Z.leb_le; lia).
      change 0 with (Z.of_nat 0) at 1.
      assert (Hdiv : 3 * (len bchd / 3) <= len bchd)
        by (apply Z.mul_div_le; lia).
      rewrite PLTE_loop by (unfold len in *; lia).
      cbn [bind app]. simpl (skipn (3 * 0) bchd).
      rewrite firstn_all2; [reflexivity|].
      pose proof (triples_length bchd) as Ht.
      assert (Z.of_nat (List.length bchd) < 3 * (len bchd / 3) + 3).
      { pose proof (Z.mod_pos_bound (len bchd) 3 ltac:(lia)).
        pose proof (Z.div_mod (len bchd) 3 ltac:(lia)). unfold len in *. lia. }
      lia.
Qed.

(** C8, as stated, fails for a payload of four bytes: its length is not a
    multiple of 3, and yet a palette of one entry is installed. *)
Lemma PLTE_counterexample : ~ PLTE_as_claimed fresh_decoder [1; 2; 3; 4].
Proof.
  unfold PLTE_as_claimed. intros [_ H].
  assert (Hno : ~ (0 < len [1; 2; 3; 4] /\ len [1; 2; 3; 4] mod 3 = 0
                   /\ len [1; 2; 3; 4] / 3 <= 255))
    by (vm_compute; intros (_ & H1 & _); discriminate).
  specialize (H Hno). vm_compute in H. discriminate.
Qed.

(** ** Pixel access *)

Lemma nth_error_set_nth {A : Type} (l : list A) (n : nat) (v : A) :
  (n < List.length l)%nat -> nth_error (set_nth l n v) n = Some v.
Proof.
  revert n. induction l as [|a l IH]; intros [|n] H; simpl in *; try lia.
  - reflexivity.
  - apply IH. lia.
Qed.

Lemma py_setitem_nat {A : Type} (l : list A) (i : Z) (v : A) :
  0 <= i < len l -> py_setitem l i v = Ok (set_nth l (Z.to_nat i) v).
Proof.
  intros [H0 H1]. unfold py_setitem.
  destruct (i <? 0) eqn:E; [apply Z.ltb_lt in E; lia|]. rewrite E.
  destruct (len l <=? i) eqn:E2; [apply Z.leb_le in E2; lia|]. reflexivity.
Qed.

(** C7.  On an indexed decoder [get] is not read-only: [pixel] is the list
    stored in the palette, and [pixel.append(255)] writes through to it.  The
    first call for a pixel whose palette entry is [r, g, b] returns
    (r, g, b, 255) and leaves the entry as [r, g, b, 255]; the pixel buffer
    is untouched, and a second call returns the same tuple and changes
    nothing more. *)
Theorem get_indexed_mutates_palette
  (self : PngDecode) (x y idx r g b : Z) (rest : list Z) (pal : list (list Z)) :
  color_type self = 3 ->
  palette self = Some pal ->
  py_slice (rgba self) (pixel_offset self x y) (pixel_offset self x y + num_channels self)
    = idx :: rest ->
  0 <= idx ->
  nth_error pal (Z.to_nat idx) = Some [r; g; b] ->
  let self' := set_palette self (Some (set_nth pal (Z.to_nat idx) [r; g; b; 255])) in
  get self x y = Ok ((r, g, b, 255), self') /\
  palette self' <> palette self /\
  get self' x y = Ok ((r, g, b, 255), self').
Proof.
  intros Hct Hpal Hsl Hidx Hnth self'.
  assert (Hlt : (Z.to_nat idx < List.length pal)%nat)
    by (apply nth_error_Some; congruence).
  assert (Hnew : nth_error (set_nth pal (Z.to_nat idx) [r; g; b; 255]) (Z.to_nat idx)
                 = Some [r; g; b; 255])
    by (apply nth_error_set_nth; exact Hlt).
  repeat split.
  - unfold get. fold (pixel_offset self x y). rewrite Hct, Hsl.
    unfold pixel_at, deref, append. rewrite Hpal.
    cbn [bind Z.eqb Pos.eqb]. change (py_index (idx :: rest) 0) with (Ok idx).
    repeat first [ rewrite (py_index_nat pal idx [r; g; b]) by assumption
                 | progress cbn [bind] ].
    replace (len [r; g; b] =? 1) with false by reflexivity.
    replace (len [r; g; b] =? 2) with false by reflexivity.
    replace (len [r; g; b] =? 3) with true by reflexivity.
    repeat first [ rewrite (py_index_nat pal idx [r; g; b]) by assumption
                 | progress cbn [bind] ].
    rewrite py_setitem_nat by (unfold len; lia).
    cbn [bind fst snd palette set_palette app].
    rewrite (py_index_nat _ idx [r; g; b; 255]) by assumption.
    reflexivity.
  - unfold self'. cbn [palette set_palette]. rewrite Hpal. intros Heq.
    injection Heq as Heq. rewrite Heq in Hnew. congruence.
  - unfold get.
    change (rgba self') with (rgba self). change (color_type self') with (color_type self).
    change (num_channels self') with (num_channels self).
    change (w self') with (w self).
    fold (pixel_offset self x y).
    rewrite Hct, Hsl.
    unfold pixel_at, deref, append.
    change (palette self') with (Some (set_nth pal (Z.to_nat idx) [r; g; b; 255])).
    cbn [bind Z.eqb Pos.eqb]. change (py_index (idx :: rest) 0) with (Ok idx).
    repeat first [ rewrite (py_index_nat _ idx [r; g; b; 255]) by assumption
                 | progress cbn [bind] ].
    replace (len [r; g; b; 255] =? 1) with false by reflexivity.
    replace (len [r; g; b; 255] =? 2) with false by reflexivity.
    replace (len [r; g; b; 255] =? 3) with false by reflexivity.
    cbn [bind].
    change (palette self') with (Some (set_nth pal (Z.to_nat idx) [r; g; b; 255])).
    repeat first [ rewrite (py_index_nat _ idx [r; g; b; 255]) by assumption
                 | progress cbn [bind] ].
    reflexivity.
Qed.

Lemma get_indexed_mutates_palette_witness :
  get (mkPngDecode 1 1 3 1 8 0 [0] [] (Some [[10; 20; 30]]) (Some 0) (Some 0)) 0 0
  = Ok ((10, 20, 30, 255),
        mkPngDecode 1 1 3 1 8 0 [0] [] (Some [[10; 20; 30; 255]]) (Some 0) (Some 0)).
Proof.
  apply (get_indexed_mutates_palette
           (mkPngDecode 1 1 3 1 8 0 [0] [] (Some [[10; 20; 30]]) (Some 0) (Some 0))
           0 0 0 10 20 30 [] [[10; 20; 30]]); solve [reflexivity | vm_compute; discriminate].
Defined.

Ltac get_cases :=
  repeat first
    [ progress cbn [bind fst snd deref append pixel_at palette set_palette rgba]
    | match goal with
      | |- context [py_index ?l ?i] => destruct (py_index l i); try discriminate
      | |- context [py_setitem ?l ?i ?v] => destruct (py_setitem l i v); try discriminate
      | |- context [match palette ?s with _ => _ end] =>
          destruct (palette s); try discriminate
      | |- context [if ?c then _ else _] => destruct c
      end ].

(** [get] never writes to the pixel buffer, and on a decoder that is not
    indexed it leaves the whole object as it was. *)
Lemma get_frame (self self' : PngDecode) (x y : Z) (t : Z * Z * Z * Z) :
  get self x y = Ok (t, self') ->
  rgba self' = rgba self /\ (color_type self <> 3 -> self' = self).
Proof.
  unfold get, pixel_at, deref, append.
  destruct (color_type self =? 3) eqn:E.
  - get_cases; intros H; try discriminate H; injection H as _ <-;
      (split; [reflexivity|]); intros Hne; apply Z.eqb_eq in E; contradiction.
  - get_cases; intros H; try discriminate H; injection H as _ <-; split; reflexivity.
Qed.

(** ** Chunk dispatch *)

Lemma is_ascii_cons (c : Z) (cs : list Z) :
  is_ascii (c :: cs) = true -> 0 <= c < 128 /\ is_ascii cs = true.
Proof.
  unfold is_ascii. simpl. intros H. apply andb_prop in H. destruct H as [H1 H2].
  apply andb_prop in H1. destruct H1 as [Ha Hb].
  apply Z.leb_le in Ha. apply Z.ltb_lt in Hb. auto.
Qed.

Lemma upper_code_range (c : Z) :
  0 <= c < 128 -> 0 <= upper_code c < 128 /\ ~ (97 <= upper_code c <= 122).
Proof.
  intros H. unfold upper_code.
  destruct (Z.leb_spec 97 c); destruct (Z.leb_spec c 122); simpl; lia.
Qed.

Lemma code_roundtrip (c : Z) :
  0 <= c < 256 -> N_of_ascii (ascii_of_N (Z.to_N c)) = Z.to_N c.
Proof. intros H. apply N_ascii_embedding. lia. Qed.

Lemma upper_has_no_lower (bcht : list Z) :
  is_ascii bcht = true -> has_lower (string_of_codes (map upper_code bcht)) = false.
Proof.
  induction bcht as [|c cs IH]; intros H; [reflexivity|].
  apply is_ascii_cons in H. destruct H as [Hc Hcs].
  destruct (upper_code_range c Hc) as [Hr Hn].
  simpl. rewrite (IH Hcs), orb_false_r.
  unfold is_lower. rewrite code_roundtrip by lia.
  destruct (N.leb_spec 97 (Z.to_N (upper_code c)));
    destruct (N.leb_spec (Z.to_N (upper_code c)) 122); simpl; try reflexivity; lia.
Qed.

Lemma string_of_codes_inj (cs ds : list Z) :
  Forall (fun c => 0 <= c < 256) cs -> Forall (fun c => 0 <= c < 256) ds ->
  string_of_codes cs = string_of_codes ds -> cs = ds.
Proof.
  intros Hc. revert ds. induction Hc as [|c cs Hc _ IH]; intros ds Hd E.
  - destruct ds; [reflexivity | discriminate].
  - destruct Hd as [|d ds Hd Hds]; [discriminate|].
    simpl in E. injection E as E1 E2.
    f_equal; [|apply IH; assumption].
    assert (E3 : Z.to_N c = Z.to_N d)
      by (rewrite <- (code_roundtrip c), <- (code_roundtrip d), E1 by lia; reflexivity).
    lia.
Qed.

Lemma name_eqb (cs ds : list Z) :
  Forall (fun c => 0 <= c < 256) cs -> Forall (fun c => 0 <= c < 256) ds ->
  String.eqb (string_of_codes cs) (string_of_codes ds) = bytes_eqb cs ds.
Proof.
  intros Hc Hd. unfold bytes_eqb.
  destruct (list_eq_dec Z.eq_dec cs ds) as [->|Hne].
  - apply String.eqb_refl.
  - apply String.eqb_neq. intros E. apply Hne. apply string_of_codes_inj; assumption.
Qed.

Lemma upper_in_range (bcht : list Z) :
  is_ascii bcht = true -> Forall (fun c => 0 <= c < 256) (map upper_code bcht).
Proof.
  induction bcht as [|c cs IH]; intros H; simpl; constructor.
  - apply is_ascii_cons in H. destruct (upper_code_range c (proj1 H)). lia.
  - apply IH. apply is_ascii_cons in H. tauto.
Qed.

Lemma eqb_lower (name x : string) :
  has_lower name = false -> has_lower x = true -> String.eqb name x = false.
Proof.
  intros Hn Hx. apply String.eqb_neq. intros ->. congruence.
Qed.

(** Among the attributes of the object, a name without lowercase letters
    can only be one of the four chunk handlers. *)
Lemma upper_in_dir (name : string) (self : PngDecode) :
  has_lower name = false ->
  in_dir name self =
  String.eqb name "IHDR" || String.eqb name "IDAT"
  || String.eqb name "PLTE" || String.eqb name "IEND".
Proof.
  intros H. unfold in_dir, dir, instance_attrs, class_attrs.
  destruct (filter self), (interlace self); cbn [existsb app];
    repeat match goal with
           | |- context [String.eqb name ?x] => rewrite (eqb_lower name x H eq_refl)
           end;
    cbn [orb]; rewrite !orb_false_r, !orb_assoc; reflexivity.
Qed.

(** C10 (as amended).  The type identifier is upper-cased before it is
    looked up, so for every chunk with an ASCII type identifier the payload
    goes to the handler whose name equals the upper-cased identifier: IHDR,
    IDAT, PLTE and IEND in any mix of cases are dispatched, and every other
    ASCII identifier is skipped with the object left as it was. *)
Theorem handle_chunk_ascii
  (table : list Z -> option string) (self : PngDecode) (bcht bchd : list Z) :
  is_ascii bcht = true ->
  handle_chunk table self bcht bchd =
  if bytes_eqb (map upper_code bcht) T_IHDR then IHDR self bchd
  else if bytes_eqb (map upper_code bcht) T_IDAT then IDAT self bchd
  else if bytes_eqb (map upper_code bcht) T_PLTE then PLTE self bchd
  else if bytes_eqb (map upper_code bcht) T_IEND then IEND self bchd
  else Ok self.
Proof.
  intros H. unfold handle_chunk, scht_upper. rewrite H. cbn [bind].
  unfold dispatch. rewrite upper_in_dir by (apply upper_has_no_lower; exact H).
  unfold call_attr.
  pose proof (upper_in_range bcht H) as Hr.
  assert (Hk : forall T, Forall (fun c => 0 <= c < 256) T ->
               String.eqb (string_of_codes (map upper_code bcht)) (string_of_codes T)
               = bytes_eqb (map upper_code bcht) T)
    by (intros T HT; apply name_eqb; assumption).
  change "IHDR"%string with (string_of_codes T_IHDR).
  change "IDAT"%string with (string_of_codes T_IDAT).
  change "PLTE"%string with (string_of_codes T_PLTE).
  change "IEND"%string with (string_of_codes T_IEND).
  rewrite !Hk by (repeat constructor; lia).
  destruct (bytes_eqb _ T_IHDR); [reflexivity|].
  destruct (bytes_eqb _ T_IDAT); [reflexivity|].
  destruct (bytes_eqb _ T_PLTE); [reflexivity|].
  destruct (bytes_eqb _ T_IEND); reflexivity.
Qed.

Lemma handle_chunk_ascii_witness :
  handle_chunk no_table fresh_decoder [105; 100; 97; 116] [1; 2]
  = Ok (set_idat_data fresh_decoder [1; 2]).
Proof.
  rewrite (handle_chunk_ascii no_table fresh_decoder [105; 100; 97; 116] [1; 2]);
    reflexivity.
Defined.

(** C10, as stated, fails for the identifier "ihdr" with a header payload:
    it is not literally one of the four names, and yet [IHDR] runs and sets
    the geometry. *)
Lemma dispatch_counterexample :
  ~ dispatch_as_claimed fresh_decoder [105; 104; 100; 114]
      [0; 0; 0; 1; 0; 0; 0; 1; 8; 3; 0; 0; 0].
Proof.
  unfold dispatch_as_claimed. intros (_ & _ & _ & _ & H).
  assert (Hn : ~ is_handled_type [105; 104; 100; 114])
    by (unfold is_handled_type; intros [E|[E|[E|E]]]; discriminate E).
  specialize (H Hn). vm_compute in H. discriminate H.
Qed.

(** ** Which exceptions can escape *)

Lemma never_ok {A : Type} (e0 : exn) (a : A) : never e0 (Ok a).
Proof. unfold never. discriminate. Qed.

Lemma never_raise {A : Type} (e0 e : exn) : e <> e0 -> never e0 (@Raise A e).
Proof. unfold never. congruence. Qed.

Lemma never_bind {A B : Type} (e0 : exn) (m : result A) (k : A -> result B) :
  never e0 m -> (forall a, never e0 (k a)) -> never e0 (bind m k).
Proof.
  unfold never. intros Hm Hk. destruct m as [a|e]; simpl; [apply Hk|].
  intros E. apply Hm. congruence.
Qed.

Lemma never_for_range {S : Type} (e0 : exn) (body : Z -> S -> result S) :
  (forall i s, never e0 (body i s)) ->
  forall n i s, never e0 (for_range n i body s).
Proof.
  intros Hb. induction n as [|n IH]; intros i s; simpl.
  - apply never_ok.
  - apply never_bind; [apply Hb | intros a; apply IH].
Qed.

Lemma never_for_each {A S : Type} (e0 : exn) (body : A -> S -> result S) :
  (forall x s, never e0 (body x s)) ->
  forall xs s, never e0 (for_each xs body s).
Proof.
  intros Hb. induction xs as [|x xs IH]; intros s; simpl.
  - apply never_ok.
  - apply never_bind; [apply Hb | intros a; apply IH].
Qed.

Lemma never_py_index {A : Type} (e0 : exn) (l : list A) (i : Z) :
  e0 <> IndexError -> never e0 (py_index l i).
Proof.
  intros H E. apply py_index_error in E. congruence.
Qed.

Lemma never_py_setitem {A : Type} (e0 : exn) (l : list A) (i : Z) (v : A) :
  e0 <> IndexError -> never e0 (py_setitem l i v).
Proof.
  intros H. unfold py_setitem. destruct (_ || _);
    [apply never_raise; congruence | apply never_ok].
Qed.

Lemma never_py_truediv (e0 : exn) (a b : Z) :
  e0 <> ZeroDivisionError -> never e0 (py_truediv a b).
Proof.
  intros H. unfold py_truediv. destruct (b =? 0);
    [apply never_raise; congruence | apply never_ok].
Qed.

Ltac never_step :=
  first
    [ apply never_ok
    | apply never_raise; discriminate
    | apply never_py_index; discriminate
    | apply never_py_setitem; discriminate
    | apply never_py_truediv; discriminate
    | apply never_bind; [|intros ?]
    | apply never_for_range; intros ? ?
    | apply never_for_each; intros ? ?
    | match goal with
      | |- never _ (if ?c then _ else _) => destruct c
      | |- never _ (match ?x with _ => _ end) => destruct x
      end ].

Lemma never_ExplodeBytes (data : list Z) (bits : Z) (is_indexed : bool) :
  never MissingPalette (ExplodeBytes data bits is_indexed).
Proof.
  unfold ExplodeBytes, explode_byte, explode16_body, py_range, GetNormalizer.
  repeat never_step.
Qed.

Lemma never_defilter_row (self : PngDecode) (brow : list Z) :
  never MissingPalette (defilter_row self brow).
Proof.
  unfold defilter_row, sub_body, up_body, average_body, paeth_body.
  repeat first [apply never_ExplodeBytes | never_step].
Qed.

Lemma never_reconstruct (self : PngDecode) (ddat : list Z) :
  never MissingPalette (reconstruct self ddat).
Proof.
  unfold reconstruct, row_stride.
  repeat first [apply never_defilter_row | never_step].
Qed.

Lemma never_IHDR (self : PngDecode) (bchd : list Z) :
  never MissingPalette (IHDR self bchd).
Proof. unfold IHDR, dict_get. repeat never_step. Qed.

Lemma never_PLTE (self : PngDecode) (bchd : list Z) :
  never MissingPalette (PLTE self bchd).
Proof. unfold PLTE, PLTE_body. repeat never_step. Qed.

Lemma never_dispatch (self : PngDecode) (name : string) (bchd : list Z) :
  never MissingPalette (dispatch self name bchd).
Proof.
  unfold dispatch, call_attr, IDAT, IEND.
  repeat first [apply never_IHDR | apply never_PLTE | never_step].
Qed.

Section ChunkLoop.

Variable inflate : list Z -> option (list Z).
Variable table : list Z -> option string.

(** One iteration of the loop, with the reads spelled out. *)
Lemma chunk_loop_S (fuel : nat) (f : list Z) (self : PngDecode) :
  chunk_loop table (S fuel) f self =
  if len (firstn 4 f) <? 4 then Ok self
  else
    match scht_upper table (firstn 4 (skipn 4 f)) with
    | Raise e => Raise e
    | Ok name =>
        let rest := skipn 4 (skipn 4 f) in
        let dlen := from_bytes_big (firstn 4 f) in
        let bchd := if dlen >? 0 then firstn (Z.to_nat dlen) rest else [] in
        let f' := skipn 4 (if dlen >? 0 then skipn (Z.to_nat dlen) rest else rest) in
        match dispatch self name bchd with
        | Ok self' => chunk_loop table fuel f' self'
        | Raise EndReading => Ok self
        | Raise e => Raise e
        end
    end.
Proof.
  cbn [chunk_loop]. unfold read. cbv zeta.
  change (Z.to_nat 4) with 4%nat.
  destruct (len (firstn 4 f) <? 4); [reflexivity|].
  destruct (scht_upper table (firstn 4 (skipn 4 f))); [|reflexivity].
  destruct (from_bytes_big (firstn 4 f) >? 0); reflexivity.
Qed.

Lemma never_chunk_loop (fuel : nat) :
  forall f self, never MissingPalette (chunk_loop table fuel f self).
Proof.
  induction fuel as [|fuel IH]; intros f self; [apply never_ok|].
  rewrite chunk_loop_S.
  destruct (len (firstn 4 f) <? 4); [apply never_ok|].
  unfold scht_upper.
  destruct (is_ascii _); [|destruct (table _); [|apply never_raise; discriminate]];
    cbv zeta;
    (destruct (dispatch _ _ _) as [self'|e] eqn:E;
     [apply IH
     | destruct e; try (apply never_raise; discriminate); try apply never_ok;
       exfalso; exact (never_dispatch _ _ _ E)]).
Qed.

(** The loop does not depend on its fuel once the fuel covers the file. *)
Lemma chunk_loop_fuel (n : nat) :
  forall (m : nat) (f : list Z) (self : PngDecode),
    (List.length f <= n)%nat -> (List.length f <= m)%nat ->
    chunk_loop table n f self = chunk_loop table m f self.
Proof.
  induction n as [|n IH]; intros m f self Hn Hm.
  - destruct f; [|simpl in Hn; lia]. destruct m; reflexivity.
  - destruct m as [|m].
    + destruct f; [|simpl in Hm; lia]. reflexivity.
    + rewrite !chunk_loop_S.
      destruct (Z.ltb_spec (len (firstn 4 f)) 4) as [Hlt|Hge]; [reflexivity|].
      assert (H4 : (4 <= List.length f)%nat).
      { unfold len in Hge. rewrite length_firstn in Hge. lia. }
      destruct (scht_upper table (firstn 4 (skipn 4 f))); [|reflexivity].
      cbv zeta.
      destruct (dispatch _ _ _) as [self'|e]; [|reflexivity].
      apply IH;
        (destruct (_ >? 0); rewrite !length_skipn; lia).
Qed.

Lemma never_parse (f : list Z) (self : PngDecode) :
  never MissingPalette (parse inflate table f self).
Proof.
  unfold parse, read, decompress.
  repeat first [apply never_chunk_loop | apply never_reconstruct | never_step].
Qed.

End ChunkLoop.

(** ** The missing-palette check *)

(** Only [PLTE] writes the palette and only [IHDR] writes the colour type;
    once a palette is installed it stays. *)
Lemma IHDR_palette (self self' : PngDecode) (bchd : list Z) :
  IHDR self bchd = Ok self' -> palette self' = palette self.
Proof.
  unfold IHDR.
  repeat match goal with
         | |- context [py_index ?l ?i] => destruct (py_index l i); [|discriminate]
         | |- context [dict_get ?d ?k] => destruct (dict_get d k); [|discriminate]
         | |- context [if ?c then _ else _] => destruct c; [discriminate|]
         | _ => progress cbn [bind]
         end.
  intros H. injection H as <-. reflexivity.
Qed.

Lemma IDAT_frame (self self' : PngDecode) (bchd : list Z) :
  IDAT self bchd = Ok self' ->
  palette self' = palette self /\ color_type self' = color_type self.
Proof. unfold IDAT. intros H. injection H as <-. split; reflexivity. Qed.

Lemma PLTE_frame (self self' : PngDecode) (bchd : list Z) :
  PLTE self bchd = Ok self' ->
  color_type self' = color_type self /\ (palette self <> None -> palette self' <> None).
Proof.
  unfold PLTE. destruct (_ || _).
  - intros H. injection H as <-. auto.
  - destruct (for_range _ _ _ _); [|discriminate]. cbn [bind].
    intros H. injection H as <-. split; [reflexivity | discriminate].
Qed.

Lemma defilter_row_frame (self self' : PngDecode) (brow : list Z) :
  defilter_row self brow = Ok self' ->
  palette self' = palette self /\ color_type self' = color_type self.
Proof.
  unfold defilter_row.
  destruct (py_index brow 0); [|discriminate]. cbn [bind].
  repeat match goal with
         | |- context [if ?c then _ else _] => destruct c
         | |- bind ?m _ = _ -> _ => destruct m; [|discriminate]; cbn [bind]
         end;
    intros H; try discriminate H; injection H as <-; split; reflexivity.
Qed.

Lemma reconstruct_frame (self self' : PngDecode) (ddat : list Z) :
  reconstruct self ddat = Ok self' ->
  palette self' = palette self /\ color_type self' = color_type self.
Proof.
  unfold reconstruct. destruct (row_stride self) as [www|]; [|discriminate].
  cbn [bind]. generalize 0 at 1. generalize (Z.to_nat (h self)). intros n.
  revert self. induction n as [|n IH]; intros self j H.
  - injection H as <-. split; reflexivity.
  - rewrite for_range_S in H.
    destruct (defilter_row self (scanline ddat www j)) as [s1|] eqn:E; [|discriminate].
    cbn [bind] in H. apply IH in H. apply defilter_row_frame in E.
    destruct H as [H1 H2], E as [E1 E2]. split; congruence.
Qed.

(** C9 (as amended).  On a stream with the signature whose chunks declare
    indexed colour and install no palette, construction never returns a
    decoder.  When the decompression and reconstruction that end [parse]
    succeed, it fails with the missing-palette error; when they fail, it
    fails with their error, which is never the missing-palette one.  The
    missing-palette error comes from the check after [parse] only: [parse]
    itself never raises it, in particular not at an IDAT chunk, so
    whenever construction ends in it the parse had completed.  And no file
    yields a decoder with indexed colour and no palette. *)
Theorem missing_palette_detected
  (inflate : list Z -> option (list Z)) (table : list Z -> option string)
  (f : list Z) (s : PngDecode) :
  firstn 8 f = PNG_MAGIC ->
  after_chunks table f = Ok s ->
  color_type s = 3 ->
  palette s = None ->
  (forall d, PngDecode_init inflate table f <> Ok d) /\
  (forall s', decompress inflate s = Ok s' ->
              PngDecode_init inflate table f = Raise MissingPalette) /\
  (forall e, decompress inflate s = Raise e ->
             e <> MissingPalette /\ PngDecode_init inflate table f = Raise e) /\
  (forall f' e, parse inflate table f' fresh_decoder = Raise e -> e <> MissingPalette) /\
  (forall f' d, PngDecode_init inflate table f' = Ok d ->
                ~ (color_type d = 3 /\ palette d = None)) /\
  (forall f', PngDecode_init inflate table f' = Raise MissingPalette ->
              exists s, parse inflate table f' fresh_decoder = Ok s /\
                        color_type s = 3 /\ palette s = None).
Proof.
  intros Hm Ha Hc Hn.
  assert (Hp : parse inflate table f fresh_decoder = decompress inflate s).
  { unfold parse, read. change (Z.to_nat 8) with 8%nat. rewrite Hm.
    change (negb (bytes_eqb PNG_MAGIC PNG_MAGIC)) with false. cbv iota.
    unfold after_chunks in Ha. rewrite Ha. reflexivity. }
  assert (Hok : forall s', decompress inflate s = Ok s' ->
                           PngDecode_init inflate table f = Raise MissingPalette).
  { intros s' Hd. unfold PngDecode_init. rewrite Hp, Hd. cbn [bind].
    unfold decompress in Hd. destruct (inflate (idat_data s)); [|discriminate].
    apply reconstruct_frame in Hd. destruct Hd as [Hd1 Hd2].
    rewrite Hd2, Hd1, Hc, Hn. reflexivity. }
  assert (Hbad : forall e, decompress inflate s = Raise e ->
                           e <> MissingPalette /\ PngDecode_init inflate table f = Raise e).
  { intros e Hd. split.
    - intros ->. rewrite <- Hp in Hd.
      exact (never_parse inflate table f fresh_decoder Hd).
    - unfold PngDecode_init. rewrite Hp, Hd. reflexivity. }
  split; [|split; [exact Hok | split; [exact Hbad | split; [|split]]]].
  - intros d Hd. destruct (decompress inflate s) as [s'|e] eqn:E.
    + rewrite (Hok s' eq_refl) in Hd. discriminate.
    + destruct (Hbad e eq_refl) as [_ Hr]. rewrite Hr in Hd. discriminate.
  - intros f' e He ->. exact (never_parse inflate table f' fresh_decoder He).
  - intros f' d Hd [Hc' Hn']. unfold PngDecode_init in Hd.
    destruct (parse inflate table f' fresh_decoder) as [s0|]; [|discriminate].
    cbn [bind] in Hd.
    destruct ((color_type s0 =? 3) && _) eqn:E; [discriminate|].
    injection Hd as ->. rewrite Hc', Hn' in E. discriminate.
  - intros f' Hd. unfold PngDecode_init in Hd.
    destruct (parse inflate table f' fresh_decoder) as [s0|e] eqn:Ep.
    + cbn [bind] in Hd. exists s0. split; [reflexivity|].
      destruct (color_type s0 =? 3) eqn:E1; [|discriminate].
      destruct (palette s0); [discriminate|].
      apply Z.eqb_eq in E1. auto.
    + cbn [bind] in Hd. exfalso.
      apply (never_parse inflate table f' fresh_decoder). congruence.
Qed.

Lemma missing_palette_detected_witness :
  PngDecode_init stored no_table indexed_without_palette = Raise MissingPalette /\
  PngDecode_init stored no_table indexed_without_data = Raise IndexError.
Proof.
  split.
  - pose proof (missing_palette_detected stored no_table indexed_without_palette
                  (mkPngDecode 1 1 3 1 8 0 [] [0; 7] None (Some 0) (Some 0))
                  eq_refl eq_refl eq_refl eq_refl) as (_ & H & _).
    exact (H (mkPngDecode 1 1 3 1 8 0 [7] [0; 7] None (Some 0) (Some 0)) eq_refl).
  - pose proof (missing_palette_detected stored no_table indexed_without_data
                  (mkPngDecode 1 1 3 1 8 0 [] [] None (Some 0) (Some 0))
                  eq_refl eq_refl eq_refl eq_refl) as (_ & _ & H & _).
    exact (proj2 (H IndexError eq_refl)).
Defined.

(** C9, as stated, fails for an indexed stream with no PLTE chunk and no
    image data: construction ends in [IndexError], raised while the first
    row is read, before the palette check is reached. *)
Lemma missing_palette_counterexample :
  ~ missing_palette_as_claimed stored no_table indexed_without_data.
Proof.
  unfold missing_palette_as_claimed. intros H.
  assert (Hi : indexed_no_palette no_table indexed_without_data).
  { split; [reflexivity|].
    exists (mkPngDecode 1 1 3 1 8 0 [] [] None (Some 0) (Some 0)).
    repeat split. }
  specialize (H Hi). vm_compute in H. discriminate.
Qed.

(** ** Scanline reconstruction: the table rule *)

Lemma py_index_nth (l : list Z) (i : Z) :
  0 <= i < len l -> py_index l i = Ok (nth (Z.to_nat i) l 0).
Proof.
  intros [H0 H1]. apply py_index_nat; [assumption|].
  apply nth_error_nth'. unfold len in H1. lia.
Qed.

(** Reading eight bytes to the left of a row finds the zero padding. *)
Lemma py_index_padded (l : list Z) (k : Z) :
  -8 <= k < len l -> py_index (zeros8 ++ l) (k + 8) = Ok (at0 l k).
Proof.
  intros [Hlo Hhi]. unfold at0. destruct (Z.ltb_spec k 0) as [Hneg|Hpos].
  - assert (Hk : k + 8 = 0 \/ k + 8 = 1 \/ k + 8 = 2 \/ k + 8 = 3 \/
                 k + 8 = 4 \/ k + 8 = 5 \/ k + 8 = 6 \/ k + 8 = 7) by lia.
    destruct Hk as [-> | [-> | [-> | [-> | [-> | [-> | [-> | ->]]]]]]];
      reflexivity.
  - replace (k + 8) with (len zeros8 + k) by (change (len zeros8) with 8; lia).
    rewrite py_index_app_r by assumption. apply py_index_nth. lia.
Qed.

Lemma at0_app_l (l1 l2 : list Z) (k : Z) :
  k < len l1 -> at0 (l1 ++ l2) k = at0 l1 k.
Proof.
  intros H. unfold at0. destruct (k <? 0) eqn:E; [reflexivity|].
  apply Z.ltb_ge in E. apply app_nth1. unfold len in H. lia.
Qed.

Lemma at0_middle (l1 l2 : list Z) (x : Z) : at0 (l1 ++ x :: l2) (len l1) = x.
Proof.
  unfold at0. pose proof (len_nonneg l1) as H.
  destruct (len l1 <? 0) eqn:E; [apply Z.ltb_lt in E; lia|].
  unfold len. rewrite Nat2Z.id. apply nth_middle.
Qed.

Lemma set_nth_middle (l1 l2 : list Z) (x v : Z) :
  set_nth (l1 ++ x :: l2) (List.length l1) v = l1 ++ v :: l2.
Proof. induction l1 as [|a l1 IH]; simpl; [reflexivity | rewrite IH; reflexivity]. Qed.

Lemma py_setitem_padded (done rest : list Z) (x v : Z) :
  py_setitem (zeros8 ++ done ++ x :: rest) (len done + 8) v
  = Ok (zeros8 ++ (done ++ [v]) ++ rest).
Proof.
  pose proof (len_nonneg done) as Hd. pose proof (len_nonneg rest) as Hr.
  rewrite py_setitem_nat
    by (rewrite !len_app, len_cons; change (len zeros8) with 8; lia).
  f_equal. rewrite app_assoc.
  replace (Z.to_nat (len done + 8)) with (List.length (zeros8 ++ done))
    by (rewrite length_app; unfold len; simpl; lia).
  rewrite set_nth_middle, <- !app_assoc. reflexivity.
Qed.

Lemma py_floor_half (a : Z) (q : pynum) :
  py_truediv a 2 = Ok q -> py_floor q = a / 2.
Proof.
  unfold py_truediv. simpl (2 =? 0). intros H. injection H as <-.
  unfold py_floor, Qfloor, Qdiv, Qmult, Qinv, inject_Z. cbn [Qnum Qden].
  change (Z.pos (1 * 2)) with 2. rewrite Z.mul_1_r. reflexivity.
Qed.

Section RowLoop.

Variables (tag bpp : Z) (prior R : list Z).
Variable body : Z -> list Z * list Z -> result (list Z * list Z).
Variable bound : Z.

(** One step of a buffered filter loop follows the table. *)
Hypothesis body_step :
  forall done x rest,
    len done < bound ->
    body (len done) (zeros8 ++ done ++ x :: rest, R ++ done)
    = Ok (zeros8 ++ (done ++ [(x + predictor tag bpp done prior (len done)) mod 256])
            ++ rest,
          R ++ (done ++ [(x + predictor tag bpp done prior (len done)) mod 256])).

Lemma buffered_loop (rest : list Z) :
  forall done,
    len done + len rest <= bound ->
    for_range (List.length rest) (len done) body (zeros8 ++ done ++ rest, R ++ done)
    = Ok (zeros8 ++ table_rows tag bpp prior rest done,
          R ++ table_rows tag bpp prior rest done).
Proof.
  induction rest as [|x rest IH]; intros done Hb.
  - simpl. rewrite app_nil_r. reflexivity.
  - rewrite len_cons in Hb. pose proof (len_nonneg rest) as Hr.
    cbn [List.length]. rewrite for_range_S, body_step by lia. cbn [bind].
    replace (len done + 1)
      with (len (done ++ [(x + predictor tag bpp done prior (len done)) mod 256]))
      by (rewrite len_app; reflexivity).
    rewrite IH by (rewrite len_app; change (len [_]) with 1; lia).
    reflexivity.
Qed.

End RowLoop.

Lemma padded_nonempty (l : list Z) : (len (zeros8 ++ l) =? 0) = false.
Proof.
  apply Z.eqb_neq. rewrite len_app. change (len zeros8) with 8.
  pose proof (len_nonneg l). lia.
Qed.

Lemma read_current (done rest : list Z) (x : Z) :
  py_index (zeros8 ++ done ++ x :: rest) (len done + 8) = Ok x.
Proof.
  pose proof (len_nonneg done) as Hd. pose proof (len_nonneg rest) as Hr.
  rewrite py_index_padded by (rewrite len_app, len_cons; lia).
  rewrite at0_middle. reflexivity.
Qed.

Lemma read_left (done rest : list Z) (x bpp : Z) :
  1 <= bpp <= 8 ->
  py_index (zeros8 ++ done ++ x :: rest) (len done + 8 - bpp)
  = Ok (at0 done (len done - bpp)).
Proof.
  intros Hb. pose proof (len_nonneg done) as Hd. pose proof (len_nonneg rest) as Hr.
  replace (len done + 8 - bpp) with (len done - bpp + 8) by lia.
  rewrite py_index_padded by (rewrite len_app, len_cons; lia).
  rewrite at0_app_l by lia. reflexivity.
Qed.

Lemma read_prior (P : list Z) (k i : Z) :
  0 <= i < len P -> 0 <= k <= 8 ->
  py_index (zeros8 ++ P) (i + 8 - k) = Ok (at0 P (i - k)).
Proof.
  intros Hi Hk. replace (i + 8 - k) with (i - k + 8) by lia.
  apply py_index_padded. lia.
Qed.

Lemma sub_body_step (bpp : Z) (prior R done rest : list Z) (x : Z) :
  1 <= bpp <= 8 ->
  sub_body bpp (len done) (zeros8 ++ done ++ x :: rest, R ++ done)
  = Ok (zeros8 ++ (done ++ [(x + predictor 1 bpp done prior (len done)) mod 256]) ++ rest,
        R ++ (done ++ [(x + predictor 1 bpp done prior (len done)) mod 256])).
Proof.
  intros Hb. unfold sub_body.
  rewrite read_current, read_left by assumption. cbn [bind].
  rewrite py_setitem_padded. cbn [bind]. rewrite <- (app_assoc R done). reflexivity.
Qed.

Lemma average_body_step (bpp : Z) (prior R done rest : list Z) (x : Z) :
  1 <= bpp <= 8 ->
  len done < len prior ->
  average_body bpp (zeros8 ++ prior) (len done) (zeros8 ++ done ++ x :: rest, R ++ done)
  = Ok (zeros8 ++ (done ++ [(x + predictor 3 bpp done prior (len done)) mod 256]) ++ rest,
        R ++ (done ++ [(x + predictor 3 bpp done prior (len done)) mod 256])).
Proof.
  intros Hb Hp. pose proof (len_nonneg done) as Hd. unfold average_body.
  rewrite read_current, read_left by assumption. cbn [bind].
  replace (len done + 8) with (len done + 8 - 0) at 1 by lia.
  rewrite read_prior by lia. cbn [bind]. rewrite Z.sub_0_r.
  destruct (py_truediv (at0 done (len done - bpp) + at0 prior (len done)) 2)
    as [half|] eqn:E; [|discriminate E].
  cbn [bind]. rewrite (py_floor_half _ _ E).
  rewrite py_setitem_padded. cbn [bind]. rewrite <- (app_assoc R done). reflexivity.
Qed.

Lemma paeth_body_step (bpp : Z) (prior R done rest : list Z) (x : Z) :
  1 <= bpp <= 8 ->
  len done < len prior ->
  paeth_body bpp (zeros8 ++ prior) (len done) (zeros8 ++ done ++ x :: rest, R ++ done)
  = Ok (zeros8 ++ (done ++ [(x + predictor 4 bpp done prior (len done)) mod 256]) ++ rest,
        R ++ (done ++ [(x + predictor 4 bpp done prior (len done)) mod 256])).
Proof.
  intros Hb Hp. pose proof (len_nonneg done) as Hd. unfold paeth_body.
  rewrite read_current, read_left by assumption. cbn [bind].
  replace (len done + 8) with (len done + 8 - 0) at 1 by lia.
  rewrite !read_prior by lia. cbn [bind]. rewrite Z.sub_0_r.
  rewrite py_setitem_padded. cbn [bind]. rewrite <- (app_assoc R done). reflexivity.
Qed.

Lemma up_loop (bpp : Z) (prior R rest : list Z) :
  forall rawdone out,
    len rawdone = len out ->
    len out + len rest <= len prior ->
    for_range (List.length rest) (len out) (up_body (rawdone ++ rest) prior) (R ++ out)
    = Ok (R ++ table_rows 2 bpp prior rest out).
Proof.
  induction rest as [|x rest IH]; intros rawdone out Hl Hb.
  - reflexivity.
  - rewrite len_cons in Hb. pose proof (len_nonneg rest) as Hr.
    pose proof (len_nonneg out) as Ho.
    cbn [List.length]. rewrite for_range_S. unfold up_body at 1.
    replace (len out) with (len rawdone + 0) at 1 by lia.
    rewrite py_index_app_r, py_index_head by lia. cbn [bind].
    rewrite py_index_nth by lia. cbn [bind].
    rewrite <- (app_assoc R out).
    replace (rawdone ++ x :: rest) with ((rawdone ++ [x]) ++ rest)
      by (rewrite <- app_assoc; reflexivity).
    replace (len out + 1) with (len (out ++ [(x + nth (Z.to_nat (len out)) prior 0) mod 256]))
      by (rewrite len_app; reflexivity).
    rewrite IH by (rewrite !len_app; change (len [_]) with 1; try rewrite len_app;
                   change (len [x]) with 1; lia).
    cbn [table_rows]. unfold predictor, at0. cbn [Z.eqb Pos.eqb].
    destruct (len out <? 0) eqn:E; [apply Z.ltb_lt in E; lia|]. reflexivity.
Qed.

Lemma table_rows_none (bpp : Z) (prior raw : list Z) :
  Forall (fun x => 0 <= x < 256) raw ->
  forall out, table_rows 0 bpp prior raw out = out ++ raw.
Proof.
  induction 1 as [|x raw Hx _ IH]; intros out; cbn [table_rows].
  - rewrite app_nil_r. reflexivity.
  - rewrite IH, <- app_assoc.
    change (predictor 0 bpp out prior (len out)) with 0.
    rewrite Z.add_0_r, Z.mod_small by lia. reflexivity.
Qed.

(** An 8-bit row whose prior row is in the buffer is reconstructed by the
    table: tag 0 copies, tag 1 adds the byte [bpp] to the left, tag 2 the
    byte above, tag 3 the floor of their mean, tag 4 the Paeth prediction
    from left, above and upper left; neighbours to the left of the row count
    as 0 and every sum is taken modulo 256. *)
Lemma defilter_row_table (self : PngDecode) (tag : Z) (data : list Z) :
  bit_depth self = 8 ->
  1 <= num_channels self <= 8 ->
  0 <= tag <= 4 ->
  Forall (fun x => 0 <= x < 256) data ->
  (2 <= tag -> 0 < len (prior_row self) /\ len data <= len (prior_row self)) ->
  defilter_row self (tag :: data)
  = Ok (set_rgba self
          (rgba self ++ table_row tag (num_channels self) (prior_row self) data)).
Proof.
  intros Hd Hb Ht Hbytes Hprior. unfold defilter_row, table_row.
  rewrite py_index_head, py_slice_from_tail, row_count, Hd, ExplodeBytes_8.
  fold (prior_row self). rewrite padded_nonempty. cbn [bind].
  assert (Hcase : tag = 0 \/ tag = 1 \/ tag = 2 \/ tag = 3 \/ tag = 4) by lia.
  destruct Hcase as [-> | [-> | [-> | [-> | ->]]]]; cbn [Z.eqb Pos.eqb].
  - rewrite table_rows_none by assumption. reflexivity.
  - pose proof (buffered_loop 1 (num_channels self) (prior_row self) (rgba self)
                  (sub_body (num_channels self)) (len data)) as L.
    specialize (L (fun done x rest _ =>
                     sub_body_step (num_channels self) (prior_row self) (rgba self)
                       done rest x Hb) data []).
    cbn [app] in L. rewrite app_nil_r in L. change (len []) with 0 in L.
    rewrite L by lia. reflexivity.
  - destruct Hprior as [Hne Hle]; [lia|].
    destruct (len (prior_row self) =? 0) eqn:E; [apply Z.eqb_eq in E; lia|].
    cbn [bind].
    pose proof (up_loop (num_channels self) (prior_row self) (rgba self) data [] []
                  eq_refl) as L.
    cbn [app] in L. rewrite app_nil_r in L. change (len []) with 0 in L.
    rewrite L by lia. reflexivity.
  - destruct Hprior as [Hne Hle]; [lia|].
    pose proof (buffered_loop 3 (num_channels self) (prior_row self) (rgba self)
                  (average_body (num_channels self) (zeros8 ++ prior_row self))
                  (len (prior_row self))) as L.
    specialize (L (fun done x rest Hlt =>
                     average_body_step (num_channels self) (prior_row self) (rgba self)
                       done rest x Hb Hlt) data []).
    cbn [app] in L. rewrite app_nil_r in L. change (len []) with 0 in L.
    rewrite L by lia. reflexivity.
  - destruct Hprior as [Hne Hle]; [lia|].
    pose proof (buffered_loop 4 (num_channels self) (prior_row self) (rgba self)
                  (paeth_body (num_channels self) (zeros8 ++ prior_row self))
                  (len (prior_row self))) as L.
    specialize (L (fun done x rest Hlt =>
                     paeth_body_step (num_channels self) (prior_row self) (rgba self)
                       done rest x Hb Hlt) data []).
    cbn [app] in L. rewrite app_nil_r in L. change (len []) with 0 in L.
    rewrite L by lia. reflexivity.
Qed.

(** A second row under each prior-row filter, by the table. *)
Example defilter_second_row :
  let self := mkPngDecode 3 2 0 1 8 0 [10; 20; 30] [] None (Some 0) (Some 0) in
  defilter_row self [2; 1; 2; 250] = Ok (set_rgba self [10; 20; 30; 11; 22; 24]) /\
  defilter_row self [3; 1; 2; 250] = Ok (set_rgba self [10; 20; 30; 6; 15; 16]) /\
  defilter_row self [4; 1; 2; 250] = Ok (set_rgba self [10; 20; 30; 11; 22; 24]).
Proof.
  cbv zeta. repeat split;
    (rewrite defilter_row_table;
     [reflexivity | reflexivity | split; discriminate | split; discriminate
     | repeat constructor; lia | intros _; split; [reflexivity | discriminate]]).
Qed.

(** C1.  Two rows with a standard tag on which the code departs from the
    table.  (1) Row 0 with tag 2: the table, with an all-zero prior row,
    gives the raw byte; the code raises.  (2) A Sub row of eight 1-bit
    pixels: the table runs over the eight unpacked samples; the code runs
    its loop over the one packed byte and emits a single byte. *)
Theorem defilter_row_departs_from_table :
  defilter_row (mkPngDecode 1 1 0 1 8 0 [] [] None (Some 0) (Some 0)) [2; 5]
    = Raise TypeError /\
  table_row 2 1 [] [5] = [5] /\
  ExplodeBytes [255] 1 false = Ok [1; 1; 1; 1; 1; 1; 1; 1] /\
  defilter_row (mkPngDecode 8 1 0 1 1 0 [] [] None (Some 0) (Some 0)) [1; 255]
    = Ok (mkPngDecode 8 1 0 1 1 0 [1] [] None (Some 0) (Some 0)) /\
  table_row 1 1 [] [1; 1; 1; 1; 1; 1; 1; 1] = [1; 2; 3; 4; 5; 6; 7; 8].
Proof. repeat split; reflexivity. Qed.


(** ** Whole decodes *)

(** Decoding the 2x2 RGB image and reading its four pixels. *)
Example decode_rgb_image :
  exists d,
    PngDecode_init stored no_table rgb_image = Ok d /\
    w d = 2 /\ h d = 2 /\
    get d 0 0 = Ok ((1, 2, 3, 255), d) /\
    get d 1 0 = Ok ((4, 5, 6, 255), d) /\
    get d 0 1 = Ok ((7, 8, 9, 255), d) /\
    get d 1 1 = Ok ((10, 11, 12, 255), d).
Proof. eexists. split; [reflexivity|]. repeat split. Qed.

(** Decoding the indexed image: the first [get] leaves an alpha byte in the
    palette entry it looked up. *)
Example decode_indexed_image :
  exists d d',
    PngDecode_init stored no_table indexed_image = Ok d /\
    palette d = Some [[10; 20; 30]] /\
    get d 0 0 = Ok ((10, 20, 30, 255), d') /\
    palette d' = Some [[10; 20; 30; 255]] /\
    get d' 0 0 = Ok ((10, 20, 30, 255), d').
Proof. do 2 eexists. split; [reflexivity|]. repeat split. Qed.

(** Padding of one, two and three channels to RGBA. *)
Example get_padding :
  let gray := mkPngDecode 1 1 0 1 8 0 [200] [] None (Some 0) (Some 0) in
  let gray_alpha := mkPngDecode 1 1 4 2 8 0 [100; 50] [] None (Some 0) (Some 0) in
  let rgb := mkPngDecode 1 1 2 3 8 0 [10; 20; 30] [] None (Some 0) (Some 0) in
  get gray 0 0 = Ok ((200, 200, 200, 255), gray) /\
  get gray_alpha 0 0 = Ok ((100, 100, 100, 50), gray_alpha) /\
  get rgb 0 0 = Ok ((10, 20, 30, 255), rgb).
Proof. repeat split. Qed.

(** ** More on the module-level functions *)

Lemma Clamp_range (x : pynum) : 0 <= Clamp x <= 255.
Proof.
  unfold Clamp.
  destruct (Z.geb_spec (py_round x) 0); destruct (Z.leb_spec (py_round x) 255);
    cbn [andb]; try lia;
    destruct (Z.ltb_spec (py_round x) 0); lia.
Qed.

Lemma Clamp_in_range (x : pynum) : 0 <= py_round x <= 255 -> Clamp x = py_round x.
Proof.
  intros H. unfold Clamp.
  destruct (Z.geb_spec (py_round x) 0); destruct (Z.leb_spec (py_round x) 255);
    cbn [andb]; lia.
Qed.

Lemma py_round_half (n : Z) :
  py_round (PyFloat (Qmake (2 * n + 1) 2)) = if Z.even n then n else n + 1.
Proof.
  unfold py_round. cbv zeta.
  assert (Hf : Qfloor (Qmake (2 * n + 1) 2) = n).
  { unfold Qfloor. symmetry. apply (Z.div_unique _ _ n 1); lia. }
  rewrite Hf.
  assert (Ht : Qeq (Qminus (Qmult (inject_Z 2) (Qmake (2 * n + 1) 2)) (inject_Z (2 * n)))
                   (inject_Z 1)).
  { unfold Qeq, Qminus, Qplus, Qmult, Qopp, inject_Z. cbn [Qnum Qden].
    cbn [Pos.mul]. lia. }
  apply Qeq_alt in Ht. rewrite Ht. reflexivity.
Qed.

(** X1. On an int or a finite float (a float being the exact rational it
    stands for; NaN and the infinities, on which [round] raises, are not
    values of [pynum]), [Clamp] lands in 0..255: it is the rounded value
    when that is in range, 0 below and 255 above; an int already in range
    is returned unchanged.  Rounding is Python's: a value halfway between
    two integers goes to the even one, so n + 1/2 becomes n for even n and
    n + 1 for odd n. *)
Theorem Clamp_spec (x : pynum) :
  0 <= Clamp x <= 255 /\
  (0 <= py_round x <= 255 -> Clamp x = py_round x) /\
  (py_round x < 0 -> Clamp x = 0) /\
  (255 < py_round x -> Clamp x = 255) /\
  (forall n, 0 <= n <= 255 -> Clamp (PyInt n) = n) /\
  (forall n, 0 <= n < 255 ->
     Clamp (PyFloat (Qmake (2 * n + 1) 2)) = if Z.even n then n else n + 1).
Proof.
  split; [apply Clamp_range|].
  split; [apply Clamp_in_range|].
  split.
  { intros H. unfold Clamp.
    destruct (Z.geb_spec (py_round x) 0); destruct (Z.leb_spec (py_round x) 255);
      cbn [andb]; try lia; destruct (Z.ltb_spec (py_round x) 0); lia. }
  split.
  { intros H. unfold Clamp.
    destruct (Z.geb_spec (py_round x) 0); destruct (Z.leb_spec (py_round x) 255);
      cbn [andb]; try lia; destruct (Z.ltb_spec (py_round x) 0); lia. }
  split.
  { intros n Hn. apply Clamp_in_range. exact Hn. }
  intros n Hn. rewrite Clamp_in_range; rewrite py_round_half;
    [reflexivity | destruct (Z.even n); lia].
Qed.

(** X2. The predictor returns one of its three arguments, and none of the
    three is nearer to p = a + b - c than the one returned. *)
Theorem PaethPredictor_nearest (a b c : Z) :
  let p := a + b - c in
  let r := PaethPredictor a b c in
  (r = a \/ r = b \/ r = c) /\
  Z.abs (p - r) <= Z.abs (p - a) /\
  Z.abs (p - r) <= Z.abs (p - b) /\
  Z.abs (p - r) <= Z.abs (p - c).
Proof.
  cbv zeta. unfold PaethPredictor.
  destruct (Z.leb_spec (Z.abs (a + b - c - a)) (Z.abs (a + b - c - b)));
    destruct (Z.leb_spec (Z.abs (a + b - c - a)) (Z.abs (a + b - c - c)));
    destruct (Z.leb_spec (Z.abs (a + b - c - b)) (Z.abs (a + b - c - c)));
    cbn [andb]; repeat split; auto; lia.
Qed.

(** X3. With nothing above and to the upper left the predictor is the left
    byte, with nothing to the left and upper left it is the byte above; when
    the upper-left byte equals the left one it is the byte above, and when
    it equals the byte above it is the left one. *)
Theorem PaethPredictor_edges (a b : Z) :
  PaethPredictor a 0 0 = a /\
  PaethPredictor 0 b 0 = b /\
  PaethPredictor a b a = b /\
  PaethPredictor a b b = a.
Proof.
  unfold PaethPredictor. repeat split.
  - destruct (Z.leb_spec (Z.abs (a + 0 - 0 - a)) (Z.abs (a + 0 - 0 - 0)));
      destruct (Z.leb_spec (Z.abs (a + 0 - 0 - a)) (Z.abs (a + 0 - 0 - 0)));
      cbn [andb]; try reflexivity; lia.
  - destruct (Z.leb_spec (Z.abs (0 + b - 0 - 0)) (Z.abs (0 + b - 0 - b)));
      destruct (Z.leb_spec (Z.abs (0 + b - 0 - 0)) (Z.abs (0 + b - 0 - 0)));
      destruct (Z.leb_spec (Z.abs (0 + b - 0 - b)) (Z.abs (0 + b - 0 - 0)));
      cbn [andb]; try reflexivity; lia.
  - destruct (Z.leb_spec (Z.abs (a + b - a - a)) (Z.abs (a + b - a - b)));
      destruct (Z.leb_spec (Z.abs (a + b - a - a)) (Z.abs (a + b - a - a)));
      destruct (Z.leb_spec (Z.abs (a + b - a - b)) (Z.abs (a + b - a - a)));
      cbn [andb]; try reflexivity; lia.
  - destruct (Z.leb_spec (Z.abs (a + b - b - a)) (Z.abs (a + b - b - b)));
      destruct (Z.leb_spec (Z.abs (a + b - b - a)) (Z.abs (a + b - b - b)));
      cbn [andb]; try reflexivity; lia.
Qed.

Lemma PaethPredictor_byte (a b c : Z) :
  is_byte a -> is_byte b -> is_byte c -> is_byte (PaethPredictor a b c).
Proof.
  intros Ha Hb Hc. destruct (PaethPredictor_selects a b c) as [-> | [-> | ->]];
    assumption.
Qed.

Lemma masked_all : forallb masked_ok (seq 0 256) = true.
Proof. vm_compute. reflexivity. Qed.

Lemma masked_byte (b : Z) :
  is_byte b ->
  masked groups4 b = samples4 b /\
  masked groups2 b = samples2 b /\
  masked groups1 b = samples1 b.
Proof.
  intros Hb. pose proof masked_all as H.
  rewrite forallb_forall in H. specialize (H (Z.to_nat b)).
  assert (Hin : In (Z.to_nat b) (seq 0 256)) by (apply in_seq; unfold is_byte in Hb; lia).
  specialize (H Hin). unfold masked_ok in H.
  rewrite Z2Nat.id in H by (unfold is_byte in Hb; lia).
  apply andb_prop in H. destruct H as [H H1].
  apply andb_prop in H. destruct H as [H4 H2].
  unfold bytes_eqb in *.
  destruct (list_eq_dec Z.eq_dec (masked groups4 b) (samples4 b)); [|discriminate].
  destruct (list_eq_dec Z.eq_dec (masked groups2 b) (samples2 b)); [|discriminate].
  destruct (list_eq_dec Z.eq_dec (masked groups1 b) (samples1 b)); [|discriminate].
  auto.
Qed.

Lemma explode_byte_id (groups : list (Z * Z)) (b : Z) :
  forall rval,
    explode_byte (fun x => Ok x) groups b rval = Ok (rval ++ masked groups b).
Proof.
  unfold explode_byte, masked. induction groups as [|g gs IH]; intros rval.
  - simpl. rewrite app_nil_r. reflexivity.
  - cbn [for_each bind map]. rewrite IH, <- app_assoc. reflexivity.
Qed.

Lemma explode_loop (groups : list (Z * Z)) (data : list Z) :
  forall rval,
    for_each data (explode_byte (fun x => Ok x) groups) rval
    = Ok (rval ++ flat_map (masked groups) data).
Proof.
  induction data as [|b data IH]; intros rval.
  - simpl. rewrite app_nil_r. reflexivity.
  - cbn [for_each flat_map]. rewrite explode_byte_id. cbn [bind].
    rewrite IH, <- app_assoc. reflexivity.
Qed.

Lemma flat_map_bytes (f g : Z -> list Z) (data : list Z) :
  Forall is_byte data ->
  (forall b, is_byte b -> f b = g b) ->
  flat_map f data = flat_map g data.
Proof.
  intros Hd Hfg. induction Hd as [|b data Hb _ IH]; [reflexivity|].
  cbn [flat_map]. rewrite IH, (Hfg b Hb). reflexivity.
Qed.

(** X4. On bytes, the masks and shifts of [ExplodeBytes] split each byte into
    2, 4 or 8 samples at depth 4, 2 or 1, most significant first, the
    samples being the base-16, base-4 or base-2 digits of the byte; depth 8
    returns the data as it is.  The indexed flag plays no part. *)
Theorem ExplodeBytes_unpacks (data : list Z) (is_indexed : bool) :
  Forall is_byte data ->
  ExplodeBytes data 4 is_indexed = Ok (flat_map samples4 data) /\
  ExplodeBytes data 2 is_indexed = Ok (flat_map samples2 data) /\
  ExplodeBytes data 1 is_indexed = Ok (flat_map samples1 data) /\
  ExplodeBytes data 8 is_indexed = Ok data.
Proof.
  intros Hd. unfold ExplodeBytes. cbn [Z.eqb Pos.eqb].
  change (GetNormalizer (VBool is_indexed) (VInt 4)) with (fun x : Z => Ok x).
  change (GetNormalizer (VBool is_indexed) (VInt 2)) with (fun x : Z => Ok x).
  change (GetNormalizer (VBool is_indexed) (VInt 1)) with (fun x : Z => Ok x).
  rewrite !explode_loop. cbn [app].
  repeat split; try (f_equal; apply flat_map_bytes; [assumption|]; intros b Hb;
                     apply (masked_byte b Hb)).
Qed.

Lemma ExplodeBytes_unpacks_witness :
  ExplodeBytes [165; 15] 4 false = Ok [10; 5; 0; 15].
Proof.
  apply (ExplodeBytes_unpacks [165; 15] false).
  repeat constructor; unfold is_byte; lia.
Defined.

(** ** The header chunk *)

Lemma py_index_ok {A : Type} (l : list A) (i : Z) (a : A) :
  0 <= i -> py_index l i = Ok a ->
  i < len l /\ nth_error l (Z.to_nat i) = Some a.
Proof.
  intros Hi. unfold py_index.
  destruct (i <? 0) eqn:E; [apply Z.ltb_lt in E; lia|]. rewrite E.
  destruct (nth_error l (Z.to_nat i)) eqn:N; [|discriminate].
  intros H. injection H as ->. split; [|reflexivity].
  assert ((Z.to_nat i < List.length l)%nat) by (apply nth_error_Some; congruence).
  unfold len. lia.
Qed.

Lemma py_index_field (bchd : list Z) (i : nat) :
  Z.of_nat i < len bchd -> py_index bchd (Z.of_nat i) = Ok (field bchd i).
Proof.
  intros H. unfold field. rewrite py_index_nth by lia.
  rewrite Nat2Z.id. reflexivity.
Qed.

Lemma Forall_firstn {A : Type} (P : A -> Prop) (n : nat) :
  forall l, Forall P l -> Forall P (firstn n l).
Proof.
  induction n as [|n IH]; intros l H; [constructor|].
  destruct H as [|a l Ha Hl]; [constructor|].
  cbn [firstn]. constructor; [assumption | apply IH; assumption].
Qed.

Lemma Forall_skipn {A : Type} (P : A -> Prop) (n : nat) :
  forall l, Forall P l -> Forall P (skipn n l).
Proof.
  induction n as [|n IH]; intros l H; [assumption|].
  destruct H as [|a l Ha Hl]; [constructor|].
  cbn [skipn]. apply IH; assumption.
Qed.

Lemma from_bytes_big_bound (bs : list Z) :
  Forall is_byte bs ->
  forall acc n, 0 <= acc < n ->
    0 <= fold_left (fun a b => a * 256 + b) bs acc < n * 256 ^ len bs.
Proof.
  induction 1 as [|b bs Hb _ IH]; intros acc n Ha.
  - change (len (@nil Z)) with 0. simpl. lia.
  - cbn [fold_left]. rewrite len_cons. pose proof (len_nonneg bs) as Hl.
    rewrite Z.pow_add_r, Z.pow_1_r by lia.
    unfold is_byte in Hb.
    specialize (IH (acc * 256 + b) (n * 256)).
    replace (n * (256 * 256 ^ len bs)) with (n * 256 * 256 ^ len bs) by lia.
    apply IH. lia.
Qed.

Lemma from_bytes_big_u32 (bs : list Z) :
  Forall is_byte bs -> (List.length bs <= 4)%nat ->
  0 <= from_bytes_big bs < 4294967296.
Proof.
  intros Hb Hl. unfold from_bytes_big.
  pose proof (from_bytes_big_bound bs Hb 0 1 ltac:(lia)) as H.
  assert (Hp : 256 ^ len bs <= 256 ^ 4)
    by (apply Z.pow_le_mono_r; unfold len; lia).
  change (256 ^ 4) with 4294967296 in Hp. lia.
Qed.

Lemma dict_get_CHANNELS (ct nc : Z) :
  dict_get CHANNELS ct = Ok nc ->
  (ct = 0 /\ nc = 1) \/ (ct = 2 /\ nc = 3) \/ (ct = 3 /\ nc = 1) \/
  (ct = 4 /\ nc = 2) \/ (ct = 6 /\ nc = 4).
Proof.
  unfold dict_get, CHANNELS. cbn [find fst snd].
  repeat match goal with
         | |- context [?a =? ?b] =>
             destruct (Z.eqb_spec a b);
             [intros H; injection H as <-; subst; tauto|]
         end.
  discriminate.
Qed.

Lemma dict_get_CHANNELS_known (ct : Z) :
  known_color_type ct -> exists nc, dict_get CHANNELS ct = Ok nc.
Proof.
  intros [-> | [-> | [-> | [-> | ->]]]]; eexists; reflexivity.
Qed.

Lemma dict_get_CHANNELS_unknown (ct : Z) :
  ~ known_color_type ct -> dict_get CHANNELS ct = Raise KeyError.
Proof.
  intros Hn. destruct (dict_get CHANNELS ct) as [nc|e] eqn:E.
  - exfalso. apply Hn. apply dict_get_CHANNELS in E. unfold known_color_type. tauto.
  - unfold dict_get in E. destruct (find _ _); [discriminate|]. symmetry. exact E.
Qed.

(** X5. Whenever [IHDR] accepts a payload, the payload has at least 13
    bytes, width and height are the big-endian values of bytes 0..3 and
    4..7, bit depth and colour type are bytes 8 and 9, the channel count is
    the one of the colour type (1, 3, 1, 2, 4 for types 0, 2, 3, 4, 6), the
    three method fields are 0, and buffer, image data and palette are left
    alone.  On a payload of bytes, width and height are below 2^32.  The
    bit depth is not checked. *)
Theorem IHDR_accepts (self self' : PngDecode) (bchd : list Z) :
  IHDR self bchd = Ok self' ->
  13 <= len bchd /\
  w self' = from_bytes_big (firstn 4 bchd) /\
  h self' = from_bytes_big (firstn 4 (skipn 4 bchd)) /\
  bit_depth self' = field bchd 8 /\
  color_type self' = field bchd 9 /\
  ((color_type self' = 0 /\ num_channels self' = 1) \/
   (color_type self' = 2 /\ num_channels self' = 3) \/
   (color_type self' = 3 /\ num_channels self' = 1) \/
   (color_type self' = 4 /\ num_channels self' = 2) \/
   (color_type self' = 6 /\ num_channels self' = 4)) /\
  compression self' = 0 /\ filter self' = Some 0 /\ interlace self' = Some 0 /\
  rgba self' = rgba self /\ idat_data self' = idat_data self /\
  palette self' = palette self /\
  (Forall is_byte bchd ->
   0 <= w self' < 4294967296 /\ 0 <= h self' < 4294967296 /\ is_byte (bit_depth self')).
Proof.
  unfold IHDR.
  destruct (py_index bchd 8) as [bd|] eqn:E8; [|discriminate].
  destruct (py_index bchd 9) as [ct|] eqn:E9; [|discriminate].
  destruct (py_index bchd 10) as [cm|] eqn:E10; [|discriminate].
  destruct (py_index bchd 11) as [fm|] eqn:E11; [|discriminate].
  destruct (py_index bchd 12) as [im|] eqn:E12; [|discriminate].
  cbn [bind].
  destruct (dict_get CHANNELS ct) as [nc|] eqn:Ec; [|discriminate]. cbn [bind].
  destruct (Z.eqb_spec cm 0) as [->|]; [|discriminate].
  destruct (Z.eqb_spec fm 0) as [->|]; [|discriminate].
  destruct (Z.eqb_spec im 0) as [->|]; [|discriminate].
  cbn [negb]. intros H. injection H as <-.
  cbn [w h bit_depth color_type num_channels compression filter interlace rgba
       idat_data palette].
  apply py_index_ok in E12; [|lia]. destruct E12 as [H12 _].
  apply py_index_ok in E8; [|lia]. destruct E8 as [_ N8].
  apply py_index_ok in E9; [|lia]. destruct E9 as [_ N9].
  assert (Hs4 : py_slice bchd 0 4 = firstn 4 bchd).
  { unfold py_slice, py_bound. cbn [Z.ltb Z.compare].
    rewrite !Z.min_l by lia. reflexivity. }
  assert (Hs8 : py_slice bchd 4 8 = firstn 4 (skipn 4 bchd)).
  { unfold py_slice, py_bound. cbn [Z.ltb Z.compare].
    rewrite !Z.min_l by lia. reflexivity. }
  rewrite Hs4, Hs8.
  assert (F8 : bd = field bchd 8)
    by (unfold field; symmetry; apply nth_error_nth; exact N8).
  assert (F9 : ct = field bchd 9)
    by (unfold field; symmetry; apply nth_error_nth; exact N9).
  split; [lia|].
  repeat (split; [first [reflexivity | assumption
                         | apply dict_get_CHANNELS; exact Ec]|]).
  intros Hb.
  split; [|split].
  - apply from_bytes_big_u32; [apply Forall_firstn; assumption|].
    rewrite length_firstn. lia.
  - apply from_bytes_big_u32;
      [apply Forall_firstn, Forall_skipn; assumption | rewrite length_firstn; lia].
  - rewrite Forall_forall in Hb. apply Hb. eapply nth_error_In. exact N8.
Qed.

Lemma IHDR_accepts_witness :
  w (mkPngDecode 2 1 6 4 8 0 [] [] None (Some 0) (Some 0)) = 2.
Proof.
  apply (IHDR_accepts fresh_decoder (mkPngDecode 2 1 6 4 8 0 [] [] None (Some 0) (Some 0))
           [0; 0; 0; 2; 0; 0; 0; 1; 8; 6; 0; 0; 0]).
  reflexivity.
Defined.

(** X6. How [IHDR] fails: a payload shorter than 13 bytes is an
    [IndexError]; on a longer one an unknown colour type is a [KeyError],
    reported before the method fields are looked at; then a non-zero
    compression, filter or interlace method, in this order, is reported;
    otherwise the header is accepted. *)
Theorem IHDR_rejects (self : PngDecode) (bchd : list Z) :
  (len bchd < 13 -> IHDR self bchd = Raise IndexError) /\
  (13 <= len bchd ->
   (~ known_color_type (field bchd 9) -> IHDR self bchd = Raise KeyError) /\
   (known_color_type (field bchd 9) ->
    (field bchd 10 <> 0 -> IHDR self bchd = Raise UnsupportedCompression) /\
    (field bchd 10 = 0 -> field bchd 11 <> 0 ->
     IHDR self bchd = Raise UnsupportedFilterMethod) /\
    (field bchd 10 = 0 -> field bchd 11 = 0 -> field bchd 12 <> 0 ->
     IHDR self bchd = Raise UnsupportedInterlace) /\
    (field bchd 10 = 0 -> field bchd 11 = 0 -> field bchd 12 = 0 ->
     exists self', IHDR self bchd = Ok self'))).
Proof.
  split.
  - intros Hs. unfold IHDR.
    repeat match goal with
           | |- bind (py_index bchd 12) _ = _ =>
               rewrite (py_index_out bchd 12) by lia; reflexivity
           | |- bind (py_index bchd ?i) _ = _ =>
               let E := fresh "E" in
               destruct (py_index bchd i) eqn:E;
               [cbn [bind] | apply py_index_error in E; subst; reflexivity]
           end.
  - intros Hl. unfold IHDR.
    change (py_index bchd 8) with (py_index bchd (Z.of_nat 8)).
    change (py_index bchd 9) with (py_index bchd (Z.of_nat 9)).
    change (py_index bchd 10) with (py_index bchd (Z.of_nat 10)).
    change (py_index bchd 11) with (py_index bchd (Z.of_nat 11)).
    change (py_index bchd 12) with (py_index bchd (Z.of_nat 12)).
    rewrite !py_index_field by lia.
    cbn [bind]. split.
    + intros Hu. rewrite dict_get_CHANNELS_unknown by assumption. reflexivity.
    + intros Hk. destruct (dict_get_CHANNELS_known _ Hk) as [nc ->]. cbn [bind].
      repeat split; intros;
        repeat match goal with
               | H : ?x = 0 |- context [?x =? 0] => rewrite H; cbn [Z.eqb negb]
               | H : ?x <> 0 |- context [?x =? 0] =>
                   destruct (Z.eqb_spec x 0); [contradiction|]; cbn [negb]
               end; try reflexivity.
      eexists. reflexivity.
Qed.

(** ** Chunk records *)

Lemma be32_value (n : Z) :
  0 <= n < 4294967296 -> from_bytes_big (be32 n) = n.
Proof.
  intros H. unfold be32, from_bytes_big. cbn [fold_left].
  Z.div_mod_to_equations. lia.
Qed.

Lemma firstn_exact {A : Type} (l r : list A) (n : nat) :
  List.length l = n -> firstn n (l ++ r) = l.
Proof.
  intros <-. rewrite firstn_app, Nat.sub_diag, firstn_all. cbn [firstn].
  apply app_nil_r.
Qed.

Lemma skipn_exact {A : Type} (l r : list A) (n : nat) :
  List.length l = n -> skipn n (l ++ r) = r.
Proof.
  intros <-. rewrite skipn_app, Nat.sub_diag, skipn_all. reflexivity.
Qed.

(** The four handlers, reached by their own names. *)
Lemma handle_chunk_named (table : list Z -> option string) (self : PngDecode)
  (bchd : list Z) :
  handle_chunk table self T_IHDR bchd = IHDR self bchd /\
  handle_chunk table self T_PLTE bchd = PLTE self bchd /\
  handle_chunk table self T_IDAT bchd = IDAT self bchd /\
  handle_chunk table self T_IEND bchd = IEND self bchd.
Proof.
  unfold handle_chunk, scht_upper, dispatch.
  repeat split; cbn [is_ascii forallb T_IHDR T_PLTE T_IDAT T_IEND andb Z.leb Z.ltb
                     Z.compare Pos.compare Pos.compare_cont bind];
    rewrite upper_in_dir by reflexivity; reflexivity.
Qed.

Section Records.

Variable table : list Z -> option string.

(** One record of the chunk loop, as an equation for rewriting. *)
Lemma chunk_loop_step
  (fuel : nat) (bcht bchd bcrc rest : list Z) (self : PngDecode) :
  List.length bcht = 4%nat ->
  List.length bcrc = 4%nat ->
  len bchd < 4294967296 ->
  (List.length (record bcht bchd bcrc ++ rest) <= fuel)%nat ->
  chunk_loop table fuel (record bcht bchd bcrc ++ rest) self
  = after_chunk self (handle_chunk table self bcht bchd)
      (chunk_loop table fuel rest).
Proof.
  intros Ht Hc Hd Hf. pose proof (len_nonneg bchd) as Hn.
  unfold record in *. rewrite <- !app_assoc in *.
  destruct fuel as [|n]; [cbn [List.length app be32] in Hf; lia|].
  rewrite chunk_loop_S. cbv zeta.
  change (firstn 4 (be32 (len bchd) ++ bcht ++ bchd ++ bcrc ++ rest))
    with (be32 (len bchd)).
  change (skipn 4 (be32 (len bchd) ++ bcht ++ bchd ++ bcrc ++ rest))
    with (bcht ++ bchd ++ bcrc ++ rest).
  change (len (be32 (len bchd)) <? 4) with false. cbv iota.
  rewrite firstn_exact, skipn_exact by assumption.
  rewrite be32_value by lia.
  assert (Hrest : (List.length rest <= n)%nat).
  { rewrite !length_app in Hf. cbn [List.length be32] in Hf. lia. }
  unfold handle_chunk, after_chunk.
  destruct (scht_upper table bcht) as [name|e] eqn:Es.
  - cbn [bind].
    assert (Hp : (if len bchd >? 0
                  then firstn (Z.to_nat (len bchd)) (bchd ++ bcrc ++ rest) else [])
                 = bchd).
    { destruct (Z.gtb_spec (len bchd) 0).
      - apply firstn_exact. unfold len. lia.
      - destruct bchd as [|z bchd]; [reflexivity|].
        pose proof (len_nonneg bchd). rewrite len_cons in *. lia. }
    assert (Hq : skipn 4 (if len bchd >? 0
                          then skipn (Z.to_nat (len bchd)) (bchd ++ bcrc ++ rest)
                          else bchd ++ bcrc ++ rest)
                 = rest).
    { destruct (Z.gtb_spec (len bchd) 0).
      - rewrite skipn_exact by (unfold len; lia). apply skipn_exact. assumption.
      - destruct bchd as [|z bchd];
          [|pose proof (len_nonneg bchd); rewrite len_cons in *; lia].
        cbn [app]. apply skipn_exact. assumption. }
    rewrite Hp, Hq.
    destruct (dispatch self name bchd) as [self'|e]; [|reflexivity].
    apply chunk_loop_fuel; lia.
  - cbn [bind]. unfold scht_upper in Es.
    destruct (is_ascii bcht); [discriminate|].
    destruct (table bcht); [discriminate|].
    injection Es as <-. reflexivity.
Qed.

(** X7. Reading one well-formed record (payload shorter than 2^32, four
    type bytes, four checksum bytes) hands exactly its type and payload to
    the dispatch and goes on with the bytes after the record; the checksum
    bytes are skipped whatever they are. *)
Theorem chunk_loop_record
  (fuel : nat) (bcht bchd bcrc rest : list Z) (self : PngDecode) :
  List.length bcht = 4%nat ->
  List.length bcrc = 4%nat ->
  len bchd < 4294967296 ->
  (List.length (record bcht bchd bcrc ++ rest) <= fuel)%nat ->
  chunk_loop table fuel (record bcht bchd bcrc ++ rest) self
  = after_chunk self (handle_chunk table self bcht bchd)
      (chunk_loop table fuel rest).
Proof. exact (chunk_loop_step fuel bcht bchd bcrc rest self). Qed.

(** X8. The loop ends normally, with the object as it is, when fewer than
    four bytes are left (an empty or truncated tail) and when an IEND record
    is read; whatever follows the IEND record is never looked at. *)
Theorem chunk_loop_stops (fuel : nat) (f bchd bcrc rest : list Z) (self : PngDecode) :
  ((List.length f < 4)%nat -> chunk_loop table fuel f self = Ok self) /\
  (List.length bcrc = 4%nat ->
   len bchd < 4294967296 ->
   (List.length (record T_IEND bchd bcrc ++ rest) <= fuel)%nat ->
   chunk_loop table fuel (record T_IEND bchd bcrc ++ rest) self = Ok self).
Proof.
  split.
  - intros Hs. destruct fuel as [|n]; [reflexivity|].
    rewrite chunk_loop_S.
    destruct (Z.ltb_spec (len (firstn 4 f)) 4) as [_|Hge]; [reflexivity|].
    unfold len in Hge. rewrite length_firstn in Hge. lia.
  - intros Hc Hd Hf.
    rewrite chunk_loop_step by (assumption || reflexivity).
    destruct (handle_chunk_named table self bchd) as (_ & _ & _ & ->).
    reflexivity.
Qed.

(** X9. Two IDAT records in a row are read as one IDAT record holding the
    two payloads one after the other: how the image data is cut into chunks
    does not matter. *)
Theorem IDAT_chunks_merge
  (fuel : nat) (a b crc1 crc2 crc rest : list Z) (self : PngDecode) :
  List.length crc1 = 4%nat -> List.length crc2 = 4%nat -> List.length crc = 4%nat ->
  len a + len b < 4294967296 ->
  (List.length (record T_IDAT a crc1 ++ record T_IDAT b crc2 ++ rest) <= fuel)%nat ->
  chunk_loop table fuel (record T_IDAT a crc1 ++ record T_IDAT b crc2 ++ rest) self
  = chunk_loop table fuel (record T_IDAT (a ++ b) crc ++ rest) self.
Proof.
  intros H1 H2 H3 Hl Hf.
  pose proof (len_nonneg a) as Ha. pose proof (len_nonneg b) as Hb.
  assert (Hf2 : (List.length (record T_IDAT b crc2 ++ rest) <= fuel)%nat)
    by (rewrite length_app in Hf; lia).
  assert (Hf3 : (List.length (record T_IDAT (a ++ b) crc ++ rest) <= fuel)%nat).
  { unfold record in *. rewrite !length_app in *. cbn [List.length be32] in *. lia. }
  rewrite (chunk_loop_step fuel T_IDAT a crc1) by (assumption || reflexivity || lia).
  destruct (handle_chunk_named table self a) as (_ & _ & -> & _).
  cbn [after_chunk IDAT].
  rewrite (chunk_loop_step fuel T_IDAT b crc2) by (assumption || reflexivity || lia).
  destruct (handle_chunk_named table (set_idat_data self (idat_data self ++ a)) b)
    as (_ & _ & -> & _).
  rewrite (chunk_loop_step fuel T_IDAT (a ++ b) crc)
    by (assumption || reflexivity || rewrite len_app; lia).
  destruct (handle_chunk_named table self (a ++ b)) as (_ & _ & -> & _).
  cbn [after_chunk IDAT set_idat_data idat_data w h color_type num_channels bit_depth
       compression rgba palette filter interlace].
  rewrite app_assoc. reflexivity.
Qed.

End Records.

Lemma chunk_loop_record_witness :
  chunk_loop no_table 20 (record T_IDAT [1; 2] [9; 9; 9; 9] ++ [7]) fresh_decoder
  = chunk_loop no_table 20 [7] (set_idat_data fresh_decoder [1; 2]).
Proof.
  apply (chunk_loop_record no_table 20 T_IDAT [1; 2] [9; 9; 9; 9] [7] fresh_decoder);
    [reflexivity | reflexivity | reflexivity | simpl; lia].
Defined.

Lemma IDAT_chunks_merge_witness :
  chunk_loop no_table 40
    (record T_IDAT [1] [0; 0; 0; 0] ++ record T_IDAT [2] [0; 0; 0; 0] ++ []) fresh_decoder
  = chunk_loop no_table 40 (record T_IDAT ([1] ++ [2]) [5; 5; 5; 5] ++ []) fresh_decoder.
Proof.
  apply (IDAT_chunks_merge no_table 40 [1] [2] [0; 0; 0; 0] [0; 0; 0; 0] [5; 5; 5; 5] []
           fresh_decoder);
    first [reflexivity | simpl; lia].
Defined.

(** ** The exceptions of construction *)

Lemma only_ok {A : Type} (P : exn -> Prop) (a : A) : only P (Ok a).
Proof. intros e H. discriminate H. Qed.

Lemma only_raise {A : Type} (P : exn -> Prop) (e : exn) : P e -> only P (@Raise A e).
Proof. intros H e' E. injection E as <-. exact H. Qed.

Lemma only_bind {A B : Type} (P : exn -> Prop) (m : result A) (k : A -> result B) :
  only P m -> (forall a, only P (k a)) -> only P (bind m k).
Proof.
  intros Hm Hk. destruct m as [a|e]; cbn [bind]; [apply Hk|].
  intros e' E. apply (Hm e'). congruence.
Qed.

Lemma only_for_range {S : Type} (P : exn -> Prop) (body : Z -> S -> result S) :
  (forall i s, only P (body i s)) -> forall n i s, only P (for_range n i body s).
Proof.
  intros Hb. induction n as [|n IH]; intros i s; cbn [for_range].
  - apply only_ok.
  - apply only_bind; [apply Hb | intros a; apply IH].
Qed.

Lemma only_for_each {A S : Type} (P : exn -> Prop) (body : A -> S -> result S) :
  (forall x s, only P (body x s)) -> forall xs s, only P (for_each xs body s).
Proof.
  intros Hb. induction xs as [|x xs IH]; intros s; cbn [for_each].
  - apply only_ok.
  - apply only_bind; [apply Hb | intros a; apply IH].
Qed.

Lemma only_py_index {A : Type} (P : exn -> Prop) (l : list A) (i : Z) :
  P IndexError -> only P (py_index l i).
Proof. intros H e E. apply py_index_error in E. subst. exact H. Qed.

Lemma only_py_setitem {A : Type} (P : exn -> Prop) (l : list A) (i : Z) (v : A) :
  P IndexError -> only P (py_setitem l i v).
Proof.
  intros H. unfold py_setitem. destruct (_ || _); [apply only_raise; exact H | apply only_ok].
Qed.

Section Escapes.

Variable P : exn -> Prop.
Hypothesis P_index : P IndexError.
Hypothesis P_type : P TypeError.

Ltac only_step :=
  first
    [ apply only_ok
    | apply only_raise; assumption
    | apply only_py_index; assumption
    | apply only_py_setitem; assumption
    | apply only_bind; [|intros ?]
    | apply only_for_range; intros ? ?
    | apply only_for_each; intros ? ?
    | match goal with
      | |- only _ (if ?c then _ else _) => destruct c
      | |- only _ (match ?x with _ => _ end) => destruct x
      end ].

Lemma only_ExplodeBytes (data : list Z) (bits : Z) (is_indexed : bool) :
  only P (ExplodeBytes data bits is_indexed).
Proof.
  unfold ExplodeBytes, explode_byte, explode16_body, py_range, py_truediv.
  change (GetNormalizer (VBool is_indexed) (VInt 4)) with (fun x : Z => Ok x).
  change (GetNormalizer (VBool is_indexed) (VInt 2)) with (fun x : Z => Ok x).
  change (GetNormalizer (VBool is_indexed) (VInt 1)) with (fun x : Z => Ok x).
  change (2 =? 0) with false. cbv iota.
  repeat only_step.
Qed.

Hypothesis P_filter : forall t, P (NonStandardFilter t).

Lemma only_defilter_row (self : PngDecode) (brow : list Z) :
  only P (defilter_row self brow).
Proof.
  unfold defilter_row, sub_body, up_body, average_body, paeth_body, py_truediv.
  change (2 =? 0) with false. cbv iota.
  repeat first [apply only_ExplodeBytes | apply only_raise; apply P_filter | only_step].
Qed.

Lemma only_reconstruct (self : PngDecode) (ddat : list Z) :
  only P (reconstruct self ddat).
Proof.
  unfold reconstruct, row_stride, py_truediv. change (8 =? 0) with false. cbv iota.
  repeat first [apply only_defilter_row | only_step].
Qed.

Hypothesis P_key : P KeyError.
Hypothesis P_compression : P UnsupportedCompression.
Hypothesis P_filter_method : P UnsupportedFilterMethod.
Hypothesis P_interlace : P UnsupportedInterlace.

Lemma only_IHDR (self : PngDecode) (bchd : list Z) : only P (IHDR self bchd).
Proof. unfold IHDR, dict_get. repeat only_step. Qed.

Lemma only_PLTE (self : PngDecode) (bchd : list Z) : only P (PLTE self bchd).
Proof. unfold PLTE, PLTE_body. repeat only_step. Qed.

(** The dispatch may also raise the end signal of [IEND]. *)
Lemma only_dispatch (self : PngDecode) (name : string) (bchd : list Z) :
  only (fun e => P e \/ e = EndReading) (dispatch self name bchd).
Proof.
  unfold dispatch, call_attr, IDAT, IEND.
  destruct (in_dir name self); [|apply only_ok].
  destruct (String.eqb name "IHDR");
    [intros e E; left; exact (only_IHDR self bchd e E)|].
  destruct (String.eqb name "IDAT"); [apply only_ok|].
  destruct (String.eqb name "PLTE");
    [intros e E; left; exact (only_PLTE self bchd e E)|].
  destruct (String.eqb name "IEND"); apply only_raise; auto.
Qed.

Hypothesis P_unicode : P UnicodeDecodeError.

Lemma only_chunk_loop (table : list Z -> option string) (fuel : nat) :
  forall f self, only P (chunk_loop table fuel f self).
Proof.
  induction fuel as [|fuel IH]; intros f self; [apply only_ok|].
  rewrite chunk_loop_S.
  destruct (len (firstn 4 f) <? 4); [apply only_ok|].
  unfold scht_upper.
  destruct (is_ascii _); [|destruct (table _); [|apply only_raise; assumption]];
    cbv zeta;
    (destruct (dispatch _ _ _) as [self'|e] eqn:E;
     [apply IH
     | destruct (only_dispatch _ _ _ e E) as [He | ->];
       [destruct e; try (apply only_raise; exact He); apply only_ok
       | apply only_ok]]).
Qed.

End Escapes.

Section Construction.

Variable inflate : list Z -> option (list Z).
Variable table : list Z -> option string.

(** X10. Construction fails only with the signature error, a decoding error
    of a chunk type, [IndexError], [KeyError], [TypeError], one of the three
    unsupported-method errors, the non-standard-filter error, a zlib error
    or the missing-palette error.  The [EndReading] signal that ends the
    chunk loop never reaches the caller. *)
Theorem construction_errors (f : list Z) (e : exn) :
  PngDecode_init inflate table f = Raise e -> constructor_error e.
Proof.
  assert (Hp : only constructor_error (parse inflate table f fresh_decoder)).
  { unfold parse, read, decompress.
    destruct (negb _); [apply only_raise; unfold constructor_error; tauto|].
    apply only_bind.
    - apply only_chunk_loop; unfold constructor_error; try tauto;
        intros t; do 8 right; left; exists t; reflexivity.
    - intros self. destruct (inflate _);
        [|apply only_raise; unfold constructor_error; tauto].
      apply only_reconstruct; unfold constructor_error; try tauto;
        intros t; do 8 right; left; exists t; reflexivity. }
  unfold PngDecode_init.
  destruct (parse inflate table f fresh_decoder) as [self|e'] eqn:E; cbn [bind].
  - destruct (_ && _); [|discriminate].
    intros H. injection H as <-. unfold constructor_error. tauto.
  - intros H. injection H as <-. apply (Hp e'). reflexivity.
Qed.

(** X11. Construction fails with the signature error exactly when the first
    eight bytes of the file are not the PNG signature (a file shorter than
    eight bytes included); nothing later in the file can cause it. *)
Theorem signature_checked (f : list Z) :
  PngDecode_init inflate table f = Raise NotPng <-> firstn 8 f <> PNG_MAGIC.
Proof.
  unfold PngDecode_init, parse, read. change (Z.to_nat 8) with 8%nat.
  unfold bytes_eqb.
  destruct (list_eq_dec Z.eq_dec (firstn 8 f) PNG_MAGIC) as [Heq|Hne]; cbn [negb].
  - split; [|contradiction]. intros H. exfalso.
    destruct (chunk_loop table _ _ _) as [s|e] eqn:E; cbn [bind] in H.
    + unfold decompress in H. destruct (inflate _) as [ddat|]; [|discriminate].
      destruct (reconstruct s ddat) as [s'|e] eqn:E'; cbn [bind] in H.
      * destruct (_ && _); discriminate.
      * injection H as ->.
        apply (only_reconstruct (fun e => e <> NotPng)) in E'; try discriminate.
        congruence.
    + injection H as ->.
      apply (only_chunk_loop (fun e => e <> NotPng)) in E; try discriminate.
      congruence.
  - split; [intros _; exact Hne | reflexivity].
Qed.

(** X12. A file that holds the signature and then fewer than four bytes is
    not an error: provided inflating no data succeeds, construction returns
    the decoder as [__init__] first set it up, 0 by 0 with an empty buffer. *)
Theorem signature_only_file (tail ddat : list Z) :
  (List.length tail < 4)%nat ->
  inflate [] = Some ddat ->
  PngDecode_init inflate table (PNG_MAGIC ++ tail) = Ok fresh_decoder.
Proof.
  intros Ht Hi. unfold PngDecode_init, parse, read.
  change (firstn (Z.to_nat 8) (PNG_MAGIC ++ tail)) with PNG_MAGIC.
  change (skipn (Z.to_nat 8) (PNG_MAGIC ++ tail)) with tail.
  change (negb (bytes_eqb PNG_MAGIC PNG_MAGIC)) with false. cbv iota.
  assert (Hl : chunk_loop table (List.length tail) tail fresh_decoder = Ok fresh_decoder).
  { destruct (List.length tail) as [|n] eqn:El; [reflexivity|].
    rewrite chunk_loop_S.
    destruct (Z.ltb_spec (len (firstn 4 tail)) 4) as [_|Hge]; [reflexivity|].
    unfold len in Hge. rewrite length_firstn in Hge. lia. }
  rewrite Hl. cbn [bind]. unfold decompress.
  change (idat_data fresh_decoder) with (@nil Z). rewrite Hi. reflexivity.
Qed.

End Construction.

Lemma signature_only_file_witness :
  PngDecode_init stored no_table (PNG_MAGIC ++ [0; 0]) = Ok fresh_decoder.
Proof.
  apply (signature_only_file stored no_table [0; 0] []); [simpl; lia | reflexivity].
Defined.

Lemma construction_errors_witness : constructor_error NotPng.
Proof.
  apply (construction_errors stored no_table [1; 2; 3] NotPng). reflexivity.
Defined.

(** ** Whole images *)

Lemma table_rows_len (tag bpp : Z) (prior raw : list Z) :
  forall out, len (table_rows tag bpp prior raw out) = len out + len raw.
Proof.
  induction raw as [|x raw IH]; intros out; cbn [table_rows].
  - change (len (@nil Z)) with 0. lia.
  - rewrite IH, len_app, !len_cons. change (len (@nil Z)) with 0. lia.
Qed.

Lemma table_row_len (tag bpp : Z) (prior raw : list Z) :
  len (table_row tag bpp prior raw) = len raw.
Proof. unfold table_row. rewrite table_rows_len. reflexivity. Qed.

Lemma prior_row_last (self : PngDecode) (A prev : list Z) :
  rgba self = A ++ prev ->
  len prev = w self * num_channels self ->
  0 < len prev ->
  prior_row self = prev.
Proof.
  intros Hr Hk Hp. unfold prior_row, py_slice_from, py_bound. rewrite Hr, <- Hk.
  pose proof (len_nonneg A) as HA.
  destruct (Z.ltb_spec (- len prev) 0); [|lia].
  rewrite len_app, Z.max_r by lia.
  apply skipn_exact. unfold len. lia.
Qed.

Lemma scanline_at (pre row rest : list Z) (www j : Z) :
  0 <= j -> len pre = j * www -> len row = www ->
  scanline (pre ++ row ++ rest) www j = row.
Proof.
  intros Hj Hp Hr. pose proof (len_nonneg row) as Hw.
  pose proof (len_nonneg rest) as Hrest.
  destruct (scanline_full (pre ++ row ++ rest) www j) as [-> _]; [lia | lia | |].
  - rewrite !len_app. lia.
  - rewrite skipn_exact by (unfold len in *; lia).
    apply firstn_exact. unfold len in *. lia.
Qed.

Section Image.

Variable self0 : PngDecode.
Let k := w self0 * num_channels self0.
Let bpp := num_channels self0.
Hypothesis depth8 : bit_depth self0 = 8.
Hypothesis bpp_ok : 1 <= num_channels self0 <= 8.
Hypothesis k_pos : 0 < k.

(** The rows after the first: the buffer ends with the previous row. *)
Lemma rows_loop (rows : list (Z * list Z)) :
  forall (pre A prev : list Z) (j : Z),
    0 <= j ->
    len pre = j * (1 + k) ->
    len prev = k ->
    Forall (row_ok k) rows ->
    for_range (List.length rows) j
      (fun j self => defilter_row self (scanline (pre ++ stream_of rows) (1 + k) j))
      (set_rgba self0 (A ++ prev))
    = Ok (set_rgba self0 (A ++ prev ++ table_image bpp prev rows)).
Proof.
  induction rows as [|[t d] rows IH]; intros pre A prev j Hj Hpre Hprev Hrows.
  - cbn [List.length for_range table_image]. rewrite app_nil_r. reflexivity.
  - inversion Hrows as [|r rs [Ht [Hd Hb]] Hrs]; subst r rs. cbn [fst snd] in *.
    cbn [List.length]. rewrite for_range_S.
    cbn [stream_of flat_map fst snd]. fold (stream_of rows).
    rewrite (scanline_at pre (t :: d) (stream_of rows))
      by (try rewrite len_cons; lia).
    assert (Hprior : prior_row (set_rgba self0 (A ++ prev)) = prev)
      by (apply (prior_row_last _ A prev); [reflexivity | exact Hprev | lia]).
    rewrite defilter_row_table;
      [ | exact depth8 | exact bpp_ok | exact Ht | exact Hb
        | intros _; rewrite Hprior; lia ].
    cbn [bind]. rewrite Hprior.
    change (rgba (set_rgba self0 (A ++ prev))) with (A ++ prev).
    change (num_channels (set_rgba self0 (A ++ prev))) with bpp.
    change (set_rgba (set_rgba self0 (A ++ prev))
              ((A ++ prev) ++ table_row t bpp prev d))
      with (set_rgba self0 ((A ++ prev) ++ table_row t bpp prev d)).
    replace (pre ++ (t :: d) ++ stream_of rows)
      with ((pre ++ t :: d) ++ stream_of rows)
      by (rewrite <- app_assoc; reflexivity).
    rewrite (IH (pre ++ t :: d) (A ++ prev) (table_row t bpp prev d) (j + 1));
      [ | lia | rewrite len_app, len_cons; lia
        | rewrite table_row_len; exact Hd | exact Hrs ].
    cbn [table_image fst snd]. rewrite <- !app_assoc. reflexivity.
Qed.

End Image.

(** The whole buffer of an 8-bit image, as an equation for reuse. *)
Lemma reconstruct_rows (self : PngDecode) (r0 : Z * list Z) (rows : list (Z * list Z)) :
  bit_depth self = 8 ->
  1 <= num_channels self <= 8 ->
  0 < w self * num_channels self ->
  rgba self = [] ->
  h self = len (r0 :: rows) ->
  0 <= fst r0 <= 1 ->
  Forall (row_ok (w self * num_channels self)) (r0 :: rows) ->
  reconstruct self (stream_of (r0 :: rows))
  = Ok (set_rgba self (table_image (num_channels self) [] (r0 :: rows))).
Proof.
  intros Hd Hb Hk Hr Hh Ht0 Hrows.
  inversion Hrows as [|r rs [_ [Hl0 Hb0]] Hrs]; subst r rs.
  destruct r0 as [t0 d0]. cbn [fst snd] in *.
  unfold reconstruct.
  rewrite row_stride_floor by (unfold row_bits; rewrite Hd; lia).
  unfold row_bits. rewrite Hd, Z.div_mul by lia. cbn [bind].
  rewrite Hh. unfold len at 1. rewrite Nat2Z.id.
  cbn [List.length]. rewrite for_range_S.
  cbn [stream_of flat_map fst snd]. fold (stream_of rows).
  rewrite (scanline_at [] (t0 :: d0) (stream_of rows))
    by (try rewrite len_cons; try reflexivity; lia).
  rewrite defilter_row_table;
    [ | exact Hd | exact Hb | lia | exact Hb0 | intros; lia ].
  cbn [bind]. rewrite Hr. cbn [app].
  assert (Hp : prior_row self = []).
  { unfold prior_row. rewrite Hr. apply py_slice_from_nil. }
  rewrite Hp.
  pose proof (rows_loop self Hd Hb Hk rows (t0 :: d0) []
                (table_row t0 (num_channels self) [] d0) (0 + 1)) as L.
  cbn [app] in L. rewrite L;
    [ | lia | rewrite len_cons; lia | rewrite table_row_len; exact Hl0 | exact Hrs ].
  cbn [table_image fst snd]. reflexivity.
Qed.

(** X13. An 8-bit image of 1 to 8 channels and a row of at least one byte
    (width * channels > 0), with an empty buffer, whose stream holds
    [height] rows of a tag in 0..4 and [width * channels] bytes, the first
    row with tag 0 or 1, is reconstructed in full: the buffer becomes the
    rows given by the table, each reconstructed row serving as the prior
    row of the next. *)
Theorem reconstruct_image (self : PngDecode) (r0 : Z * list Z) (rows : list (Z * list Z)) :
  bit_depth self = 8 ->
  1 <= num_channels self <= 8 ->
  0 < w self * num_channels self ->
  rgba self = [] ->
  h self = len (r0 :: rows) ->
  0 <= fst r0 <= 1 ->
  Forall (row_ok (w self * num_channels self)) (r0 :: rows) ->
  reconstruct self (stream_of (r0 :: rows))
  = Ok (set_rgba self (table_image (num_channels self) [] (r0 :: rows))).
Proof. exact (reconstruct_rows self r0 rows). Qed.

Lemma reconstruct_image_witness :
  reconstruct (mkPngDecode 3 2 0 1 8 0 [] [] None (Some 0) (Some 0))
    [1; 10; 10; 10; 4; 1; 2; 250]
  = Ok (mkPngDecode 3 2 0 1 8 0 [10; 20; 30; 11; 22; 24] [] None (Some 0) (Some 0)).
Proof.
  apply (reconstruct_image (mkPngDecode 3 2 0 1 8 0 [] [] None (Some 0) (Some 0))
           (1, [10; 10; 10]) [(4, [1; 2; 250])]);
    try reflexivity; try (simpl; lia).
  repeat constructor; simpl; unfold is_byte; lia.
Defined.

(** ** The forward filter *)

Lemma filter_rows_len (tag bpp : Z) (prior orig : list Z) :
  forall done, len (filter_rows tag bpp prior orig done) = len orig.
Proof.
  induction orig as [|x orig IH]; intros done; cbn [filter_rows]; [reflexivity|].
  rewrite !len_cons, IH. reflexivity.
Qed.

Lemma filter_rows_bytes (tag bpp : Z) (prior orig : list Z) :
  forall done, Forall is_byte (filter_rows tag bpp prior orig done).
Proof.
  induction orig as [|x orig IH]; intros done; cbn [filter_rows]; constructor.
  - unfold is_byte. apply Z.mod_pos_bound. lia.
  - apply IH.
Qed.

(** The table undoes the forward filter. *)
Lemma table_undoes_filter (tag bpp : Z) (prior orig : list Z) :
  Forall is_byte orig ->
  forall done,
    table_rows tag bpp prior (filter_rows tag bpp prior orig done) done = done ++ orig.
Proof.
  induction 1 as [|x orig Hx _ IH]; intros done; cbn [filter_rows table_rows].
  - rewrite app_nil_r. reflexivity.
  - rewrite Zplus_mod_idemp_l.
    replace (x - predictor tag bpp done prior (len done)
             + predictor tag bpp done prior (len done)) with x by lia.
    rewrite Z.mod_small by exact Hx.
    rewrite IH, <- app_assoc. reflexivity.
Qed.

(** X14. Filter round trip: an 8-bit row put through the forward filter of
    any of the five tags, against the prior row in the buffer, is
    reconstructed to the original bytes. *)
Theorem defilter_undoes_filter (self : PngDecode) (tag : Z) (orig : list Z) :
  bit_depth self = 8 ->
  1 <= num_channels self <= 8 ->
  0 <= tag <= 4 ->
  Forall is_byte orig ->
  (2 <= tag -> 0 < len (prior_row self) /\ len orig <= len (prior_row self)) ->
  defilter_row self
    (tag :: filter_row tag (num_channels self) (prior_row self) orig)
  = Ok (set_rgba self (rgba self ++ orig)).
Proof.
  intros Hd Hb Ht Ho Hp. unfold filter_row.
  rewrite defilter_row_table;
    [ | exact Hd | exact Hb | exact Ht | apply filter_rows_bytes
      | rewrite filter_rows_len; exact Hp ].
  unfold table_row. rewrite table_undoes_filter by exact Ho. reflexivity.
Qed.

Lemma defilter_undoes_filter_witness :
  defilter_row (mkPngDecode 3 2 0 1 8 0 [10; 20; 30] [] None (Some 0) (Some 0))
    (4 :: filter_row 4 1 [10; 20; 30] [11; 22; 24])
  = Ok (mkPngDecode 3 2 0 1 8 0 [10; 20; 30; 11; 22; 24] [] None (Some 0) (Some 0)).
Proof.
  apply (defilter_undoes_filter
           (mkPngDecode 3 2 0 1 8 0 [10; 20; 30] [] None (Some 0) (Some 0)) 4 [11; 22; 24]);
    try reflexivity; try (simpl; lia).
  - repeat constructor; unfold is_byte; lia.
  - intros _. split; [reflexivity | discriminate].
Defined.

(** ** Rows the reconstruction refuses *)

(** X15. An empty row is an [IndexError], and a row whose tag is outside
    0..4 is the non-standard-filter error whatever its data and the bit
    depth.  So a header that announces rows with no image data behind it
    fails with [IndexError], while with height 0 the stream is not read at
    all. *)
Theorem defilter_row_refuses (self : PngDecode) (t : Z) (data ddat : list Z) :
  defilter_row self [] = Raise IndexError /\
  (~ 0 <= t <= 4 -> defilter_row self (t :: data) = Raise (NonStandardFilter t)) /\
  (0 < h self -> 0 <= row_bits self -> reconstruct self [] = Raise IndexError) /\
  (h self <= 0 -> 0 <= row_bits self -> reconstruct self ddat = Ok self).
Proof.
  split; [reflexivity|]. split; [|split].
  - intros Ht. unfold defilter_row. rewrite py_index_head. cbn [bind].
    repeat match goal with
           | |- context [t =? ?n] => destruct (Z.eqb_spec t n); [lia|]
           end.
    reflexivity.
  - intros Hh Hb. unfold reconstruct. rewrite row_stride_floor by exact Hb.
    cbn [bind].
    destruct (Z.to_nat (h self)) as [|n] eqn:E; [lia|].
    rewrite for_range_S.
    replace (scanline [] (1 + row_bits self / 8) 0) with (@nil Z); [reflexivity|].
    unfold scanline, py_slice. rewrite skipn_nil, firstn_nil. reflexivity.
  - intros Hh Hb. unfold reconstruct. rewrite row_stride_floor by exact Hb.
    cbn [bind]. replace (Z.to_nat (h self)) with 0%nat by lia. reflexivity.
Qed.

(** ** More on pixel access *)

Lemma skipn_nth (l : list Z) :
  forall a, (a < List.length l)%nat -> skipn a l = nth a l 0 :: skipn (S a) l.
Proof.
  induction l as [|v l IH]; intros a Ha; [simpl in Ha; lia|].
  destruct a as [|a]; [reflexivity|].
  cbn [skipn nth]. apply IH. simpl in Ha. lia.
Qed.

Lemma py_slice_window (l : list Z) (a n : Z) :
  0 <= a -> 0 <= n -> a + n <= len l ->
  py_slice l a (a + n) = firstn (Z.to_nat n) (skipn (Z.to_nat a) l).
Proof.
  intros Ha Hn Hl. unfold py_slice, py_bound.
  destruct (Z.ltb_spec a 0); [lia|]. destruct (Z.ltb_spec (a + n) 0); [lia|].
  rewrite !Z.min_l by lia. replace (a + n - a) with n by lia. reflexivity.
Qed.

Lemma py_slice_beyond (l : list Z) (a b : Z) :
  len l <= a -> py_slice l a b = [].
Proof.
  intros Ha. pose proof (len_nonneg l) as Hl. unfold py_slice, py_bound.
  destruct (Z.ltb_spec a 0); [lia|]. rewrite (Z.min_r a) by lia.
  rewrite skipn_all2 by (unfold len; lia). apply firstn_nil.
Qed.

Lemma pixel_in_buffer (self : PngDecode) (x y : Z) :
  1 <= num_channels self ->
  0 <= x < w self -> 0 <= y < h self ->
  len (rgba self) = w self * h self * num_channels self ->
  0 <= pixel_offset self x y /\
  pixel_offset self x y + num_channels self <= len (rgba self).
Proof.
  intros Hc Hx Hy Hl. unfold pixel_offset. rewrite Hl.
  assert (HW : 0 <= w self * num_channels self)
    by (apply Z.mul_nonneg_nonneg; lia).
  assert (H1 : (x + 1) * num_channels self <= w self * num_channels self)
    by (apply Z.mul_le_mono_nonneg_r; lia).
  assert (H2 : (y + 1) * (w self * num_channels self)
               <= h self * (w self * num_channels self))
    by (apply Z.mul_le_mono_nonneg_r; lia).
  assert (H3 : 0 <= y * (w self * num_channels self))
    by (apply Z.mul_nonneg_nonneg; lia).
  assert (H4 : 0 <= x * num_channels self)
    by (apply Z.mul_nonneg_nonneg; lia).
  split; lia.
Qed.

(** X16. On a decoder that is not indexed, with one to four channels and a
    buffer of width * height * channels bytes, [get] at in-range coordinates
    succeeds, leaves the decoder as it is and returns the pixel's samples
    padded to RGBA: (g, g, g, 255), (g, g, g, a), (r, g, b, 255) or
    (r, g, b, a). *)
Theorem get_direct (self : PngDecode) (x y : Z) :
  color_type self <> 3 ->
  1 <= num_channels self <= 4 ->
  0 <= x < w self -> 0 <= y < h self ->
  len (rgba self) = w self * h self * num_channels self ->
  get self x y = Ok (direct_pixel self x y, self).
Proof.
  intros Hct Hc Hx Hy Hl.
  destruct (pixel_in_buffer self x y) as [H0 H1]; try assumption; try lia.
  unfold get. fold (pixel_offset self x y).
  destruct (Z.eqb_spec (color_type self) 3); [contradiction|].
  rewrite py_slice_window by lia.
  unfold direct_pixel, sample.
  set (o := pixel_offset self x y) in *.
  assert (Hn : forall i, 0 <= i < num_channels self ->
               (Z.to_nat o + Z.to_nat i < List.length (rgba self))%nat)
    by (intros i Hi; unfold len in H1; lia).
  assert (Hc' : num_channels self = 1 \/ num_channels self = 2 \/
                num_channels self = 3 \/ num_channels self = 4) by lia.
  destruct Hc' as [E | [E | [E | E]]]; rewrite E in *; cbn [Z.eqb Pos.eqb];
    change (Z.to_nat 1) with 1%nat; change (Z.to_nat 2) with 2%nat;
    change (Z.to_nat 3) with 3%nat; change (Z.to_nat 4) with 4%nat.
  - rewrite (skipn_nth _ (Z.to_nat o)) by (specialize (Hn 0); lia).
    cbn [firstn]. rewrite Z.add_0_r. reflexivity.
  - rewrite (skipn_nth _ (Z.to_nat o)) by (specialize (Hn 0); lia).
    rewrite (skipn_nth _ (S (Z.to_nat o))) by (specialize (Hn 1); lia).
    cbn [firstn]. rewrite Z.add_0_r.
    replace (Z.to_nat (o + 1)) with (S (Z.to_nat o)) by lia. reflexivity.
  - rewrite (skipn_nth _ (Z.to_nat o)) by (specialize (Hn 0); lia).
    rewrite (skipn_nth _ (S (Z.to_nat o))) by (specialize (Hn 1); lia).
    rewrite (skipn_nth _ (S (S (Z.to_nat o)))) by (specialize (Hn 2); lia).
    cbn [firstn]. rewrite Z.add_0_r.
    replace (Z.to_nat (o + 1)) with (S (Z.to_nat o)) by lia.
    replace (Z.to_nat (o + 2)) with (S (S (Z.to_nat o))) by lia. reflexivity.
  - rewrite (skipn_nth _ (Z.to_nat o)) by (specialize (Hn 0); lia).
    rewrite (skipn_nth _ (S (Z.to_nat o))) by (specialize (Hn 1); lia).
    rewrite (skipn_nth _ (S (S (Z.to_nat o)))) by (specialize (Hn 2); lia).
    rewrite (skipn_nth _ (S (S (S (Z.to_nat o))))) by (specialize (Hn 3); lia).
    cbn [firstn]. rewrite Z.add_0_r.
    replace (Z.to_nat (o + 1)) with (S (Z.to_nat o)) by lia.
    replace (Z.to_nat (o + 2)) with (S (S (Z.to_nat o))) by lia.
    replace (Z.to_nat (o + 3)) with (S (S (S (Z.to_nat o)))) by lia. reflexivity.
Qed.

Lemma get_direct_witness :
  get (mkPngDecode 2 1 4 2 8 0 [1; 2; 100; 50] [] None (Some 0) (Some 0)) 1 0
  = Ok ((100, 100, 100, 50),
        mkPngDecode 2 1 4 2 8 0 [1; 2; 100; 50] [] None (Some 0) (Some 0)).
Proof.
  apply (get_direct (mkPngDecode 2 1 4 2 8 0 [1; 2; 100; 50] [] None (Some 0) (Some 0))
           1 0); simpl; first [discriminate | lia | reflexivity].
Defined.

(** X17. [get] does not check its coordinates: a column past the width is
    the same pixel as that many columns into the next row, and an offset at
    or past the end of the buffer is an [IndexError]. *)
Theorem get_unchecked (self : PngDecode) (x y : Z) :
  get self (x + w self) y = get self x (y + 1) /\
  (0 <= num_channels self -> len (rgba self) <= pixel_offset self x y ->
   get self x y = Raise IndexError).
Proof.
  split.
  - unfold get.
    replace (y * (w self * num_channels self) + (x + w self) * num_channels self)
      with ((y + 1) * (w self * num_channels self) + x * num_channels self) by lia.
    reflexivity.
  - intros Hc Hb. unfold get. fold (pixel_offset self x y).
    rewrite py_slice_beyond by exact Hb.
    destruct (color_type self =? 3); reflexivity.
Qed.

(** ** What a constructed decoder satisfies *)

Lemma triples_length_exact (l : list Z) :
  (List.length l < 3 * List.length (triples l) + 3)%nat.
Proof.
  revert l. fix IH 1. intros [|r [|g [|b rest]]]; simpl; try lia.
  specialize (IH rest). lia.
Qed.

Lemma triples_entries (l : list Z) :
  Forall (fun e => List.length e = 3%nat) (triples l).
Proof.
  revert l. fix IH 1. intros [|r [|g [|b rest]]]; simpl; try constructor.
  - reflexivity.
  - apply IH.
Qed.

Lemma len_triples (l : list Z) : len (triples l) = len l / 3.
Proof.
  pose proof (triples_length l) as H1. pose proof (triples_length_exact l) as H2.
  unfold len.
  apply Z.div_unique with (r := Z.of_nat (List.length l)
                                - 3 * Z.of_nat (List.length (triples l)));
    lia.
Qed.

(** What [PLTE] returns (the equation of the palette chunk, as a helper). *)
Lemma PLTE_result (self : PngDecode) (bchd : list Z) :
  PLTE self bchd =
  Ok (if (1 <=? len bchd / 3) && (len bchd / 3 <=? 255)
      then set_palette self (Some (triples bchd))
      else self).
Proof.
  unfold PLTE. pose proof (len_nonneg bchd) as Hl.
  assert (H0 : 0 <= len bchd / 3) by (apply Z.div_pos; lia).
  destruct (Z.eqb_spec (len bchd / 3) 0) as [E0|E0].
  - rewrite E0. reflexivity.
  - replace (1 <=? len bchd / 3) with true by (symmetry; apply Z.leb_le; lia).
    rewrite Z.gtb_ltb. cbn [orb andb].
    destruct (Z.ltb_spec 255 (len bchd / 3)) as [Hgt|Hle].
    + replace (len bchd / 3 <=? 255) with false by (symmetry; apply Z.leb_gt; lia).
      reflexivity.
    + replace (len bchd / 3 <=? 255) with true by (symmetry; apply Z.leb_le; lia).
      change 0 with (Z.of_nat 0) at 1.
      assert (Hdiv : 3 * (len bchd / 3) <= len bchd) by (apply Z.mul_div_le; lia).
      rewrite PLTE_loop by (unfold len in *; lia).
      cbn [bind app]. simpl (skipn (3 * 0) bchd).
      rewrite firstn_all2; [reflexivity|].
      pose proof (len_triples bchd) as Ht. unfold len in *. lia.
Qed.

(** [defilter_row] and [reconstruct] write the buffer and nothing else. *)
Lemma defilter_row_only_rgba (self self' : PngDecode) (brow : list Z) :
  defilter_row self brow = Ok self' -> exists v, self' = set_rgba self v.
Proof.
  unfold defilter_row.
  destruct (py_index brow 0); [|discriminate]. cbn [bind].
  repeat match goal with
         | |- context [if ?c then _ else _] => destruct c
         | |- bind ?m _ = _ -> _ => destruct m; [|discriminate]; cbn [bind]
         end;
    intros H; try discriminate H; injection H as <-; eexists; reflexivity.
Qed.

Lemma reconstruct_only_rgba (self self' : PngDecode) (ddat : list Z) :
  reconstruct self ddat = Ok self' -> self' = self \/ exists v, self' = set_rgba self v.
Proof.
  unfold reconstruct. destruct (row_stride self) as [www|]; [|discriminate].
  cbn [bind]. generalize 0 at 1. generalize (Z.to_nat (h self)). intros n.
  assert (G : forall s j, for_range n j
                (fun j self => defilter_row self (scanline ddat www j)) s = Ok self' ->
              self' = s \/ exists v, self' = set_rgba s v).
  { induction n as [|n IH]; intros s j H.
    - injection H as <-. left. reflexivity.
    - rewrite for_range_S in H.
      destruct (defilter_row s (scanline ddat www j)) as [s1|] eqn:E; [|discriminate].
      cbn [bind] in H. apply IH in H. apply defilter_row_only_rgba in E.
      destruct E as [v ->]. right.
      destruct H as [-> | [v' ->]]; eexists; reflexivity. }
  intros j. apply G.
Qed.

Lemma dispatch_keeps (self self' : PngDecode) (name : string) (bchd : list Z) :
  header_ok self -> palette_triples self ->
  dispatch self name bchd = Ok self' ->
  header_ok self' /\ palette_triples self'.
Proof.
  intros Hh Hp. unfold dispatch, call_attr.
  destruct (in_dir name self); [|intros H; injection H as <-; auto].
  destruct (String.eqb name "IHDR").
  { intros H. pose proof (IHDR_palette _ _ _ H) as Hpal.
    split.
    - right. unfold IHDR in H.
      repeat match type of H with
             | bind ?m _ = _ => destruct m eqn:?; [cbn [bind] in H | discriminate H]
             end.
      match goal with E : dict_get CHANNELS _ = Ok _ |- _ =>
        apply dict_get_CHANNELS in E end.
      repeat match type of H with
             | (if negb (?c =? 0) then _ else _) = _ =>
                 destruct (Z.eqb_spec c 0); [subst; cbn [negb] in H | discriminate H]
             end.
      injection H as <-.
      cbn [color_type num_channels compression filter interlace]. tauto.
    - unfold palette_triples in *. rewrite Hpal. exact Hp. }
  destruct (String.eqb name "IDAT").
  { unfold IDAT. intros H. injection H as <-. auto. }
  destruct (String.eqb name "PLTE").
  { rewrite PLTE_result. intros H. injection H as <-.
    destruct (Z.leb_spec 1 (len bchd / 3)); destruct (Z.leb_spec (len bchd / 3) 255);
      cbn [andb]; auto.
    split; [exact Hh|]. unfold palette_triples. cbn [palette set_palette].
    rewrite len_triples. split; [lia | apply triples_entries]. }
  destruct (String.eqb name "IEND"); discriminate.
Qed.

Section Constructed.

Variable inflate : list Z -> option (list Z).
Variable table : list Z -> option string.

Lemma chunk_loop_keeps (fuel : nat) :
  forall f self self',
    header_ok self -> palette_triples self ->
    chunk_loop table fuel f self = Ok self' ->
    header_ok self' /\ palette_triples self'.
Proof.
  induction fuel as [|fuel IH]; intros f self self' Hh Hp H.
  - injection H as <-. auto.
  - rewrite chunk_loop_S in H.
    destruct (len (firstn 4 f) <? 4); [injection H as <-; auto|].
    destruct (scht_upper table _) as [name|]; [|discriminate].
    cbv zeta in H.
    destruct (dispatch self name _) as [s1|e] eqn:E.
    + destruct (dispatch_keeps _ _ _ _ Hh Hp E) as [Hh1 Hp1].
      exact (IH _ _ _ Hh1 Hp1 H).
    + destruct e; try discriminate. injection H as <-. auto.
Qed.

(** X18. Whatever the file, a decoder that construction returns has header
    fields that are either the initial ones or those of an accepted IHDR
    (a known colour type with its channel count, all three methods 0); its
    palette, if any, has 1 to 255 entries of three values; an indexed one
    has a palette; and one with a positive height has 1 to 4 channels. *)
Theorem construction_invariant (f : list Z) (d : PngDecode) :
  PngDecode_init inflate table f = Ok d ->
  header_ok d /\
  palette_triples d /\
  (color_type d = 3 -> palette d <> None) /\
  (0 < h d -> 1 <= num_channels d <= 4).
Proof.
  intros H. unfold PngDecode_init in H.
  destruct (parse inflate table f fresh_decoder) as [s|] eqn:Ep; [|discriminate].
  cbn [bind] in H.
  destruct ((color_type s =? 3) && _) eqn:Ec; [discriminate|].
  injection H as ->.
  unfold parse, read in Ep. destruct (negb _); [discriminate|].
  destruct (chunk_loop table _ _ fresh_decoder) as [s1|] eqn:El; [|discriminate].
  cbn [bind] in Ep. unfold decompress in Ep.
  destruct (inflate _) as [ddat|]; [|discriminate].
  assert (Hf : header_ok fresh_decoder) by (left; repeat split).
  assert (Hpf : palette_triples fresh_decoder) by exact I.
  destruct (chunk_loop_keeps _ _ _ _ Hf Hpf El) as [Hh1 Hp1].
  assert (Hd : header_ok d /\ palette_triples d).
  { apply reconstruct_only_rgba in Ep. destruct Ep as [-> | [v ->]]; auto. }
  destruct Hd as [Hh Hp]. split; [exact Hh|]. split; [exact Hp|]. split.
  - intros H3 Hn. rewrite H3, Hn in Ec. discriminate.
  - intros Hpos. destruct Hh as [Hfresh | [Hc _]]; [lia|]. lia.
Qed.

End Constructed.

Lemma construction_invariant_witness :
  palette_triples (mkPngDecode 1 1 3 1 8 0 [0] [0; 0] (Some [[10; 20; 30]])
                     (Some 0) (Some 0)).
Proof.
  apply (construction_invariant stored no_table indexed_image). reflexivity.
Defined.

(** ** What [get] answers *)

Lemma set_palette_same (s : PngDecode) : set_palette s (palette s) = s.
Proof. destruct s. reflexivity. Qed.

Lemma py_index_position {A : Type} (l : list A) (i : Z) (a : A) :
  py_index l i = Ok a ->
  0 <= position l i < len l /\
  nth_error l (Z.to_nat (position l i)) = Some a /\
  (forall v, py_setitem l i v = Ok (set_nth l (Z.to_nat (position l i)) v)).
Proof.
  unfold py_index, py_setitem, position.
  set (j := if i <? 0 then i + len l else i).
  destruct (Z.ltb_spec j 0) as [Hneg|Hpos]; [discriminate|].
  destruct (nth_error l (Z.to_nat j)) eqn:N; [|discriminate].
  intros Heq. injection Heq as ->.
  assert (Hn : (Z.to_nat j < List.length l)%nat) by (apply nth_error_Some; congruence).
  assert (Hj : j < len l) by (unfold len; lia).
  split; [lia|]. split; [reflexivity|].
  intros v. cbn [orb]. destruct (Z.leb_spec (len l) j); [lia|]. reflexivity.
Qed.

Lemma py_index_at {A : Type} (l : list A) (i : Z) (a : A) :
  0 <= position l i ->
  nth_error l (Z.to_nat (position l i)) = Some a ->
  py_index l i = Ok a.
Proof.
  unfold py_index, position. intros H N.
  destruct (Z.ltb_spec (if i <? 0 then i + len l else i) 0); [lia|].
  rewrite N. reflexivity.
Qed.

Lemma set_nth_length {A : Type} (l : list A) (n : nat) (v : A) :
  List.length (set_nth l n v) = List.length l.
Proof.
  revert n. induction l as [|a l IH]; intros [|n]; simpl; auto.
Qed.

Lemma position_set_nth {A : Type} (l : list A) (n : nat) (v : A) (i : Z) :
  position (set_nth l n v) i = position l i.
Proof. unfold position, len. rewrite set_nth_length. reflexivity. Qed.

Lemma same_colors_refl (p : list (list Z)) : same_colors p p.
Proof. induction p; constructor; auto. Qed.

Lemma same_colors_set_nth (p : list (list Z)) (n : nat) (e : list Z) :
  nth_error p n = Some e -> List.length e = 3%nat ->
  same_colors p (set_nth p n (e ++ [255])).
Proof.
  revert n. induction p as [|a p IH]; intros [|n] N He; simpl in *; try discriminate.
  - injection N as ->. constructor; [|apply same_colors_refl].
    rewrite firstn_app, He. cbn [Nat.sub firstn]. rewrite app_nil_r. reflexivity.
  - constructor; [reflexivity | apply IH; assumption].
Qed.

Lemma entries_ok_set_nth (p : list (list Z)) (n : nat) (e : list Z) :
  Forall entry_ok p -> entry_ok e -> Forall entry_ok (set_nth p n e).
Proof.
  intros Hp. revert n. induction Hp as [|a p Ha Hp IH]; intros [|n] He; simpl;
    try constructor; auto.
Qed.

Lemma same_colors_index (p q : list (list Z)) (i : Z) :
  same_colors p q ->
  match py_index p i, py_index q i with
  | Ok e, Ok e' => firstn 3 e = firstn 3 e'
  | Raise a, Raise b => a = b
  | _, _ => False
  end.
Proof.
  intros H. assert (Hl : len p = len q) by (unfold len; rewrite (Forall2_length H); reflexivity).
  unfold py_index. rewrite <- Hl.
  destruct (_ <? 0); [reflexivity|].
  generalize (Z.to_nat (if i <? 0 then i + len p else i)). intros n.
  clear Hl. revert n. induction H as [|a b p q Hab Hpq IH]; intros [|n]; simpl; auto.
  apply IH.
Qed.

Lemma entry_rgba_firstn (e e' : list Z) :
  firstn 3 e = firstn 3 e' -> entry_rgba e = entry_rgba e'.
Proof.
  intros H. unfold entry_rgba.
  assert (G : forall n l, (n < 3)%nat -> nth n l 0 = nth n (firstn 3 l) 0).
  { intros n l Hn. destruct l as [|a [|b [|c l]]]; destruct n as [|[|[|n]]];
      simpl; try reflexivity; lia. }
  rewrite (G 0%nat e), (G 1%nat e), (G 2%nat e), (G 0%nat e'), (G 1%nat e'),
    (G 2%nat e'), H by lia.
  reflexivity.
Qed.

(** An indexed lookup that finds a well-formed entry. *)
Lemma get_indexed_found (s : PngDecode) (x y idx : Z) (rest e : list Z)
  (p : list (list Z)) :
  color_type s = 3 ->
  palette s = Some p ->
  py_slice (rgba s) (pixel_offset s x y) (pixel_offset s x y + num_channels s)
    = idx :: rest ->
  py_index p idx = Ok e ->
  entry_ok e ->
  exists q,
    get s x y = Ok (entry_rgba e, set_palette s (Some q)) /\
    same_colors p q /\
    (Forall entry_ok p -> Forall entry_ok q).
Proof.
  intros Hct Hpal Hsl Hidx He.
  destruct (py_index_position p idx e Hidx) as (Hpos & Hnth & Hset).
  destruct He as [H3 | [H4 H255]].
  - destruct e as [|r [|g [|b [|? ?]]]]; try discriminate H3.
    exists (set_nth p (Z.to_nat (position p idx)) ([r; g; b] ++ [255])).
    split; [|split].
    + unfold get. fold (pixel_offset s x y). rewrite Hct, Hsl.
      unfold pixel_at, deref, append. rewrite Hpal.
      cbn [bind Z.eqb Pos.eqb]. change (py_index (idx :: rest) 0) with (Ok idx).
      repeat first [ rewrite Hidx | progress cbn [bind] ].
      replace (len [r; g; b] =? 1) with false by reflexivity.
      replace (len [r; g; b] =? 2) with false by reflexivity.
      replace (len [r; g; b] =? 3) with true by reflexivity.
      repeat first [ rewrite Hidx | progress cbn [bind] ].
      rewrite Hset. cbn [bind fst snd palette set_palette app].
      assert (Hnew : py_index (set_nth p (Z.to_nat (position p idx)) [r; g; b; 255]) idx
                     = Ok [r; g; b; 255]).
      { apply py_index_at; rewrite position_set_nth;
          [lia | apply nth_error_set_nth; unfold len in Hpos; lia]. }
      rewrite Hnew. reflexivity.
    + apply same_colors_set_nth; [exact Hnth | reflexivity].
    + intros Hp. apply entries_ok_set_nth; [exact Hp|]. right. split; reflexivity.
  - destruct e as [|r [|g [|b [|a [|? ?]]]]]; try discriminate H4.
    cbn [nth] in H255. subst a.
    exists p. split; [|split; [apply same_colors_refl | auto]].
    unfold get. fold (pixel_offset s x y). rewrite Hct, Hsl.
    unfold pixel_at, deref, append. rewrite Hpal.
    cbn [bind Z.eqb Pos.eqb]. change (py_index (idx :: rest) 0) with (Ok idx).
    repeat first [ rewrite Hidx | progress cbn [bind] ].
    replace (len [r; g; b; 255] =? 1) with false by reflexivity.
    replace (len [r; g; b; 255] =? 2) with false by reflexivity.
    replace (len [r; g; b; 255] =? 3) with false by reflexivity.
    cbn [bind]. rewrite Hpal.
    repeat first [ rewrite Hidx | progress cbn [bind] ].
    rewrite <- Hpal, set_palette_same. reflexivity.
Qed.

(** The answer of an indexed decoder with a well-formed palette. *)
Lemma get_value_indexed (s : PngDecode) (x y : Z) :
  color_type s = 3 ->
  palette_ok s ->
  get_value s x y
  = indexed_value (palette s)
      (py_slice (rgba s) (pixel_offset s x y) (pixel_offset s x y + num_channels s)).
Proof.
  intros Hct Hok. unfold indexed_value.
  destruct (py_slice _ _ _) as [|idx rest] eqn:Hsl.
  - unfold get_value, get. fold (pixel_offset s x y). rewrite Hct, Hsl. reflexivity.
  - destruct (palette s) as [p|] eqn:Hpal.
    + destruct (py_index p idx) as [e|er] eqn:Hidx.
      * unfold palette_ok in Hok. rewrite Hpal in Hok.
        assert (He : entry_ok e).
        { destruct (py_index_position p idx e Hidx) as (_ & Hnth & _).
          rewrite Forall_forall in Hok. apply Hok. eapply nth_error_In. exact Hnth. }
        destruct (get_indexed_found s x y idx rest e p Hct Hpal Hsl Hidx He)
          as (q & Hg & _).
        unfold get_value. rewrite Hg. reflexivity.
      * unfold get_value, get. fold (pixel_offset s x y). rewrite Hct, Hsl.
        unfold pixel_at, deref. rewrite Hpal.
        cbn [bind Z.eqb Pos.eqb]. change (py_index (idx :: rest) 0) with (Ok idx).
        cbn [bind]. rewrite Hidx. reflexivity.
    + unfold get_value, get. fold (pixel_offset s x y). rewrite Hct, Hsl.
      unfold pixel_at, deref. rewrite Hpal. reflexivity.
Qed.

(** Without indexing the palette plays no part. *)
Lemma get_value_direct (s : PngDecode) (q : option (list (list Z))) (x y : Z) :
  color_type s <> 3 -> get_value (set_palette s q) x y = get_value s x y.
Proof.
  intros Hct. unfold get_value, get, pixel_at, deref, append.
  change (color_type (set_palette s q)) with (color_type s).
  change (num_channels (set_palette s q)) with (num_channels s).
  change (w (set_palette s q)) with (w s).
  change (rgba (set_palette s q)) with (rgba s).
  destruct (Z.eqb_spec (color_type s) 3); [contradiction|].
  cbn [bind].
  set (l := py_slice (rgba s) _ _).
  destruct (len l =? 1).
  - destruct (py_index l 0) as [p0|]; [|reflexivity]. cbn [bind fst snd].
    destruct (py_index (l ++ [p0]) 0) as [p1|]; [|reflexivity]. cbn [bind fst snd].
    repeat (match goal with
            | |- context [py_index ?a ?b] => destruct (py_index a b); cbn [bind fst snd]
            end; try reflexivity).
  - destruct (len l =? 2).
    + repeat (match goal with
              | |- context [py_index ?a ?b] => destruct (py_index a b); cbn [bind fst snd]
              end; try reflexivity).
    + destruct (len l =? 3); cbn [bind fst snd];
        repeat (match goal with
                | |- context [py_index ?a ?b] => destruct (py_index a b); cbn [bind fst snd]
                end; try reflexivity).
Qed.

(** A palette as construction leaves it is well formed for [get]. *)
Lemma palette_triples_ok (s : PngDecode) : palette_triples s -> palette_ok s.
Proof.
  unfold palette_triples, palette_ok. destruct (palette s) as [p|]; [|auto].
  intros [_ H]. induction H as [|e p He _ IH]; constructor; [left; exact He | exact IH].
Qed.

(** X19. What [get] writes does not show in what [get] answers.  On a decoder
    whose palette entries are triples, or triples followed by 255, a
    successful [get] changes at most the palette, by appending 255 to the
    triple it looked up; the palette stays of that form, and afterwards
    every [get], at any coordinates, gives the answer it would have given
    before. *)
Theorem get_stable (s s' : PngDecode) (x y : Z) (t : Z * Z * Z * Z) :
  palette_ok s ->
  get s x y = Ok (t, s') ->
  palette_ok s' /\
  same_pixels s s' /\
  (forall x' y', get_value s' x' y' = get_value s x' y').
Proof.
  intros Hok Hg.
  destruct (Z.eq_dec (color_type s) 3) as [Hct|Hct].
  - pose proof (get_value_indexed s x y Hct Hok) as Hv.
    unfold get_value in Hv. rewrite Hg in Hv. cbn [fst] in Hv.
    unfold indexed_value in Hv.
    destruct (py_slice _ _ _) as [|idx rest] eqn:Hsl; [discriminate|].
    destruct (palette s) as [p|] eqn:Hpal; [|discriminate].
    destruct (py_index p idx) as [e|] eqn:Hidx; [|discriminate].
    assert (Hp : Forall entry_ok p) by (unfold palette_ok in Hok; rewrite Hpal in Hok; exact Hok).
    assert (He : entry_ok e).
    { destruct (py_index_position p idx e Hidx) as (_ & Hnth & _).
      rewrite Forall_forall in Hp. apply Hp. eapply nth_error_In. exact Hnth. }
    destruct (get_indexed_found s x y idx rest e p Hct Hpal Hsl Hidx He)
      as (q & Hg' & Hsame & Hq).
    rewrite Hg in Hg'. injection Hg' as _ ->.
    assert (Hok' : palette_ok (set_palette s (Some q))) by (apply Hq; exact Hp).
    split; [exact Hok'|]. split.
    + unfold same_pixels. cbn [palette set_palette]. rewrite Hpal.
      split; [reflexivity | exact Hsame].
    + intros x' y'.
      rewrite (get_value_indexed (set_palette s (Some q)) x' y' Hct Hok').
      rewrite (get_value_indexed s x' y' Hct Hok).
      change (rgba (set_palette s (Some q))) with (rgba s).
      change (num_channels (set_palette s (Some q))) with (num_channels s).
      change (pixel_offset (set_palette s (Some q)) x' y') with (pixel_offset s x' y').
      cbn [palette set_palette]. rewrite Hpal. unfold indexed_value.
      destruct (py_slice (rgba s) (pixel_offset s x' y') _) as [|i r]; [reflexivity|].
      pose proof (same_colors_index p q i Hsame) as Hi.
      destruct (py_index p i), (py_index q i); try contradiction.
      * f_equal. symmetry. apply entry_rgba_firstn. exact Hi.
      * subst. reflexivity.
  - destruct (get_frame s s' x y t Hg) as [_ Hs]. specialize (Hs Hct). subst s'.
    split; [exact Hok|]. split; [|reflexivity].
    unfold same_pixels. split; [symmetry; apply set_palette_same|].
    destruct (palette s); [apply same_colors_refl | exact I].
Qed.

Lemma get_stable_witness :
  get_value (mkPngDecode 1 1 3 1 8 0 [0] [] (Some [[10; 20; 30; 255]]) (Some 0) (Some 0)) 0 0
  = get_value (mkPngDecode 1 1 3 1 8 0 [0] [] (Some [[10; 20; 30]]) (Some 0) (Some 0)) 0 0.
Proof.
  apply (get_stable (mkPngDecode 1 1 3 1 8 0 [0] [] (Some [[10; 20; 30]]) (Some 0) (Some 0))
           (mkPngDecode 1 1 3 1 8 0 [0] [] (Some [[10; 20; 30; 255]]) (Some 0) (Some 0))
           0 0 (10, 20, 30, 255)).
  - repeat constructor.
  - reflexivity.
Defined.

(** ** From the palette chunk to the pixel *)

Lemma nth_error_triples (i : nat) :
  forall l, (3 * i + 2 < List.length l)%nat ->
    nth_error (triples l) i
    = Some [nth (3 * i) l 0; nth (3 * i + 1) l 0; nth (3 * i + 2) l 0].
Proof.
  induction i as [|i IH]; intros l H;
    destruct l as [|r [|g [|b rest]]]; simpl in H; try lia.
  - reflexivity.
  - cbn [triples nth_error]. rewrite IH by lia.
    replace (3 * S i)%nat with (S (S (S (3 * i)))) by lia.
    replace (S (S (S (3 * i))) + 1)%nat with (S (S (S (3 * i + 1)))) by lia.
    replace (S (S (S (3 * i))) + 2)%nat with (S (S (S (3 * i + 2)))) by lia.
    reflexivity.
Qed.

(** X20. From the palette chunk to the pixel: after [PLTE] has installed a
    payload of at most 255 triples on an indexed decoder, a pixel whose
    sample is [idx], below the number of triples, reads as the bytes
    3*idx, 3*idx+1 and 3*idx+2 of the payload, with alpha 255. *)
Theorem palette_lookup (self0 self : PngDecode) (bchd rest : list Z) (x y idx : Z) :
  PLTE self0 bchd = Ok self ->
  len bchd / 3 <= 255 ->
  color_type self = 3 ->
  py_slice (rgba self) (pixel_offset self x y) (pixel_offset self x y + num_channels self)
    = idx :: rest ->
  0 <= idx < len bchd / 3 ->
  get_value self x y
  = Ok (nth (Z.to_nat (3 * idx)) bchd 0, nth (Z.to_nat (3 * idx + 1)) bchd 0,
        nth (Z.to_nat (3 * idx + 2)) bchd 0, 255).
Proof.
  intros HP Hmax Hct Hsl Hidx. rewrite PLTE_result in HP.
  replace (1 <=? len bchd / 3) with true in HP by (symmetry; apply Z.leb_le; lia).
  replace (len bchd / 3 <=? 255) with true in HP by (symmetry; apply Z.leb_le; lia).
  cbn [andb] in HP. injection HP as <-.
  assert (Hlen : 3 * (len bchd / 3) <= len bchd)
    by (apply Z.mul_div_le; lia).
  assert (He : py_index (triples bchd) idx
               = Ok [nth (Z.to_nat (3 * idx)) bchd 0; nth (Z.to_nat (3 * idx + 1)) bchd 0;
                     nth (Z.to_nat (3 * idx + 2)) bchd 0]).
  { apply py_index_nat; [lia|].
    rewrite nth_error_triples by (unfold len in *; lia).
    replace (3 * Z.to_nat idx)%nat with (Z.to_nat (3 * idx)) by lia.
    replace (Z.to_nat (3 * idx) + 1)%nat with (Z.to_nat (3 * idx + 1)) by lia.
    replace (Z.to_nat (3 * idx) + 2)%nat with (Z.to_nat (3 * idx + 2)) by lia.
    reflexivity. }
  destruct (get_indexed_found (set_palette self0 (Some (triples bchd))) x y idx rest _
              (triples bchd) Hct eq_refl Hsl He) as (q & Hg & _).
  { left. reflexivity. }
  unfold get_value. rewrite Hg. reflexivity.
Qed.

Lemma palette_lookup_witness :
  get_value (mkPngDecode 1 1 3 1 8 0 [1] [] (Some [[1; 2; 3]; [10; 20; 30]]) None None) 0 0
  = Ok (10, 20, 30, 255).
Proof.
  apply (palette_lookup (mkPngDecode 1 1 3 1 8 0 [1] [] None None None)
           (mkPngDecode 1 1 3 1 8 0 [1] [] (Some [[1; 2; 3]; [10; 20; 30]]) None None)
           [1; 2; 3; 10; 20; 30] [] 0 0 1);
    first [ reflexivity | (vm_compute; discriminate)
          | (split; vm_compute; [discriminate | reflexivity]) ].
Defined.

(** ** The normalizer called as declared *)

Lemma py_round_scaled (x d k : Z) :
  0 < d -> d * k = 255 ->
  py_round (PyFloat (Qmult (Qdiv (inject_Z x) (inject_Z d)) (inject_Z 255))) = x * k.
Proof.
  intros Hd Hk.
  assert (Hq : Qeq (Qmult (Qdiv (inject_Z x) (inject_Z d)) (inject_Z 255))
                   (inject_Z (x * k))).
  { rewrite <- Hk. rewrite !inject_Z_mult. field.
    intros E. unfold Qeq in E. cbn [Qnum Qden inject_Z] in E. lia. }
  unfold py_round. cbv zeta.
  rewrite (Qfloor_comp _ _ Hq), Qfloor_Z.
  assert (Ht : Qeq (Qminus (Qmult (inject_Z 2)
                       (Qmult (Qdiv (inject_Z x) (inject_Z d)) (inject_Z 255)))
                     (inject_Z (2 * (x * k))))
                   (inject_Z 0)).
  { rewrite Hq. unfold Qeq, Qminus, Qplus, Qmult, Qopp, inject_Z.
    cbn [Qnum Qden Pos.mul]. lia. }
  rewrite (Qcompare_comp _ _ Ht _ _ (Qeq_refl (inject_Z 1))).
  reflexivity.
Qed.

(** X21. Called as declared, the normalizer of a non-indexed image maps the
    samples of depth 1, 2, 4 or 8 linearly onto 0..255: sample [x] becomes
    [x] times 255, 85, 17 or 1, so 0 stays 0 and the largest sample becomes
    255; the normalizer of an indexed image returns the sample as it is.
    (Float arithmetic is taken as exact; the quotients involved are whole
    numbers.) *)
Theorem GetNormalizer_linear (bits x : Z) :
  bits = 1 \/ bits = 2 \/ bits = 4 \/ bits = 8 ->
  0 <= x < 2 ^ bits ->
  GetNormalizer (VInt bits) (VBool false) x = Ok (x * scale_step bits) /\
  0 <= x * scale_step bits <= 255 /\
  (2 ^ bits - 1) * scale_step bits = 255 /\
  GetNormalizer (VInt bits) (VBool true) x = Ok x.
Proof.
  intros Hb Hx. unfold GetNormalizer, truthy, as_int. cbv zeta.
  assert (Hs : 0 < 2 ^ bits - 1 /\ (2 ^ bits - 1) * scale_step bits = 255 /\
               0 < scale_step bits /\ Z.shiftl 1 bits = 2 ^ bits /\ (bits <? 0) = false).
  { destruct Hb as [-> | [-> | [-> | ->]]]; vm_compute; repeat split; congruence. }
  destruct Hs as (Hd & Hk & Hp & Hsh & Hneg).
  rewrite Hneg, Hsh.
  destruct (Z.eqb_spec (2 ^ bits - 1) 0) as [E|_]; [lia|].
  assert (Hr : 0 <= x * scale_step bits <= 255).
  { split; [apply Z.mul_nonneg_nonneg; lia|].
    rewrite <- Hk. apply Z.mul_le_mono_nonneg_r; lia. }
  split; [|split; [exact Hr | split; [exact Hk | reflexivity]]].
  f_equal. rewrite Clamp_in_range;
    rewrite (py_round_scaled x (2 ^ bits - 1) (scale_step bits) Hd Hk);
    [reflexivity | exact Hr].
Qed.

Lemma GetNormalizer_linear_witness :
  GetNormalizer (VInt 2) (VBool false) 2 = Ok (2 * scale_step 2) /\
  0 <= 2 * scale_step 2 <= 255 /\
  (2 ^ 2 - 1) * scale_step 2 = 255 /\
  GetNormalizer (VInt 2) (VBool true) 2 = Ok 2.
Proof.
  apply (GetNormalizer_linear 2 2); [right; left; reflexivity | lia].
Defined.

(** ** From the file to the buffer *)

Lemma IHDR_header8 (self : PngDecode) (width height ct nc : Z) :
  0 <= width < 4294967296 -> 0 <= height < 4294967296 ->
  dict_get CHANNELS ct = Ok nc ->
  IHDR self (header8 width height ct)
  = Ok (mkPngDecode width height ct nc 8 0 (rgba self) (idat_data self) (palette self)
          (Some 0) (Some 0)).
Proof.
  intros Hw Hh Hc. unfold IHDR. cbv zeta.
  change (py_slice (header8 width height ct) 0 4) with (be32 width).
  change (py_slice (header8 width height ct) 4 8) with (be32 height).
  rewrite !be32_value by assumption.
  change (py_index (header8 width height ct) 8) with (@Ok Z 8).
  change (py_index (header8 width height ct) 9) with (@Ok Z ct).
  change (py_index (header8 width height ct) 10) with (@Ok Z 0).
  change (py_index (header8 width height ct) 11) with (@Ok Z 0).
  change (py_index (header8 width height ct) 12) with (@Ok Z 0).
  cbn [bind]. rewrite Hc. cbn [bind]. reflexivity.
Qed.

Section Files.

Variable inflate : list Z -> option (list Z).
Variable table : list Z -> option string.

(** X22. From the file to the buffer.  A file made of the signature, an
    IHDR chunk announcing an 8-bit image of a colour type that is not
    indexed, of width 1 to 2^32 - 1 and height 1 to 2^32 - 1, one IDAT
    chunk of fewer than 2^32 bytes and an IEND chunk, whose image data
    inflates to [height] rows of [width * channels] bytes with tags in 0..4
    (0 or 1 on the first row), is decoded: construction returns the decoder
    with the announced header, the image data as read, no palette, and as
    buffer the rows reconstructed by the table.  Bytes after the IEND chunk
    are ignored. *)
Theorem decode_file
  (width height ct nc : Z) (data junk : list Z)
  (r0 : Z * list Z) (rows : list (Z * list Z)) :
  direct_color ct nc ->
  0 < width < 4294967296 ->
  height = len (r0 :: rows) -> height < 4294967296 ->
  len data < 4294967296 ->
  inflate data = Some (stream_of (r0 :: rows)) ->
  0 <= fst r0 <= 1 ->
  Forall (row_ok (width * nc)) (r0 :: rows) ->
  PngDecode_init inflate table (png_file width height ct data junk)
  = Ok (mkPngDecode width height ct nc 8 0 (table_image nc [] (r0 :: rows)) data None
          (Some 0) (Some 0)).
Proof.
  intros Hc Hw Hh Hh' Hd Hi Ht0 Hrows.
  assert (Hnc : dict_get CHANNELS ct = Ok nc /\ 1 <= nc <= 4 /\ (ct =? 3) = false).
  { destruct Hc as [[-> ->] | [[-> ->] | [[-> ->] | [-> ->]]]];
      (split; [reflexivity | split; [lia | reflexivity]]). }
  destruct Hnc as (Hdict & Hnc & Hct).
  assert (Hh0 : 0 <= height) by (rewrite Hh; apply len_nonneg).
  unfold PngDecode_init, parse, read, png_file.
  change (firstn (Z.to_nat 8) (PNG_MAGIC ++ ?X)) with PNG_MAGIC.
  match goal with
  | |- context [skipn (Z.to_nat 8) (PNG_MAGIC ++ ?X)] =>
      change (skipn (Z.to_nat 8) (PNG_MAGIC ++ X)) with X
  end.
  change (negb (bytes_eqb PNG_MAGIC PNG_MAGIC)) with false. cbv iota.
  change (chunk T_IHDR (header8 width height ct))
    with (record T_IHDR (header8 width height ct) [0; 0; 0; 0]).
  change (chunk T_IDAT data) with (record T_IDAT data [0; 0; 0; 0]).
  change (chunk T_IEND []) with (record T_IEND [] [0; 0; 0; 0]).
  rewrite (chunk_loop_step table _ T_IHDR (header8 width height ct) [0; 0; 0; 0])
    by (reflexivity || apply Nat.le_refl).
  destruct (handle_chunk_named table fresh_decoder (header8 width height ct))
    as (-> & _ & _ & _).
  rewrite (IHDR_header8 fresh_decoder width height ct nc) by (assumption || lia).
  cbn [after_chunk rgba idat_data palette fresh_decoder].
  rewrite (chunk_loop_step table _ T_IDAT data [0; 0; 0; 0])
    by (reflexivity || assumption || (rewrite !length_app; lia)).
  match goal with
  | |- context [handle_chunk table ?s T_IDAT data] =>
      destruct (handle_chunk_named table s data) as (_ & _ & -> & _)
  end.
  cbn [after_chunk IDAT set_idat_data idat_data app w h color_type num_channels
       bit_depth compression rgba palette filter interlace].
  rewrite (chunk_loop_step table _ T_IEND [] [0; 0; 0; 0])
    by (reflexivity || (rewrite !length_app; lia)).
  match goal with
  | |- context [handle_chunk table ?s T_IEND []] =>
      destruct (handle_chunk_named table s (@nil Z)) as (_ & _ & _ & ->)
  end.
  cbn [after_chunk IEND bind]. unfold decompress, set_idat_data.
  cbn [idat_data idat_data app w h color_type num_channels
       bit_depth compression rgba palette filter interlace].
  rewrite Hi.
  rewrite reconstruct_rows;
    cbn [bit_depth num_channels w h rgba]; try assumption; try reflexivity; try lia.
  unfold set_rgba. cbn [bind color_type palette w h num_channels bit_depth compression
       idat_data filter interlace].
  rewrite Hct. reflexivity.
Qed.

End Files.

Lemma decode_file_witness :
  PngDecode_init stored no_table (png_file 3 2 0 [1; 10; 10; 10; 4; 1; 2; 250] [9; 9])
  = Ok (mkPngDecode 3 2 0 1 8 0 [10; 20; 30; 11; 22; 24] [1; 10; 10; 10; 4; 1; 2; 250]
          None (Some 0) (Some 0)).
Proof.
  apply (decode_file stored no_table 3 2 0 1 [1; 10; 10; 10; 4; 1; 2; 250] [9; 9]
           (1, [10; 10; 10]) [(4, [1; 2; 250])]).
  - left. split; reflexivity.
  - lia.
  - reflexivity.
  - reflexivity.
  - reflexivity.
  - reflexivity.
  - cbn [fst]. lia.
  - repeat constructor; cbn [fst snd]; try lia; unfold is_byte; lia.
Defined.

(** ** Indexed streams without a palette *)

(** A stream of an IHDR chunk that declares indexed colour, an IDAT chunk
    and an IEND chunk, with anything after it, is one whose chunks declare
    indexed colour and install no palette. *)
Lemma indexed_stream_no_palette (table : list Z -> option string)
  (hdr data d c1 c2 c3 junk : list Z) (s0 : PngDecode) :
  IHDR fresh_decoder hdr = Ok s0 ->
  color_type s0 = 3 ->
  len hdr < 4294967296 -> len data < 4294967296 -> len d < 4294967296 ->
  List.length c1 = 4%nat -> List.length c2 = 4%nat -> List.length c3 = 4%nat ->
  indexed_no_palette table
    (PNG_MAGIC ++ record T_IHDR hdr c1 ++ record T_IDAT data c2
               ++ record T_IEND d c3 ++ junk).
Proof.
  intros Hi Hc Hh Hd Hd' H1 H2 H3. split; [reflexivity|].
  exists (set_idat_data s0 (idat_data s0 ++ data)).
  split; [|split; [exact Hc|]].
  - unfold after_chunks.
    match goal with
    | |- context [skipn 8 (PNG_MAGIC ++ ?X)] =>
        change (skipn 8 (PNG_MAGIC ++ X)) with X
    end.
    rewrite (chunk_loop_step table _ T_IHDR hdr c1)
      by (reflexivity || assumption || apply Nat.le_refl).
    destruct (handle_chunk_named table fresh_decoder hdr) as (-> & _ & _ & _).
    rewrite Hi. cbn [after_chunk].
    rewrite (chunk_loop_step table _ T_IDAT data c2)
      by (reflexivity || assumption || (rewrite !length_app; lia)).
    destruct (handle_chunk_named table s0 data) as (_ & _ & -> & _).
    cbn [after_chunk IDAT].
    rewrite (chunk_loop_step table _ T_IEND d c3)
      by (reflexivity || assumption || (rewrite !length_app; lia)).
    destruct (handle_chunk_named table (set_idat_data s0 (idat_data s0 ++ data)) d)
      as (_ & _ & _ & ->).
    reflexivity.
  - change (palette (set_idat_data s0 (idat_data s0 ++ data))) with (palette s0).
    rewrite (IHDR_palette fresh_decoder s0 hdr Hi). reflexivity.
Qed.
